(** * Attendance / justification lifecycle of the hodory attendance backend

    A shallow embedding of the controllers under [backend/src/controllers]
    that drive the attendance life cycle, and the properties of the
    specification proved (or refuted) on it.

    Modelling conventions.
    - The relational store behind the SQLModel [Session] is a record of
      tables; a table is the list of its rows in storage order.
      [session.get(T, id)] is the first row with that primary key,
      [select(T).where(p).first()] the first row satisfying [p] and
      [.all()] every such row.  An attribute assignment followed by
      [session.add] and [session.commit] is an UPDATE by primary key.
    - Python integers are [Z], [Optional[T]] is [option T], [str] is [string];
      a Python [float] is an IEEE 754 binary64 number, with the operations
      of the Standard Library's [SpecFloat].
    - Controller methods run in a state-and-exception monad over the store:
      a raised exception keeps whatever was committed before it.
    - The INTEGER columns of the PostgreSQL schema are 32 bits wide.  The
      one place where the modelled controllers compute a stored integer
      from a stored integer is the absence counter in
      [SessionController.close_session]; its commit is modelled with the
      range check of the database.
    - Wall-clock columns ([created_at], [date_time], [closed_at]) and the
      denormalised [student_name]/[student_email] columns are left out: no
      branch of the modelled code reads them.
    - [session.refresh(obj)] reloads the row that was just written from
      [obj]; the model returns the object as it was written. *)

From Stdlib Require Import ZArith List String Ascii Bool Lia QArith Qround.
From Stdlib Require Import DecimalString Permutation SpecFloat.
Import ListNotations.

Open Scope string_scope.
Open Scope list_scope.
Open Scope Z_scope.

(** ** Python helpers *)

(** [str(n)] for an integer. *)
Definition str_of_int (n : Z) : string := NilZero.string_of_int (Z.to_int n).

(** [c.lower()] on an ASCII character. *)
Definition ascii_lower (c : ascii) : ascii :=
  let n := nat_of_ascii c in
  if (Nat.leb 65 n && Nat.leb n 90)%bool then ascii_of_nat (n + 32) else c.

(** [s.lower()], on ASCII strings. *)
Fixpoint lower (s : string) : string :=
  match s with
  | EmptyString => EmptyString
  | String c rest => String (ascii_lower c) (lower rest)
  end.

(** Truthiness of an [Optional[str]]: [None] and the empty string are falsy. *)
Definition truthy_str (s : option string) : bool :=
  match s with
  | Some (String _ _) => true
  | _ => false
  end.

(** [x in xs] for strings. *)
Definition str_in (x : string) (xs : list string) : bool :=
  existsb (String.eqb x) xs.

(** ** models/enums.py *)

Inductive AttendanceStatus := PRESENT | ABSENT | EXCLUDED.

Inductive JustificationStatus := PENDING | APPROVED | REJECTED.

Inductive NotificationType :=
  | JUSTIFICATION_SUBMITTED
  | JUSTIFICATION_REJECTED
  | JUSTIFICATION_APPROVED.

Definition AttendanceStatus_value (s : AttendanceStatus) : string :=
  match s with
  | PRESENT => "present"
  | ABSENT => "absent"
  | EXCLUDED => "excluded"
  end.

Definition JustificationStatus_value (s : JustificationStatus) : string :=
  match s with
  | PENDING => "pending"
  | APPROVED => "approved"
  | REJECTED => "rejected"
  end.

Definition AttendanceStatus_eqb (a b : AttendanceStatus) : bool :=
  match a, b with
  | PRESENT, PRESENT | ABSENT, ABSENT | EXCLUDED, EXCLUDED => true
  | _, _ => false
  end.

Definition JustificationStatus_eqb (a b : JustificationStatus) : bool :=
  match a, b with
  | PENDING, PENDING | APPROVED, APPROVED | REJECTED, REJECTED => true
  | _, _ => false
  end.

(** ** models/*.py: one record per table row *)

Module User.
Record t := mk { id : Z }.
End User.

Module Teacher.
Record t := mk { id : Z; user_id : Z }.
End Teacher.

Module Student.
Record t := mk { id : Z; user_id : Z; level_id : Z }.
End Student.

Module Module_.
Record t := mk { id : Z; name : string; room : option string }.
End Module_.

Module TeacherModules.
Record t := mk { id : Z; teacher_id : Z; module_id : Z }.
End TeacherModules.

Module Enrollment.
Record t := mk {
    id : Z;
    student_id : Z;
    module_id : Z;
    number_of_absences : Z;
    number_of_absences_justified : Z;
    is_excluded : bool
  }.

Definition with_is_excluded (b : bool) (e : t) : t :=
    mk (id e) (student_id e) (module_id e) (number_of_absences e)
       (number_of_absences_justified e) b.

Definition with_number_of_absences (n : Z) (e : t) : t :=
    mk (id e) (student_id e) (module_id e) n
       (number_of_absences_justified e) (is_excluded e).
End Enrollment.

Module ClassSession.
Record t := mk {
    id : Z;
    session_code : string;
    room : option string;
    duration_minutes : Z;
    is_active : bool;
    teacher_module_id : Z
  }.

Definition with_is_active (b : bool) (s : t) : t :=
    mk (id s) (session_code s) (room s) (duration_minutes s) b
       (teacher_module_id s).
End ClassSession.

Module AttendanceRecord.
Record t := mk {
    id : Z;
    status : AttendanceStatus;
    session_id : Z;
    module_id : Z;
    enrollement_id : Z;
    justification_id : option Z
  }.

Definition with_status (s : AttendanceStatus) (r : t) : t :=
    mk (id r) s (session_id r) (module_id r) (enrollement_id r)
       (justification_id r).

Definition with_justification_id (j : option Z) (r : t) : t :=
    mk (id r) (status r) (session_id r) (module_id r) (enrollement_id r) j.
End AttendanceRecord.

Module Justification.
Record t := mk {
    id : Z;
    attendance_record_id : Z;
    comment : option string;
    file_url : option string;
    status : JustificationStatus
  }.

Definition with_status (s : JustificationStatus) (j : t) : t :=
    mk (id j) (attendance_record_id j) (comment j) (file_url j) s.
End Justification.

Module Notification.
Record t := mk {
    id : Z;
    title : string;
    message : string;
    type : option NotificationType;
    is_read : bool;
    user_id : Z
  }.

Definition with_is_read (b : bool) (n : t) : t :=
  mk (id n) (title n) (message n) (type n) b (user_id n).
End Notification.

(** ** The SQLModel base: every table row has a primary key *)

Class SQLModel (T : Type) := { pk : T -> Z }.

#[global] Instance User_model : SQLModel User.t := {| pk := User.id |}.
#[global] Instance Teacher_model : SQLModel Teacher.t := {| pk := Teacher.id |}.
#[global] Instance Student_model : SQLModel Student.t := {| pk := Student.id |}.
#[global] Instance Module_model : SQLModel Module_.t := {| pk := Module_.id |}.
#[global] Instance TeacherModules_model : SQLModel TeacherModules.t :=
  {| pk := TeacherModules.id |}.
#[global] Instance Enrollment_model : SQLModel Enrollment.t :=
  {| pk := Enrollment.id |}.
#[global] Instance ClassSession_model : SQLModel ClassSession.t :=
  {| pk := ClassSession.id |}.
#[global] Instance AttendanceRecord_model : SQLModel AttendanceRecord.t :=
  {| pk := AttendanceRecord.id |}.
#[global] Instance Justification_model : SQLModel Justification.t :=
  {| pk := Justification.id |}.
#[global] Instance Notification_model : SQLModel Notification.t :=
  {| pk := Notification.id |}.

Section Table.
Context {T : Type} `{SQLModel T}.

  (** [session.get(T, i)] *)
Definition session_get (tbl : list T) (i : Z) : option T :=
    find (fun r => pk r =? i) tbl.

  (** [select(T).where(p).first()] *)
Definition select_first (p : T -> bool) (tbl : list T) : option T :=
    find p tbl.

  (** [select(T).where(p).all()] *)
Definition select_all (p : T -> bool) (tbl : list T) : list T :=
    filter p tbl.

  (** UPDATE of the row(s) whose primary key is [i]. *)
Definition sql_update (i : Z) (f : T -> T) (tbl : list T) : list T :=
    map (fun r => if pk r =? i then f r else r) tbl.

  (** The key the autoincrement column gives the next inserted row. *)
Definition next_id (tbl : list T) : Z :=
    1 + fold_right Z.max 0 (map pk tbl).

  (** Primary keys are unique. *)
Definition pk_unique (tbl : list T) : Prop := NoDup (map pk tbl).
End Table.

Section Delete.
Context {T : Type} `{SQLModel T}.


End Delete.

(** ** The store *)

Record Store := mkStore {
  users : list User.t;
  teachers : list Teacher.t;
  students : list Student.t;
  modules : list Module_.t;
  teacher_modules : list TeacherModules.t;
  enrollments : list Enrollment.t;
  sessions : list ClassSession.t;
  attendance_records : list AttendanceRecord.t;
  justifications : list Justification.t;
  notifications : list Notification.t
}.

Definition set_enrollments (f : list Enrollment.t -> list Enrollment.t)
    (st : Store) : Store :=
  mkStore (users st) (teachers st) (students st) (modules st)
    (teacher_modules st) (f (enrollments st)) (sessions st)
    (attendance_records st) (justifications st) (notifications st).

Definition set_sessions (f : list ClassSession.t -> list ClassSession.t)
    (st : Store) : Store :=
  mkStore (users st) (teachers st) (students st) (modules st)
    (teacher_modules st) (enrollments st) (f (sessions st))
    (attendance_records st) (justifications st) (notifications st).

Definition set_attendance_records
    (f : list AttendanceRecord.t -> list AttendanceRecord.t)
    (st : Store) : Store :=
  mkStore (users st) (teachers st) (students st) (modules st)
    (teacher_modules st) (enrollments st) (sessions st)
    (f (attendance_records st)) (justifications st) (notifications st).

Definition set_justifications
    (f : list Justification.t -> list Justification.t)
    (st : Store) : Store :=
  mkStore (users st) (teachers st) (students st) (modules st)
    (teacher_modules st) (enrollments st) (sessions st)
    (attendance_records st) (f (justifications st)) (notifications st).

Definition set_notifications
    (f : list Notification.t -> list Notification.t)
    (st : Store) : Store :=
  mkStore (users st) (teachers st) (students st) (modules st)
    (teacher_modules st) (enrollments st) (sessions st)
    (attendance_records st) (justifications st) (f (notifications st)).

(** ** Exceptions and the controller monad *)

(** [DataError] and [IntegrityError] are SQLAlchemy's: the database refused
    a value, here an integer outside the range of its column, or a row,
    here one without a value in a NOT NULL column.  [message] is the
    message of the database, without its quotation marks. *)
Inductive Exception :=
  | HTTPException (status_code : Z) (detail : string)
  | AttributeError (message : string)
  | DataError (message : string)
  | IntegrityError (message : string).

Definition HTTP_400_BAD_REQUEST : Z := 400.
Definition HTTP_403_FORBIDDEN : Z := 403.
Definition HTTP_404_NOT_FOUND : Z := 404.

Inductive Result (A : Type) :=
  | Ok (a : A)
  | Raise (e : Exception).
Arguments Ok {A} a.
Arguments Raise {A} e.

Definition M (A : Type) : Type := Store -> Result A * Store.

Definition ret {A} (a : A) : M A := fun st => (Ok a, st).

Definition raise {A} (e : Exception) : M A := fun st => (Raise e, st).

Definition bind {A B} (m : M A) (k : A -> M B) : M B :=
  fun st =>
    match m st with
    | (Ok a, st') => k a st'
    | (Raise e, st') => (Raise e, st')
    end.

(** Read the store ([session.get], [session.exec(select ...)]). *)
Definition query {A} (f : Store -> A) : M A := fun st => (Ok (f st), st).

(** Write the store ([session.add(obj)], made durable by the [commit] that
    follows it; no modelled method raises between the two). *)
Definition persist (f : Store -> Store) : M unit := fun st => (Ok tt, f st).

(** [try: body  except HTTPException as e: handler(e)]; any other exception
    propagates. *)
Definition try_except {A} (body : M A) (handler : Z -> string -> M A) : M A :=
  fun st =>
    match body st with
    | (Raise (HTTPException code detail), st') => handler code detail st'
    | other => other
    end.

Notation "x <- m ;; k" := (bind m (fun x => k))
  (at level 61, m at next level, right associativity).
Notation "m ;; k" := (bind m (fun _ => k))
  (at level 61, right associativity).

(** [for x in xs: body(x)] *)
Fixpoint for_each {A} (xs : list A) (body : A -> M unit) : M unit :=
  match xs with
  | [] => ret tt
  | x :: rest => body x ;; for_each rest body
  end.

Notation "a +++ b" := (String.append a b)
  (at level 60, right associativity).

(** [if not obj: raise HTTPException(code, detail)] after a lookup. *)
Definition or_raise {A} (o : option A) (code : Z) (detail : string) : M A :=
  match o with
  | Some a => ret a
  | None => raise (HTTPException code detail)
  end.

(** ** Numbers in response dictionaries *)

(** Round to the nearest integer, ties to even. *)
Definition round_half_even (q : Q) : Z :=
  let f := Qfloor q in
  match Qcompare (q - inject_Z f) (1 # 2) with
  | Lt => f
  | Gt => f + 1
  | Eq => if Z.even f then f else f + 1
  end.

(** A number in a response dictionary: a Python [int] or a Python [float]. *)
Inductive PyNum :=
  | PyInt (z : Z)
  | PyFloat (x : spec_float).

(** The format of a Python [float] (C [double]): 53 bits of precision,
    exponents below 1024. *)
Definition DBL_MANT_DIG : Z := 53.
Definition DBL_MAX_EXP : Z := 1024.

(** An integer as an exact operand of a floating-point operation. *)
Definition int_operand (z : Z) : spec_float :=
  match z with
  | Z0 => S754_zero false
  | Zpos p => S754_finite false p 0
  | Zneg p => S754_finite true p 0
  end.

(** [float(n)] *)
Definition float_of_int (n : Z) : spec_float :=
  binary_normalize DBL_MANT_DIG DBL_MAX_EXP n 0 false.

(** [a / b] on two integers: the quotient rounded once, to the nearest
    float.  The controllers divide by a length they have tested to be
    positive, so [ZeroDivisionError] is never reached. *)
Definition int_truediv (a b : Z) : spec_float :=
  SFdiv DBL_MANT_DIG DBL_MAX_EXP (int_operand a) (int_operand b).

(** [x * n] for a float [x] and an integer [n]. *)
Definition float_mul_int (x : spec_float) (n : Z) : spec_float :=
  SFmul DBL_MANT_DIG DBL_MAX_EXP x (float_of_int n).

(** The exact value of a finite float. *)
Definition float_value (x : spec_float) : Q :=
  match x with
  | S754_finite s m e =>
      ((if s then -1 else 1) * inject_Z (Z.pos m) * Qpower 2 e)%Q
  | _ => 0%Q
  end.

(** [round(x, 2)]: CPython rounds the exact value of [x] to two decimal
    places, ties to even, and returns the float nearest to that decimal. *)
Definition round2 (x : spec_float) : spec_float :=
  match x with
  | S754_finite s m e =>
      let k := round_half_even (float_value x * 100) in
      if k =? 0 then S754_zero s
      else SFdiv DBL_MANT_DIG DBL_MAX_EXP (int_operand k) (int_operand 100)
  | _ => x
  end.

(** [round((present / total * 100), 2)] *)
Definition percentage (present total : Z) : spec_float :=
  round2 (float_mul_int (int_truediv present total) 100).

(** [sum(1 for r in records if r.status == s)] *)
Definition count_status (s : AttendanceStatus)
    (records : list AttendanceRecord.t) : Z :=
  Z.of_nat (List.length
    (filter (fun r => AttendanceStatus_eqb (AttendanceRecord.status r) s) records)).

(** [d.get(key)] on a string-keyed dictionary. *)
Definition dict_lookup {V} (key : string) (d : list (string * V)) : option V :=
  option_map snd (find (fun kv => String.eqb (fst kv) key) d).

(** ** controllers/notification_controller.py *)

Module NotificationController.

Definition create_notification (user_id : Z) (title message : string)
    (notification_type : option NotificationType) : M Notification.t :=
  user <- query (fun st => session_get (users st) user_id) ;;
  _ <- or_raise user HTTP_404_NOT_FOUND
         ("User with ID " +++ str_of_int user_id +++ " not found") ;;
  match notification_type with
  | None =>
      (* the column [type] is NOT NULL: the INSERT is refused at the commit *)
      raise (IntegrityError "null value in column type violates not-null constraint")
  | Some _ =>
      new_id <- query (fun st => next_id (notifications st)) ;;
      let notification :=
        Notification.mk new_id title message notification_type false user_id in
      persist (set_notifications (fun tbl => tbl ++ [notification])) ;;
      ret notification
  end.


Definition get_notification_by_id (notification_id : Z) : M Notification.t :=
  notification <-
    query (fun st => session_get (notifications st) notification_id) ;;
  or_raise notification HTTP_404_NOT_FOUND
    ("Notification with ID " +++ str_of_int notification_id +++ " not found").

Definition mark_as_read (notification_id user_id : Z) : M Notification.t :=
  notification <- get_notification_by_id notification_id ;;
  if negb (Notification.user_id notification =? user_id) then
    raise (HTTPException HTTP_403_FORBIDDEN
             "You can only mark your own notifications as read")
  else if Notification.is_read notification then
    ret notification
  else
    persist (set_notifications
               (sql_update (Notification.id notification)
                  (Notification.with_is_read true))) ;;
    ret (Notification.with_is_read true notification).

End NotificationController.

(** ** controllers/attendance_controller.py *)

Module AttendanceController.

Definition get_attendance_by_id (attendance_id : Z) : M AttendanceRecord.t :=
  attendance <- query (fun st => session_get (attendance_records st) attendance_id) ;;
  or_raise attendance HTTP_404_NOT_FOUND
    ("Attendance record with ID " +++ str_of_int attendance_id +++ " not found").

(** The [valid_transitions] dictionary of [update_attendance_status]. *)
Definition valid_transitions : list (AttendanceStatus * list AttendanceStatus) :=
  [ (ABSENT, [PRESENT; EXCLUDED]);
    (PRESENT, [ABSENT]);
    (EXCLUDED, [ABSENT]) ].

(** [d.get(key, default)] on a status-keyed dictionary. *)
Definition dict_get {V} (d : list (AttendanceStatus * V))
    (key : AttendanceStatus) (default : V) : V :=
  match find (fun kv => AttendanceStatus_eqb (fst kv) key) d with
  | Some kv => snd kv
  | None => default
  end.

Definition status_in (s : AttendanceStatus) (l : list AttendanceStatus) : bool :=
  existsb (AttendanceStatus_eqb s) l.

Definition update_attendance_status (attendance_id : Z)
    (new_status : AttendanceStatus) : M AttendanceRecord.t :=
  attendance <- get_attendance_by_id attendance_id ;;
  if negb (status_in new_status
             (dict_get valid_transitions (AttendanceRecord.status attendance) []))
  then
    raise (HTTPException HTTP_400_BAD_REQUEST
             ("Cannot change status from "
              +++ AttendanceStatus_value (AttendanceRecord.status attendance)
              +++ " to " +++ AttendanceStatus_value new_status))
  else
    persist (set_attendance_records
               (sql_update (AttendanceRecord.id attendance)
                  (AttendanceRecord.with_status new_status))) ;;
    ret (AttendanceRecord.with_status new_status attendance).

(** The loop of [bulk_update_status]; [updated_records] is the accumulator
    the Python loop appends to. *)
Fixpoint bulk_update_loop (attendance_ids : list Z)
    (new_status : AttendanceStatus)
    (updated_records : list AttendanceRecord.t) : M (list AttendanceRecord.t) :=
  match attendance_ids with
  | [] => ret updated_records
  | attendance_id :: rest =>
      updated_records' <-
        try_except
          (record <- update_attendance_status attendance_id new_status ;;
           ret (updated_records ++ [record]))
          (fun _ _ => ret updated_records) ;;
      bulk_update_loop rest new_status updated_records'
  end.

Definition bulk_update_status (attendance_ids : list Z)
    (new_status : AttendanceStatus) : M (list AttendanceRecord.t) :=
  bulk_update_loop attendance_ids new_status [].


(** The dictionary [verify_enrollment_to_record] returns; a key the source
    leaves out of the dictionary is [None]. *)
Record VerifyResult := mkVerifyResult {
  is_enrolled : bool;
  vr_is_excluded : option bool;
  vr_reason : option string;
  vr_enrollment_id : option Z;
  vr_student_id : option Z;
  vr_module_id : option Z
}.

Definition verify_enrollment_to_record (student_id module_id : Z)
    : M VerifyResult :=
  student <- query (fun st => session_get (students st) student_id) ;;
  match student with
  | None =>
      ret (mkVerifyResult false None
             (Some ("Student with ID " +++ str_of_int student_id +++ " not found"))
             None None None)
  | Some _ =>
      module <- query (fun st => session_get (modules st) module_id) ;;
      match module with
      | None =>
          ret (mkVerifyResult false None
                 (Some ("Module with ID " +++ str_of_int module_id
                        +++ " not found"))
                 None None None)
      | Some _ =>
          enrollment <-
            query (fun st =>
              select_first
                (fun e => (Enrollment.student_id e =? student_id)
                          && (Enrollment.module_id e =? module_id))%bool
                (enrollments st)) ;;
          match enrollment with
          | None =>
              ret (mkVerifyResult false None
                     (Some "Student is not enrolled in this module")
                     None None None)
          | Some enrollment =>
              if Enrollment.is_excluded enrollment then
                ret (mkVerifyResult false (Some true)
                       (Some "Student is excluded from this module")
                       None None None)
              else
                ret (mkVerifyResult true None None
                       (Some (Enrollment.id enrollment))
                       (Some student_id) (Some module_id))
          end
      end
  end.


Definition get_attendance_by_enrollment (enrollment_id : Z)
    : M (list AttendanceRecord.t) :=
  enrollment <- query (fun st => session_get (enrollments st) enrollment_id) ;;
  _ <- or_raise enrollment HTTP_404_NOT_FOUND
         ("Enrollment with ID " +++ str_of_int enrollment_id +++ " not found") ;;
  query (fun st =>
    select_all (fun r => AttendanceRecord.enrollement_id r =? enrollment_id)
      (attendance_records st)).

(** Truthiness of an [Optional[int]] argument: [None] and [0] are falsy. *)
Definition truthy_int (n : option Z) : bool :=
  match n with
  | Some k => negb (k =? 0)
  | None => false
  end.

(** The dictionary [get_attendance_statistics] returns. *)
Record Statistics := mkStatistics {
  total_records : Z;
  present : Z;
  absent : Z;
  excluded : Z;
  attendance_rate : PyNum
}.

(** The filter [get_attendance_statistics] builds from its two optional
    arguments. *)
Definition statistics_filter (module_id session_id : option Z)
    (r : AttendanceRecord.t) : bool :=
  ((if truthy_int module_id
    then match module_id with
         | Some m => AttendanceRecord.module_id r =? m
         | None => true
         end
    else true)
   && (if truthy_int session_id
       then match session_id with
            | Some s => AttendanceRecord.session_id r =? s
            | None => true
            end
       else true))%bool.

Definition get_attendance_statistics (module_id session_id : option Z)
    : M Statistics :=
  records <-
    query (fun st =>
      select_all (statistics_filter module_id session_id)
        (attendance_records st)) ;;
  let total := Z.of_nat (List.length records) in
  if total =? 0 then
    ret (mkStatistics 0 0 0 0 (PyInt 0))
  else
    let present := count_status PRESENT records in
    let absent := count_status ABSENT records in
    let excluded := count_status EXCLUDED records in
    ret (mkStatistics total present absent excluded
           (PyFloat (round2 (float_mul_int (int_truediv present total) 100)))).

End AttendanceController.

(** ** controllers/enrollment_controller.py *)

Module EnrollmentController.

Definition get_enrollment_by_id (enrollment_id : Z) : M Enrollment.t :=
  enrollment <- query (fun st => session_get (enrollments st) enrollment_id) ;;
  or_raise enrollment HTTP_404_NOT_FOUND
    ("Enrollment with ID " +++ str_of_int enrollment_id +++ " not found").

Definition make_excluded_from_module (enrollment_id : Z) : M Enrollment.t :=
  enrollment <- get_enrollment_by_id enrollment_id ;;
  if Enrollment.is_excluded enrollment then
    raise (HTTPException HTTP_400_BAD_REQUEST
             "Student is already excluded from this module")
  else
    persist (set_enrollments
               (sql_update (Enrollment.id enrollment)
                  (Enrollment.with_is_excluded true))) ;;
    attendance_records <-
      query (fun st =>
        select_all
          (fun r => (AttendanceRecord.enrollement_id r =? enrollment_id)
                    && AttendanceStatus_eqb (AttendanceRecord.status r) ABSENT)%bool
          (attendance_records st)) ;;
    for_each attendance_records (fun record =>
      persist (set_attendance_records
                 (sql_update (AttendanceRecord.id record)
                    (AttendanceRecord.with_status EXCLUDED)))) ;;
    ret (Enrollment.with_is_excluded true enrollment).

Definition enroll_student (student_id module_id : Z) : M Enrollment.t :=
  student <- query (fun st => session_get (students st) student_id) ;;
  _ <- or_raise student HTTP_404_NOT_FOUND
         ("Student with ID " +++ str_of_int student_id +++ " not found") ;;
  module <- query (fun st => session_get (modules st) module_id) ;;
  _ <- or_raise module HTTP_404_NOT_FOUND
         ("Module with ID " +++ str_of_int module_id +++ " not found") ;;
  existing <-
    query (fun st =>
      select_first
        (fun e => (Enrollment.student_id e =? student_id)
                  && (Enrollment.module_id e =? module_id))%bool
        (enrollments st)) ;;
  match existing with
  | Some existing =>
      if Enrollment.is_excluded existing then
        persist (set_enrollments
                   (sql_update (Enrollment.id existing)
                      (Enrollment.with_is_excluded false))) ;;
        ret (Enrollment.with_is_excluded false existing)
      else
        raise (HTTPException HTTP_400_BAD_REQUEST
                 "Student is already enrolled in this module")
  | None =>
      new_id <- query (fun st => next_id (enrollments st)) ;;
      let enrollment := Enrollment.mk new_id student_id module_id 0 0 false in
      persist (set_enrollments (fun tbl => tbl ++ [enrollment])) ;;
      ret enrollment
  end.

(** The dictionary [bulk_enroll_students] returns. *)
Record BulkEnrollResult := mkBulkEnrollResult {
  be_module_id : Z;
  successful_enrollments : Z;
  failed_enrollments : Z;
  enrolled_students : list Z;
  failures : list (Z * string)   (* student_id, reason *)
}.

(** The loop of [bulk_enroll_students] over its two accumulators. *)
Fixpoint bulk_enroll_loop (student_ids : list Z) (module_id : Z)
    (success : list Z) (failed : list (Z * string))
    : M (list Z * list (Z * string)) :=
  match student_ids with
  | [] => ret (success, failed)
  | student_id :: rest =>
      acc <-
        try_except
          (_ <- enroll_student student_id module_id ;;
           ret (success ++ [student_id], failed))
          (fun _ detail => ret (success, failed ++ [(student_id, detail)])) ;;
      bulk_enroll_loop rest module_id (fst acc) (snd acc)
  end.

Definition bulk_enroll_students (student_ids : list Z) (module_id : Z)
    : M BulkEnrollResult :=
  module <- query (fun st => session_get (modules st) module_id) ;;
  _ <- or_raise module HTTP_404_NOT_FOUND
         ("Module with ID " +++ str_of_int module_id +++ " not found") ;;
  acc <- bulk_enroll_loop student_ids module_id [] [] ;;
  ret (mkBulkEnrollResult module_id
         (Z.of_nat (List.length (fst acc))) (Z.of_nat (List.length (snd acc)))
         (fst acc) (snd acc)).


Definition reinstate_student (enrollment_id : Z) : M Enrollment.t :=
  enrollment <- get_enrollment_by_id enrollment_id ;;
  if negb (Enrollment.is_excluded enrollment) then
    raise (HTTPException HTTP_400_BAD_REQUEST
             "Student is not excluded from this module")
  else
    persist (set_enrollments
               (sql_update (Enrollment.id enrollment)
                  (Enrollment.with_is_excluded false))) ;;
    ret (Enrollment.with_is_excluded false enrollment).


End EnrollmentController.

(** ** controllers/session_controller.py *)

Module SessionController.

(** The dictionary [mark_attendance] returns. *)
Record MarkAttendanceResult := mkMarkAttendanceResult {
  ma_message : string;
  ma_student_id : Z;
  ma_session_id : Z;
  ma_status : string
}.

Definition mark_attendance (share_code : string) (student_id : Z)
    : M MarkAttendanceResult :=
  session_obj <-
    query (fun st =>
      select_first (fun s => String.eqb (ClassSession.session_code s) share_code)
        (sessions st)) ;;
  session_obj <- or_raise session_obj HTTP_404_NOT_FOUND
                   "Invalid code. Session not found." ;;
  if negb (ClassSession.is_active session_obj) then
    raise (HTTPException HTTP_400_BAD_REQUEST
             "Session is closed. Cannot mark attendance.")
  else
    teacher_module <-
      query (fun st =>
        session_get (teacher_modules st)
          (ClassSession.teacher_module_id session_obj)) ;;
    teacher_module <- or_raise teacher_module HTTP_404_NOT_FOUND
                        "Session module not found" ;;
    enrollment <-
      query (fun st =>
        select_first
          (fun e => (Enrollment.student_id e =? student_id)
                    && (Enrollment.module_id e
                        =? TeacherModules.module_id teacher_module))%bool
          (enrollments st)) ;;
    enrollment <- or_raise enrollment HTTP_404_NOT_FOUND
                    "You are not enrolled in this module" ;;
    if Enrollment.is_excluded enrollment then
      raise (HTTPException HTTP_403_FORBIDDEN
               "You are excluded from this module")
    else
      attendance <-
        query (fun st =>
          select_first
            (fun r => (AttendanceRecord.session_id r
                       =? ClassSession.id session_obj)
                      && (AttendanceRecord.enrollement_id r
                          =? Enrollment.id enrollment))%bool
            (attendance_records st)) ;;
      attendance <- or_raise attendance HTTP_404_NOT_FOUND
                      "Attendance record not found" ;;
      if AttendanceStatus_eqb (AttendanceRecord.status attendance) PRESENT then
        raise (HTTPException HTTP_400_BAD_REQUEST
                 "Attendance already marked as present")
      else
        persist (set_attendance_records
                   (sql_update (AttendanceRecord.id attendance)
                      (AttendanceRecord.with_status PRESENT))) ;;
        ret (mkMarkAttendanceResult "Attendance marked successfully"
               student_id (ClassSession.id session_obj) "PRESENT").

(** The dictionary [close_session] returns; [cs_statistics] is the nested
    ["statistics"] dictionary, key by key. *)
Record CloseSessionResult := mkCloseSessionResult {
  cs_session_id : Z;
  cs_is_active : bool;
  cs_message : string;
  cs_statistics : list (string * PyNum)
}.

(** The body of the loop over the session's records in [close_session]. *)
Definition count_absence (record : AttendanceRecord.t) : M unit :=
  if AttendanceStatus_eqb (AttendanceRecord.status record) ABSENT then
    enrollment <-
      query (fun st =>
        session_get (enrollments st) (AttendanceRecord.enrollement_id record)) ;;
    match enrollment with
    | Some enrollment =>
        persist (set_enrollments
                   (sql_update (Enrollment.id enrollment)
                      (Enrollment.with_number_of_absences
                         (Enrollment.number_of_absences enrollment + 1))))
    | None => ret tt
    end
  else ret tt.

(** The largest value of an INTEGER column. *)
Definition INT4_MAX : Z := 2147483647.

(** The database refuses the UPDATE that turns the row [old] into [new]:
    the counter was changed and no longer fits its column. *)
Definition out_of_range (old new : Enrollment.t) : bool :=
  (negb (Enrollment.number_of_absences old =? Enrollment.number_of_absences new)
   && (INT4_MAX <? Enrollment.number_of_absences new))%bool.

(** [self.session.commit()] after the loop of [close_session]: the
    increments of the loop reach the database here, in one transaction.
    When one of them is refused ("integer out of range") the transaction
    is rolled back, so that the enrollment table is again [before], the
    table as the previous commit left it, and SQLAlchemy raises
    [DataError]. *)
Definition commit_counters (before : list Enrollment.t) : M unit :=
  fun st =>
    if existsb (fun row => out_of_range (fst row) (snd row))
         (combine before (enrollments st))
    then (Raise (DataError "integer out of range"),
          set_enrollments (fun _ => before) st)
    else (Ok tt, st).

Definition close_session (session_id teacher_id : Z) : M CloseSessionResult :=
  session_obj <- query (fun st => session_get (sessions st) session_id) ;;
  session_obj <- or_raise session_obj HTTP_404_NOT_FOUND
                   ("Session with ID " +++ str_of_int session_id +++ " not found") ;;
  if negb (ClassSession.is_active session_obj) then
    raise (HTTPException HTTP_400_BAD_REQUEST "Session is already closed")
  else
    teacher_module <-
      query (fun st =>
        session_get (teacher_modules st)
          (ClassSession.teacher_module_id session_obj)) ;;
    match teacher_module with
    | None =>
        raise (AttributeError
                 "'NoneType' object has no attribute 'teacher_id'")
    | Some teacher_module =>
        if negb (TeacherModules.teacher_id teacher_module =? teacher_id) then
          raise (HTTPException HTTP_403_FORBIDDEN
                   "You don't have permission to close this session")
        else
          persist (set_sessions
                     (sql_update (ClassSession.id session_obj)
                        (ClassSession.with_is_active false))) ;;
          records <-
            query (fun st =>
              select_all (fun r => AttendanceRecord.session_id r =? session_id)
                (attendance_records st)) ;;
          before <- query enrollments ;;
          for_each records count_absence ;;
          commit_counters before ;;
          let present := count_status PRESENT records in
          let absent := count_status ABSENT records in
          let total := Z.of_nat (List.length records) in
          ret (mkCloseSessionResult session_id false "Session closed"
                 [ ("total_students", PyInt total);
                   ("present", PyInt present);
                   ("absent", PyInt absent);
                   ("attendance_rate",
                    if total >? 0
                    then PyFloat
                           (round2 (float_mul_int (int_truediv present total)
                                      100))
                    else PyInt 0) ])
    end.

End SessionController.

(** ** controllers/justification_controller.py *)

Module JustificationController.

Definition get_justification_by_id (justification_id : Z) : M Justification.t :=
  justification <-
    query (fun st => session_get (justifications st) justification_id) ;;
  or_raise justification HTTP_404_NOT_FOUND
    ("Justification with ID " +++ str_of_int justification_id +++ " not found").

(** The notification step shared by [approve] and [reject]: walk
    justification -> attendance record -> enrollment -> student and notify
    the student's user when the whole chain resolves. *)
Definition notify_student (justification : Justification.t)
    (title message : string) (notification_type : NotificationType) : M unit :=
  attendance_record <-
    query (fun st =>
      session_get (attendance_records st)
        (Justification.attendance_record_id justification)) ;;
  match attendance_record with
  | None => ret tt
  | Some attendance_record =>
      enrollment <-
        query (fun st =>
          session_get (enrollments st)
            (AttendanceRecord.enrollement_id attendance_record)) ;;
      match enrollment with
      | None => ret tt
      | Some enrollment =>
          student <-
            query (fun st =>
              session_get (students st) (Enrollment.student_id enrollment)) ;;
          match student with
          | None => ret tt
          | Some student =>
              _ <- NotificationController.create_notification
                     (Student.user_id student) title message
                     (Some notification_type) ;;
              ret tt
          end
      end
  end.

Definition approve (justification_id : Z) : M Justification.t :=
  justification <- get_justification_by_id justification_id ;;
  if negb (JustificationStatus_eqb (Justification.status justification) PENDING)
  then
    raise (HTTPException HTTP_400_BAD_REQUEST
             ("Justification has already been "
              +++ lower (JustificationStatus_value
                           (Justification.status justification))))
  else
    persist (set_justifications
               (sql_update (Justification.id justification)
                  (Justification.with_status APPROVED))) ;;
    let justification := Justification.with_status APPROVED justification in
    notify_student justification "Justification Approved"
      ("Your justification for attendance record #"
       +++ str_of_int (Justification.attendance_record_id justification)
       +++ " has been approved.")
      JUSTIFICATION_APPROVED ;;
    ret justification.

Definition reject (justification_id : Z) : M Justification.t :=
  justification <- get_justification_by_id justification_id ;;
  if negb (JustificationStatus_eqb (Justification.status justification) PENDING)
  then
    raise (HTTPException HTTP_400_BAD_REQUEST
             ("Justification has already been "
              +++ lower (JustificationStatus_value
                           (Justification.status justification))))
  else
    persist (set_justifications
               (sql_update (Justification.id justification)
                  (Justification.with_status REJECTED))) ;;
    let justification := Justification.with_status REJECTED justification in
    notify_student justification "Justification Rejected"
      ("Your justification for attendance record #"
       +++ str_of_int (Justification.attendance_record_id justification)
       +++ " has been rejected.")
      JUSTIFICATION_REJECTED ;;
    ret justification.


Definition get_pending : M (list Justification.t) :=
  query (fun st =>
    select_all (fun j => JustificationStatus_eqb (Justification.status j) PENDING)
      (justifications st)).

Definition get_justifications_by_status (status_filter : JustificationStatus)
    : M (list Justification.t) :=
  query (fun st =>
    select_all
      (fun j => JustificationStatus_eqb (Justification.status j) status_filter)
      (justifications st)).

End JustificationController.

(** ** controllers/student_controller.py *)

Module StudentController.

Definition get_student_by_id (student_id : Z) : M Student.t :=
  student <- query (fun st => session_get (students st) student_id) ;;
  or_raise student HTTP_404_NOT_FOUND
    ("Student with ID " +++ str_of_int student_id +++ " not found").

(** The rows of
    [select(ClassSession, TeacherModules.module_id, Module.name)
       .join(TeacherModules, ...).join(Module, ...)
       .where(ClassSession.session_code == session_code)]. *)
Definition session_module_rows (session_code : string) (st : Store)
    : list (ClassSession.t * Z * string) :=
  flat_map (fun s =>
    flat_map (fun tm =>
      map (fun m => (s, TeacherModules.module_id tm, Module_.name m))
        (filter (fun m => Module_.id m =? TeacherModules.module_id tm)
           (modules st)))
      (filter (fun tm => TeacherModules.id tm =? ClassSession.teacher_module_id s)
         (teacher_modules st)))
    (filter (fun s => String.eqb (ClassSession.session_code s) session_code)
       (sessions st)).

(** The dictionary [mark_attendance] returns. *)
Record MarkAttendanceResult := mkMarkAttendanceResult {
  ma_attendance_id : Z;
  ma_status : string;
  ma_module_id : Z;
  ma_module_name : string;
  ma_session_id : Z;
  ma_session_code : string;
  ma_enrollment_id : Z;
  ma_number_of_absences : Z;
  ma_number_of_absences_justified : Z
}.

Definition mark_attendance (student_id : Z) (session_code : string)
    : M MarkAttendanceResult :=
  _ <- get_student_by_id student_id ;;
  row <- query (fun st => hd_error (session_module_rows session_code st)) ;;
  match row with
  | None => raise (HTTPException HTTP_404_NOT_FOUND "Invalid session code")
  | Some (session_obj, module_id, module_name) =>
      if negb (ClassSession.is_active session_obj) then
        raise (HTTPException HTTP_400_BAD_REQUEST
                 "Session is closed. Cannot mark attendance.")
      else if module_id =? 0 then
        raise (HTTPException HTTP_404_NOT_FOUND
                 "Module not found for this session")
      else
        enrollment <-
          query (fun st =>
            select_first
              (fun e => (Enrollment.student_id e =? student_id)
                        && (Enrollment.module_id e =? module_id))%bool
              (enrollments st)) ;;
        enrollment <- or_raise enrollment HTTP_403_FORBIDDEN
                        "You are not enrolled in this module" ;;
        if Enrollment.is_excluded enrollment then
          raise (HTTPException HTTP_403_FORBIDDEN
                   "You are excluded from this module")
        else
          attendance <-
            query (fun st =>
              select_first
                (fun r => (AttendanceRecord.session_id r
                           =? ClassSession.id session_obj)
                          && (AttendanceRecord.enrollement_id r
                              =? Enrollment.id enrollment))%bool
                (attendance_records st)) ;;
          attendance <- or_raise attendance HTTP_404_NOT_FOUND
                          "No attendance record found for this session" ;;
          if AttendanceStatus_eqb (AttendanceRecord.status attendance) PRESENT
          then
            raise (HTTPException HTTP_400_BAD_REQUEST
                     "Attendance already marked as present")
          else
            persist (set_attendance_records
                       (sql_update (AttendanceRecord.id attendance)
                          (AttendanceRecord.with_status PRESENT))) ;;
            ret (mkMarkAttendanceResult
                   (AttendanceRecord.id attendance)
                   (AttendanceStatus_value PRESENT)
                   module_id
                   (if String.eqb module_name "" then "Unknown" else module_name)
                   (ClassSession.id session_obj)
                   (ClassSession.session_code session_obj)
                   (Enrollment.id enrollment)
                   (Enrollment.number_of_absences enrollment)
                   (Enrollment.number_of_absences_justified enrollment))
  end.

Definition justify_absence (student_id attendance_record_id : Z)
    (comment : string) (file_url : option string) : M Justification.t :=
  student <- get_student_by_id student_id ;;
  attendance <-
    query (fun st => session_get (attendance_records st) attendance_record_id) ;;
  attendance <- or_raise attendance HTTP_404_NOT_FOUND
                  ("Attendance record with ID "
                   +++ str_of_int attendance_record_id +++ " not found") ;;
  enrollment <-
    query (fun st =>
      session_get (enrollments st) (AttendanceRecord.enrollement_id attendance)) ;;
  if match enrollment with
     | None => true
     | Some enrollment => negb (Enrollment.student_id enrollment =? student_id)
     end
  then
    raise (HTTPException HTTP_403_FORBIDDEN
             "This attendance record does not belong to you")
  else if negb (AttendanceStatus_eqb (AttendanceRecord.status attendance) ABSENT)
  then
    raise (HTTPException HTTP_400_BAD_REQUEST "Can only justify absences")
  else
    existing <-
      query (fun st =>
        select_first
          (fun j => Justification.attendance_record_id j =? attendance_record_id)
          (justifications st)) ;;
    match existing with
    | Some _ =>
        raise (HTTPException HTTP_400_BAD_REQUEST
                 "A justification already exists for this absence")
    | None =>
        new_id <- query (fun st => next_id (justifications st)) ;;
        let justification :=
          Justification.mk new_id attendance_record_id (Some comment) file_url
            PENDING in
        persist (set_justifications (fun tbl => tbl ++ [justification])) ;;
        persist (set_attendance_records
                   (sql_update (AttendanceRecord.id attendance)
                      (AttendanceRecord.with_justification_id
                         (Some (Justification.id justification))))) ;;
        _ <- NotificationController.create_notification
               (Student.user_id student) "Justification Submitted"
               ("Your justification for attendance record #"
                +++ str_of_int attendance_record_id
                +++ " has been submitted and is pending review.")
               (Some JUSTIFICATION_SUBMITTED) ;;
        ret justification
    end.


(** The loop of [get_modules] over the student's active enrollments; [acc]
    is the list the Python loop appends to. *)
Fixpoint modules_of (enrollments : list Enrollment.t) (acc : list Module_.t)
    : M (list Module_.t) :=
  match enrollments with
  | [] => ret acc
  | enrollment :: rest =>
      module <-
        query (fun st => session_get (modules st)
                           (Enrollment.module_id enrollment)) ;;
      match module with
      | Some module => modules_of rest (acc ++ [module])
      | None => modules_of rest acc
      end
  end.

Definition get_modules (student_id : Z) : M (list Module_.t) :=
  _ <- get_student_by_id student_id ;;
  enrollments <-
    query (fun st =>
      select_all
        (fun e => (Enrollment.student_id e =? student_id)
                  && Bool.eqb (Enrollment.is_excluded e) false)%bool
        (enrollments st)) ;;
  modules_of enrollments [].

End StudentController.

(** ** controllers/teacher_controller.py *)

Module TeacherController.

Definition _verify_teacher_owns_session (session_obj : ClassSession.t)
    (teacher_id : Z) : M bool :=
  teacher_module <-
    query (fun st =>
      session_get (teacher_modules st)
        (ClassSession.teacher_module_id session_obj)) ;;
  match teacher_module with
  | None => ret false
  | Some teacher_module =>
      if negb (TeacherModules.teacher_id teacher_module =? teacher_id)
      then ret false
      else ret true
  end.

(** One entry of the ["attendance_records"] list [create_session] returns. *)
Record CreatedAttendance := mkCreatedAttendance {
  ca_attendance_id : Z;
  ca_student_id : Z;
  ca_enrollment_id : Z;
  ca_number_of_absences : Z;
  ca_number_of_absences_justified : Z;
  ca_is_excluded : bool;
  ca_status : string
}.

(** The dictionary [create_session] returns. *)
Record CreateSessionResult := mkCreateSessionResult {
  cr_message : string;
  cr_session_id : Z;
  cr_module_id : Z;
  cr_module_name : string;
  cr_teacher_id : Z;
  cr_share_code : string;
  cr_duration_minutes : Z;
  cr_room : option string;
  cr_is_active : bool;
  cr_students_enrolled : Z;
  cr_attendance_records : list CreatedAttendance
}.

(** The loop of [create_session] over the selected enrollments; the
    accumulator is the list the Python loop appends to. *)
Fixpoint create_attendance_loop (enrollments : list Enrollment.t)
    (new_session_id module_id : Z) (acc : list CreatedAttendance)
    : M (list CreatedAttendance) :=
  match enrollments with
  | [] => ret acc
  | enrollment :: rest =>
      new_id <- query (fun st => next_id (attendance_records st)) ;;
      let attendance :=
        AttendanceRecord.mk new_id ABSENT new_session_id module_id
          (Enrollment.id enrollment) None in
      persist (set_attendance_records (fun tbl => tbl ++ [attendance])) ;;
      create_attendance_loop rest new_session_id module_id
        (acc ++ [mkCreatedAttendance
                   (AttendanceRecord.id attendance)
                   (Enrollment.student_id enrollment)
                   (Enrollment.id enrollment)
                   (Enrollment.number_of_absences enrollment)
                   (Enrollment.number_of_absences_justified enrollment)
                   (Enrollment.is_excluded enrollment)
                   (AttendanceStatus_value ABSENT)])
  end.

(** [share_code] is the value [SessionController.generate_share_code()]
    (six hex digits of a random UUID) returned for this call. *)
Definition create_session (share_code : string)
    (teacher_id module_id duration_minutes : Z) (room : option string)
    : M CreateSessionResult :=
  teacher <- query (fun st => session_get (teachers st) teacher_id) ;;
  _ <- or_raise teacher HTTP_404_NOT_FOUND
         ("Teacher with ID " +++ str_of_int teacher_id +++ " not found") ;;
  module <- query (fun st => session_get (modules st) module_id) ;;
  module <- or_raise module HTTP_404_NOT_FOUND
              ("Module with ID " +++ str_of_int module_id +++ " not found") ;;
  teacher_module <-
    query (fun st =>
      select_first
        (fun tm => (TeacherModules.teacher_id tm =? teacher_id)
                   && (TeacherModules.module_id tm =? module_id))%bool
        (teacher_modules st)) ;;
  teacher_module <- or_raise teacher_module HTTP_403_FORBIDDEN
                      "Teacher is not assigned to this module" ;;
  let session_room := if truthy_str room then room else Module_.room module in
  new_id <- query (fun st => next_id (sessions st)) ;;
  let new_session :=
    ClassSession.mk new_id share_code session_room duration_minutes true
      (TeacherModules.id teacher_module) in
  persist (set_sessions (fun tbl => tbl ++ [new_session])) ;;
  enrollments <-
    query (fun st =>
      select_all
        (fun e => (Enrollment.module_id e =? module_id)
                  && Bool.eqb (Enrollment.is_excluded e) false)%bool
        (enrollments st)) ;;
  attendance_records <-
    create_attendance_loop enrollments (ClassSession.id new_session)
      module_id [] ;;
  ret (mkCreateSessionResult
         ("Session created. "
          +++ str_of_int (Z.of_nat (List.length attendance_records))
          +++ " attendance records created.")
         (ClassSession.id new_session) module_id (Module_.name module)
         teacher_id share_code duration_minutes session_room true
         (Z.of_nat (List.length attendance_records)) attendance_records).

(** The dictionary [close_session] returns. *)
Record CloseSessionResult := mkCloseSessionResult {
  cl_success : bool;
  cl_message : string;
  cl_session_id : Z;
  cl_is_active : bool
}.

Definition close_session (session_id teacher_id : Z) : M CloseSessionResult :=
  session_obj <- query (fun st => session_get (sessions st) session_id) ;;
  session_obj <- or_raise session_obj HTTP_404_NOT_FOUND
                   ("Session with ID " +++ str_of_int session_id +++ " not found") ;;
  owns <- _verify_teacher_owns_session session_obj teacher_id ;;
  if negb owns then
    raise (HTTPException HTTP_403_FORBIDDEN
             "You do not have permission to close this session")
  else if negb (ClassSession.is_active session_obj) then
    raise (HTTPException HTTP_400_BAD_REQUEST "Session is already closed")
  else
    persist (set_sessions
               (sql_update (ClassSession.id session_obj)
                  (ClassSession.with_is_active false))) ;;
    ret (mkCloseSessionResult true "Session closed successfully"
           session_id false).

(** The parts of the dictionary [validate_justification] returns that depend
    on the decision. *)
Record ValidateResult := mkValidateResult {
  vr_message : string;
  vr_justification : Justification.t;
  vr_teacher_notes : option string;
  vr_attendance_id : Z;
  vr_attendance_status : string
}.

Definition validate_justification (justification_id teacher_id : Z)
    (decision : string) (teacher_notes : option string) : M ValidateResult :=
  let decision_lower := lower decision in
  if negb (str_in decision_lower ["approve"; "reject"]) then
    raise (HTTPException HTTP_400_BAD_REQUEST
             "Decision must be 'approve' or 'reject'")
  else
    justification <-
      query (fun st => session_get (justifications st) justification_id) ;;
    justification <- or_raise justification HTTP_404_NOT_FOUND
                       ("Justification with ID "
                        +++ str_of_int justification_id +++ " not found") ;;
    if negb (JustificationStatus_eqb (Justification.status justification) PENDING)
    then
      raise (HTTPException HTTP_400_BAD_REQUEST
               ("Justification has already been "
                +++ JustificationStatus_value (Justification.status justification)))
    else
      attendance_record <-
        query (fun st =>
          session_get (attendance_records st)
            (Justification.attendance_record_id justification)) ;;
      attendance_record <- or_raise attendance_record HTTP_404_NOT_FOUND
                             "Attendance record not found for this justification" ;;
      session_obj <-
        query (fun st =>
          session_get (sessions st)
            (AttendanceRecord.session_id attendance_record)) ;;
      session_obj <- or_raise session_obj HTTP_404_NOT_FOUND
                       "Session not found for this attendance record" ;;
      owns <- _verify_teacher_owns_session session_obj teacher_id ;;
      if negb owns then
        raise (HTTPException HTTP_403_FORBIDDEN
                 "You do not have permission to validate this justification")
      else
        result <-
          (if String.eqb decision_lower "approve" then
             updated_justification <-
               JustificationController.approve justification_id ;;
             persist (set_attendance_records
                        (sql_update (AttendanceRecord.id attendance_record)
                           (AttendanceRecord.with_status PRESENT))) ;;
             ret (updated_justification,
                  AttendanceRecord.with_status PRESENT attendance_record)
           else
             updated_justification <-
               JustificationController.reject justification_id ;;
             ret (updated_justification, attendance_record)) ;;
        let updated_justification := fst result in
        let attendance_record := snd result in
        ret (mkValidateResult
               ("Justification has been " +++ decision_lower +++ "d successfully")
               updated_justification teacher_notes
               (AttendanceRecord.id attendance_record)
               (AttendanceStatus_value
                  (AttendanceRecord.status attendance_record))).


(** The dictionary [restore_justification] returns. *)
Record RestoreResult := mkRestoreResult {
  rr_message : string;
  rr_justification_id : Z;
  rr_status : string;
  rr_attendance_record_id : Z
}.

Definition restore_justification (justification_id teacher_id : Z)
    : M RestoreResult :=
  teacher <- query (fun st => session_get (teachers st) teacher_id) ;;
  _ <- or_raise teacher HTTP_404_NOT_FOUND
         ("Teacher with ID " +++ str_of_int teacher_id +++ " not found") ;;
  justification <-
    query (fun st => session_get (justifications st) justification_id) ;;
  justification <- or_raise justification HTTP_404_NOT_FOUND
                     ("Justification with ID "
                      +++ str_of_int justification_id +++ " not found") ;;
  if negb (JustificationStatus_eqb (Justification.status justification) REJECTED)
  then
    raise (HTTPException HTTP_400_BAD_REQUEST
             "Only rejected justifications can be restored")
  else
    attendance_record <-
      query (fun st =>
        session_get (attendance_records st)
          (Justification.attendance_record_id justification)) ;;
    attendance_record <- or_raise attendance_record HTTP_404_NOT_FOUND
                           "Attendance record not found for this justification" ;;
    session_obj <-
      query (fun st =>
        session_get (sessions st)
          (AttendanceRecord.session_id attendance_record)) ;;
    session_obj <- or_raise session_obj HTTP_404_NOT_FOUND
                     "Session not found for this attendance record" ;;
    owns <- _verify_teacher_owns_session session_obj teacher_id ;;
    if negb owns then
      raise (HTTPException HTTP_403_FORBIDDEN
               "You do not have permission to restore this justification")
    else
      persist (set_justifications
                 (sql_update (Justification.id justification)
                    (Justification.with_status PENDING))) ;;
      (if negb (AttendanceStatus_eqb
                  (AttendanceRecord.status attendance_record) ABSENT)
       then
         persist (set_attendance_records
                    (sql_update (AttendanceRecord.id attendance_record)
                       (AttendanceRecord.with_status ABSENT)))
       else ret tt) ;;
      ret (mkRestoreResult "Justification restored to pending"
             (Justification.id justification)
             (JustificationStatus_value PENDING)
             (AttendanceRecord.id attendance_record)).

End TeacherController.

(** ** A concrete store

    One teacher (id 1) assigned to module 1 through assignment 1, a second
    teacher (id 2) without assignment, seven students of whom five are
    enrolled in module 1, the sixth is excluded from it and the seventh is
    not enrolled, the open
    session 1 (code "ABC123") with three ABSENT and two PRESENT records,
    and the closed session 2 (code "XYZ789") with one ABSENT record. *)

Definition scenario_store : Store :=
  mkStore
    (map User.mk [10; 11; 12; 13; 14; 15; 16; 17; 20])
    [Teacher.mk 1 10; Teacher.mk 2 20]
    [Student.mk 1 11 1; Student.mk 2 12 1; Student.mk 3 13 1;
     Student.mk 4 14 1; Student.mk 5 15 1; Student.mk 6 16 1;
     Student.mk 7 17 1]
    [Module_.mk 1 "Algorithms" (Some "A1")]
    [TeacherModules.mk 1 1 1]
    [Enrollment.mk 1 1 1 0 0 false; Enrollment.mk 2 2 1 0 0 false;
     Enrollment.mk 3 3 1 2 0 false; Enrollment.mk 4 4 1 0 0 false;
     Enrollment.mk 5 5 1 1 1 false; Enrollment.mk 6 6 1 3 0 true]
    [ClassSession.mk 1 "ABC123" (Some "A1") 90 true 1;
     ClassSession.mk 2 "XYZ789" (Some "A1") 90 false 1]
    [AttendanceRecord.mk 1 ABSENT 1 1 1 None;
     AttendanceRecord.mk 2 ABSENT 1 1 2 None;
     AttendanceRecord.mk 3 ABSENT 1 1 3 None;
     AttendanceRecord.mk 4 PRESENT 1 1 4 None;
     AttendanceRecord.mk 5 PRESENT 1 1 5 None;
     AttendanceRecord.mk 6 ABSENT 2 1 1 None]
    []
    [].

(** The concrete store after student 1 submitted a justification for the
    ABSENT record 1, and after teacher 1 rejected that justification. *)
Definition submitted_store : Store :=
  snd (StudentController.justify_absence 1 1 "medical certificate" None
         scenario_store).

Definition rejected_store : Store :=
  snd (TeacherController.validate_justification 1 1 "reject" None
         submitted_store).

(** ** The specification's transition table (section 4.3) *)

Definition spec_allow_list : list (AttendanceStatus * AttendanceStatus) :=
  [ (ABSENT, PRESENT); (ABSENT, EXCLUDED); (PRESENT, ABSENT); (EXCLUDED, ABSENT) ].

(** ** Vocabulary of the statements *)

(** How many ABSENT records of [records] belong to enrollment [enrollment_id]. *)
Definition absent_refs (records : list AttendanceRecord.t) (enrollment_id : Z) : Z :=
  Z.of_nat (List.length
    (filter (fun r => AttendanceStatus_eqb (AttendanceRecord.status r) ABSENT
                      && (AttendanceRecord.enrollement_id r =? enrollment_id))%bool
       records)).

(** Decidable form of [NoDup] on keys. *)
Fixpoint nodupb (l : list Z) : bool :=
  match l with
  | [] => true
  | x :: rest => negb (existsb (Z.eqb x) rest) && nodupb rest
  end.

(** What one iteration of the loop does to an enrollment row. *)
Definition bump1 (record : AttendanceRecord.t) (e : Enrollment.t) : Enrollment.t :=
  if (AttendanceStatus_eqb (AttendanceRecord.status record) ABSENT
      && (AttendanceRecord.enrollement_id record =? Enrollment.id e))%bool
  then Enrollment.with_number_of_absences (Enrollment.number_of_absences e + 1) e
  else e.

(** What the whole loop does to an enrollment row. *)
Definition bump (records : list AttendanceRecord.t) (e : Enrollment.t)
    : Enrollment.t :=
  Enrollment.with_number_of_absences
    (Enrollment.number_of_absences e + absent_refs records (Enrollment.id e)) e.

(** What [make_excluded_from_module] does to an attendance row. *)
Definition exclude_absent (enrollment_id : Z) (r : AttendanceRecord.t)
    : AttendanceRecord.t :=
  if ((AttendanceRecord.enrollement_id r =? enrollment_id)
      && AttendanceStatus_eqb (AttendanceRecord.status r) ABSENT)%bool
  then AttendanceRecord.with_status EXCLUDED r
  else r.

(** The rows [create_session] inserts for the selected enrollments, the
    first of them under key [first_id]. *)
Fixpoint new_attendance_rows (first_id new_session_id module_id : Z)
    (selected : list Enrollment.t) : list AttendanceRecord.t :=
  match selected with
  | [] => []
  | e :: rest =>
      AttendanceRecord.mk first_id ABSENT new_session_id module_id
        (Enrollment.id e) None
      :: new_attendance_rows (first_id + 1) new_session_id module_id rest
  end.

(** The ["attendance_records"] entry of the response for one inserted row. *)
Definition created_entry (re : AttendanceRecord.t * Enrollment.t)
    : TeacherController.CreatedAttendance :=
  TeacherController.mkCreatedAttendance
    (AttendanceRecord.id (fst re))
    (Enrollment.student_id (snd re))
    (Enrollment.id (snd re))
    (Enrollment.number_of_absences (snd re))
    (Enrollment.number_of_absences_justified (snd re))
    (Enrollment.is_excluded (snd re))
    (AttendanceStatus_value ABSENT).

(** The enrollments [create_session] selects: those of the module that are
    not excluded. *)
Definition enrolled_in (module_id : Z) (e : Enrollment.t) : bool :=
  ((Enrollment.module_id e =? module_id)
   && Bool.eqb (Enrollment.is_excluded e) false)%bool.

(** [l1] is [l2] with some elements left out, order kept. *)
Inductive sublist {A : Type} : list A -> list A -> Prop :=
  | sublist_nil : sublist [] []
  | sublist_skip : forall x l1 l2, sublist l1 l2 -> sublist l1 (x :: l2)
  | sublist_keep : forall x l1 l2, sublist l1 l2 -> sublist (x :: l1) (x :: l2).

(** The store after a successful [justify_absence], before the notification
    is added. *)
Definition submitted (st : Store) (attendance_record_id : Z)
    (j : Justification.t) : Store :=
  set_attendance_records
    (sql_update attendance_record_id
       (AttendanceRecord.with_justification_id (Some (Justification.id j))))
    (set_justifications (fun tbl => tbl ++ [j]) st).

(** Whether the attendance record belongs to the student: its enrollment
    exists and is the student's. *)
Definition belongs_to (st : Store) (a : AttendanceRecord.t) (student_id : Z)
    : bool :=
  match session_get (enrollments st) (AttendanceRecord.enrollement_id a) with
  | Some e => Enrollment.student_id e =? student_id
  | None => false
  end.

(** Every student row points to an existing user (the foreign key of
    [students.user_id]). *)
Definition students_have_users (st : Store) : Prop :=
  forall s, In s (students st) ->
    session_get (users st) (Student.user_id s) <> None.

(** At most one enrollment per (student, module) pair. *)
Definition enrollment_pairs_unique (tbl : list Enrollment.t) : Prop :=
  NoDup (map (fun e => (Enrollment.student_id e, Enrollment.module_id e)) tbl).

(** At most one attendance record per (session, enrollment) pair. *)
Definition record_pairs_unique (tbl : list AttendanceRecord.t) : Prop :=
  NoDup (map (fun r => (AttendanceRecord.session_id r,
                        AttendanceRecord.enrollement_id r)) tbl).

(** The enrollment of a student in a module, as the controllers look it up. *)
Definition enrollment_of (student_id module_id : Z) (st : Store)
    : option Enrollment.t :=
  select_first
    (fun e => (Enrollment.student_id e =? student_id)
              && (Enrollment.module_id e =? module_id))%bool
    (enrollments st).

(** Whether the teacher owns the session, as [_verify_teacher_owns_session]
    decides it. *)
Definition owns_session (st : Store) (s : ClassSession.t) (teacher_id : Z)
    : bool :=
  match session_get (teacher_modules st) (ClassSession.teacher_module_id s) with
  | Some tm => TeacherModules.teacher_id tm =? teacher_id
  | None => false
  end.

(** What closing session [session_id] does to a session row. *)
Definition closed_row (session_id : Z) (s : ClassSession.t) : ClassSession.t :=
  if ClassSession.id s =? session_id
  then ClassSession.with_is_active false s else s.

(** The update of record [attendance_id] to [new_status] would be refused:
    there is no such record, or its status does not allow the transition. *)
Definition blocked (attendance_id : Z) (new_status : AttendanceStatus)
    (st : Store) : Prop :=
  match session_get (attendance_records st) attendance_id with
  | None => True
  | Some a =>
      AttendanceController.status_in new_status
        (AttendanceController.dict_get AttendanceController.valid_transitions
           (AttendanceRecord.status a) []) = false
  end.

(** No counter that closing a session with the records [records] raises
    leaves the INTEGER column: an enrollment is either not referred to by an
    ABSENT record or its raised counter is at most [INT4_MAX]. *)
Definition counters_fit (records : list AttendanceRecord.t)
    (tbl : list Enrollment.t) : bool :=
  forallb (fun e =>
             (absent_refs records (Enrollment.id e) =? 0)
             || (Enrollment.number_of_absences e
                 + absent_refs records (Enrollment.id e)
                 <=? SessionController.INT4_MAX))%bool
    tbl.

(** The concrete store with the absence counter of enrollment 1 at the
    largest value of its column. *)
Definition full_counter_store : Store :=
  set_enrollments
    (sql_update 1 (Enrollment.with_number_of_absences SessionController.INT4_MAX))
    scenario_store.

(** * Properties *)

Lemma AttendanceStatus_eqb_eq (a b : AttendanceStatus) :
  AttendanceStatus_eqb a b = true <-> a = b.
Proof. destruct a, b; simpl; split; congruence. Qed.

Lemma AttendanceStatus_eqb_refl (a : AttendanceStatus) :
  AttendanceStatus_eqb a a = true.
Proof. now destruct a. Qed.

Lemma JustificationStatus_eqb_eq (a b : JustificationStatus) :
  JustificationStatus_eqb a b = true <-> a = b.
Proof. destruct a, b; simpl; split; congruence. Qed.

(** ** Tables *)

Section TableFacts.
Context {T : Type} `{SQLModel T}.

Lemma session_get_pk (tbl : list T) (i : Z) (r : T) :
  session_get tbl i = Some r -> pk r = i.
Proof.
  unfold session_get. intros Hf. apply find_some in Hf.
  destruct Hf as [_ Hf]. now apply Z.eqb_eq in Hf.
Qed.

Lemma session_get_In (tbl : list T) (i : Z) (r : T) :
  session_get tbl i = Some r -> In r tbl.
Proof. unfold session_get. intros Hf. now apply find_some in Hf. Qed.

Lemma session_get_None (tbl : list T) (i : Z) :
  session_get tbl i = None -> forall r, In r tbl -> pk r <> i.
Proof.
  unfold session_get. intros Hf r Hin Heq.
  pose proof (find_none _ _ Hf r Hin) as Hn. simpl in Hn.
  apply Z.eqb_neq in Hn. contradiction.
Qed.

Lemma map_pk_sql_update (i : Z) (f : T -> T) (tbl : list T) :
  (forall r, pk (f r) = pk r) ->
  map pk (sql_update i f tbl) = map pk tbl.
Proof.
  intros Hf. unfold sql_update. rewrite map_map. apply map_ext.
  intros r. destruct (pk r =? i); auto.
Qed.

Lemma session_get_sql_update (i j : Z) (f : T -> T) (tbl : list T) :
  (forall r, pk (f r) = pk r) ->
  session_get (sql_update i f tbl) j =
  option_map (fun r => if j =? i then f r else r) (session_get tbl j).
Proof.
  intros Hf. unfold session_get, sql_update.
  induction tbl as [|r tbl IH]; simpl; [reflexivity|].
  destruct (pk r =? i) eqn:Hri.
  - rewrite Hf. destruct (pk r =? j) eqn:Hrj; simpl.
    + apply Z.eqb_eq in Hri, Hrj. subst. now rewrite Z.eqb_refl.
    + exact IH.
  - destruct (pk r =? j) eqn:Hrj; simpl.
    + apply Z.eqb_eq in Hrj. subst j. now rewrite Hri.
    + exact IH.
Qed.

Lemma session_get_sql_update_same (i : Z) (f : T -> T) (tbl : list T) :
  (forall r, pk (f r) = pk r) ->
  session_get (sql_update i f tbl) i = option_map f (session_get tbl i).
Proof.
  intros Hf. rewrite session_get_sql_update by exact Hf.
  now rewrite Z.eqb_refl.
Qed.

Lemma pk_unique_sql_update (i : Z) (f : T -> T) (tbl : list T) :
  (forall r, pk (f r) = pk r) ->
  pk_unique tbl -> pk_unique (sql_update i f tbl).
Proof. intros Hf Hu. unfold pk_unique. now rewrite map_pk_sql_update. Qed.

(** With unique keys, a row of the table is the one its key looks up. *)
Lemma pk_unique_session_get (tbl : list T) (r : T) :
  pk_unique tbl -> In r tbl -> session_get tbl (pk r) = Some r.
Proof.
  unfold pk_unique, session_get.
  induction tbl as [|x tbl IH]; simpl; intros Hu Hin; [contradiction|].
  inversion Hu as [|? ? Hnotin Hu']; subst.
  destruct Hin as [->|Hin].
  - now rewrite Z.eqb_refl.
  - destruct (pk x =? pk r) eqn:Hx.
    + apply Z.eqb_eq in Hx. exfalso. apply Hnotin. rewrite Hx.
      now apply in_map.
    + now apply IH.
Qed.

End TableFacts.

(** ** Running the monad *)

Ltac run :=
  unfold bind, query, persist, or_raise, ret, raise; simpl.

(** ** Attendance status state machine *)

Lemma allow_list_valid_transitions (cur new : AttendanceStatus) :
  AttendanceController.status_in new
    (AttendanceController.dict_get AttendanceController.valid_transitions cur [])
  = true <-> In (cur, new) spec_allow_list.
Proof.
  destruct cur, new; simpl; split; intros Hx; try discriminate; auto;
    repeat (destruct Hx as [Hx|Hx]; try discriminate); contradiction.
Qed.

Lemma update_attendance_status_run (st : Store) (attendance_id : Z)
    (r : AttendanceRecord.t) (new_status : AttendanceStatus) :
  session_get (attendance_records st) attendance_id = Some r ->
  AttendanceController.update_attendance_status attendance_id new_status st =
  if AttendanceController.status_in new_status
       (AttendanceController.dict_get AttendanceController.valid_transitions
          (AttendanceRecord.status r) [])
  then (Ok (AttendanceRecord.with_status new_status r),
        set_attendance_records
          (sql_update attendance_id (AttendanceRecord.with_status new_status)) st)
  else (Raise (HTTPException HTTP_400_BAD_REQUEST
                 ("Cannot change status from "
                  +++ AttendanceStatus_value (AttendanceRecord.status r)
                  +++ " to " +++ AttendanceStatus_value new_status)), st).
Proof.
  intros Hget.
  unfold AttendanceController.update_attendance_status,
    AttendanceController.get_attendance_by_id.
  unfold bind at 1 2. unfold query at 1. rewrite Hget. unfold or_raise, ret at 1.
  pose proof (session_get_pk _ _ _ Hget) as Hpk. simpl in Hpk.
  destruct (AttendanceController.status_in _ _); simpl.
  - run. now rewrite Hpk.
  - reflexivity.
Qed.

(** C1. For an existing attendance record, [update_attendance_status]
    succeeds exactly when (current status, requested status) is one of
    ABSENT->PRESENT, ABSENT->EXCLUDED, PRESENT->ABSENT, EXCLUDED->ABSENT.
    On success the stored record carries the requested status (nothing else
    in the store changes); for every other pair it raises the 400 error
    whose detail names the current and the requested status, and the store
    is left as it was. *)
Theorem update_attendance_status_allow_list
    (st : Store) (attendance_id : Z) (r : AttendanceRecord.t)
    (new_status : AttendanceStatus) :
  session_get (attendance_records st) attendance_id = Some r ->
  ((exists r' st',
       AttendanceController.update_attendance_status attendance_id new_status st
       = (Ok r', st'))
   <-> In (AttendanceRecord.status r, new_status) spec_allow_list)
  /\ (In (AttendanceRecord.status r, new_status) spec_allow_list ->
      let st' := set_attendance_records
                   (sql_update attendance_id
                      (AttendanceRecord.with_status new_status)) st in
      AttendanceController.update_attendance_status attendance_id new_status st
      = (Ok (AttendanceRecord.with_status new_status r), st')
      /\ session_get (attendance_records st') attendance_id
         = Some (AttendanceRecord.with_status new_status r))
  /\ (~ In (AttendanceRecord.status r, new_status) spec_allow_list ->
      AttendanceController.update_attendance_status attendance_id new_status st
      = (Raise (HTTPException HTTP_400_BAD_REQUEST
                  ("Cannot change status from "
                   +++ AttendanceStatus_value (AttendanceRecord.status r)
                   +++ " to " +++ AttendanceStatus_value new_status)), st)).
Proof.
  intros Hget.
  pose proof (update_attendance_status_run st attendance_id r new_status Hget)
    as Hrun.
  pose proof (allow_list_valid_transitions (AttendanceRecord.status r) new_status)
    as Hallow.
  destruct (AttendanceController.status_in _ _) eqn:Hin.
  - assert (Hal : In (AttendanceRecord.status r, new_status) spec_allow_list)
      by now apply Hallow.
    split; [|split].
    + split; [intros _; exact Hal | intros _; eauto].
    + intros _. split; [exact Hrun|]. simpl.
      rewrite session_get_sql_update_same by reflexivity.
      now rewrite Hget.
    + intros Hn. contradiction.
  - assert (Hal : ~ In (AttendanceRecord.status r, new_status) spec_allow_list).
    { intros Hx. apply Hallow in Hx. discriminate. }
    split; [|split].
    + split; [|intros Hx; contradiction].
      intros (r' & st' & Heq). rewrite Hrun in Heq. discriminate.
    + intros Hx. contradiction.
    + intros _. exact Hrun.
Qed.

(** C1, at record 1 of the concrete store (ABSENT) and PRESENT. *)
Lemma update_attendance_status_allow_list_witness :
  ((exists r' st',
       AttendanceController.update_attendance_status 1 PRESENT scenario_store
       = (Ok r', st'))
   <-> In (ABSENT, PRESENT) spec_allow_list)
  /\ (In (ABSENT, PRESENT) spec_allow_list ->
      let st' := set_attendance_records
                   (sql_update 1 (AttendanceRecord.with_status PRESENT))
                   scenario_store in
      AttendanceController.update_attendance_status 1 PRESENT scenario_store
      = (Ok (AttendanceRecord.mk 1 PRESENT 1 1 1 None), st')
      /\ session_get (attendance_records st') 1
         = Some (AttendanceRecord.mk 1 PRESENT 1 1 1 None))
  /\ (~ In (ABSENT, PRESENT) spec_allow_list ->
      AttendanceController.update_attendance_status 1 PRESENT scenario_store
      = (Raise (HTTPException HTTP_400_BAD_REQUEST
                  "Cannot change status from absent to present"),
         scenario_store)).
Proof.
  apply (update_attendance_status_allow_list scenario_store 1
           (AttendanceRecord.mk 1 ABSENT 1 1 1 None) PRESENT).
  reflexivity.
Defined.

(** ** Store updates *)

Lemma nodupb_sound (l : list Z) : nodupb l = true -> NoDup l.
Proof.
  induction l as [|x l IH]; simpl; intros Hb; [constructor|].
  apply andb_true_iff in Hb. destruct Hb as [Hx Hl].
  constructor; [|now apply IH].
  intros Hin. apply negb_true_iff in Hx.
  assert (Hex : existsb (Z.eqb x) l = true).
  { apply existsb_exists. exists x. split; [exact Hin | apply Z.eqb_refl]. }
  congruence.
Qed.

Lemma set_enrollments_id (st : Store) (f : list Enrollment.t -> list Enrollment.t) :
  f (enrollments st) = enrollments st -> set_enrollments f st = st.
Proof. destruct st; unfold set_enrollments; simpl. now intros ->. Qed.

Lemma set_enrollments_compose (st : Store)
    (f g : list Enrollment.t -> list Enrollment.t) :
  set_enrollments f (set_enrollments g st)
  = set_enrollments (fun tbl => f (g tbl)) st.
Proof. reflexivity. Qed.

Lemma set_enrollments_ext (st : Store)
    (f g : list Enrollment.t -> list Enrollment.t) :
  f (enrollments st) = g (enrollments st) ->
  set_enrollments f st = set_enrollments g st.
Proof. unfold set_enrollments. now intros ->. Qed.

(** ** Closing a session: the absence loop *)

Lemma count_absence_run (record : AttendanceRecord.t) (st : Store) :
  pk_unique (enrollments st) ->
  SessionController.count_absence record st
  = (Ok tt, set_enrollments (map (bump1 record)) st).
Proof.
  intros Hu. unfold SessionController.count_absence, bump1.
  destruct (AttendanceStatus_eqb (AttendanceRecord.status record) ABSENT); simpl.
  - run.
    destruct (session_get (enrollments st)
                (AttendanceRecord.enrollement_id record)) as [e|] eqn:Hget.
    + f_equal. apply set_enrollments_ext. unfold sql_update.
      apply map_ext_in. intros x Hx. simpl.
      pose proof (session_get_pk _ _ _ Hget) as Hpk. simpl in Hpk.
      rewrite Hpk, (Z.eqb_sym (Enrollment.id x)).
      destruct (AttendanceRecord.enrollement_id record =? Enrollment.id x) eqn:Hid;
        [|reflexivity].
      apply Z.eqb_eq in Hid.
      pose proof (pk_unique_session_get _ x Hu Hx) as Hgx. simpl in Hgx.
      rewrite <- Hid, Hget in Hgx. now inversion Hgx.
    + f_equal. symmetry. apply set_enrollments_id.
      rewrite <- (map_id (enrollments st)) at 2.
      apply map_ext_in. intros x Hx.
      pose proof (session_get_None _ _ Hget x Hx) as Hne. simpl in Hne.
      destruct (AttendanceRecord.enrollement_id record =? Enrollment.id x) eqn:Hid;
        [|reflexivity].
      apply Z.eqb_eq in Hid. congruence.
  - unfold ret. f_equal. symmetry. apply set_enrollments_id. apply map_id.
Qed.

Lemma absent_refs_cons (r : AttendanceRecord.t)
    (records : list AttendanceRecord.t) (i : Z) :
  absent_refs (r :: records) i
  = (if (AttendanceStatus_eqb (AttendanceRecord.status r) ABSENT
         && (AttendanceRecord.enrollement_id r =? i))%bool then 1 else 0)
    + absent_refs records i.
Proof.
  unfold absent_refs. cbn [filter].
  destruct (AttendanceStatus_eqb (AttendanceRecord.status r) ABSENT
            && (AttendanceRecord.enrollement_id r =? i))%bool;
    cbn [List.length]; lia.
Qed.

Lemma bump_cons (r : AttendanceRecord.t) (records : list AttendanceRecord.t)
    (e : Enrollment.t) :
  bump records (bump1 r e) = bump (r :: records) e.
Proof.
  unfold bump, bump1. rewrite absent_refs_cons.
  destruct (AttendanceStatus_eqb (AttendanceRecord.status r) ABSENT
            && (AttendanceRecord.enrollement_id r =? Enrollment.id e))%bool;
    destruct e as [i sid mid n nj ex];
    unfold Enrollment.with_number_of_absences;
    cbn [Enrollment.id Enrollment.student_id Enrollment.module_id
         Enrollment.number_of_absences Enrollment.number_of_absences_justified
         Enrollment.is_excluded];
    f_equal; lia.
Qed.

Lemma for_each_count_absence (records : list AttendanceRecord.t) (st : Store) :
  pk_unique (enrollments st) ->
  for_each records SessionController.count_absence st
  = (Ok tt, set_enrollments (map (bump records)) st).
Proof.
  revert st. induction records as [|r records IH]; intros st Hu; simpl.
  - unfold ret. f_equal. symmetry. apply set_enrollments_id.
    rewrite <- (map_id (enrollments st)) at 2. apply map_ext.
    intros e. unfold bump, absent_refs. simpl.
    destruct e; unfold Enrollment.with_number_of_absences; simpl; f_equal; lia.
  - unfold bind. rewrite count_absence_run by exact Hu.
    rewrite IH.
    + rewrite set_enrollments_compose. f_equal. apply set_enrollments_ext.
      rewrite map_map. apply map_ext. intros e. apply bump_cons.
    + unfold pk_unique. simpl. rewrite map_map.
      erewrite map_ext; [exact Hu|].
      intros e. unfold bump1.
      now destruct (_ && _)%bool.
Qed.

(** ** Closing a session *)

Lemma out_of_range_bump (records : list AttendanceRecord.t) (e : Enrollment.t) :
  SessionController.out_of_range e (bump records e)
  = negb ((absent_refs records (Enrollment.id e) =? 0)
          || (Enrollment.number_of_absences e
              + absent_refs records (Enrollment.id e)
              <=? SessionController.INT4_MAX))%bool.
Proof.
  unfold SessionController.out_of_range, bump.
  destruct e as [i sid mid n nj ex].
  cbn [Enrollment.number_of_absences Enrollment.with_number_of_absences
       Enrollment.id].
  set (k := absent_refs records i).
  destruct (k =? 0) eqn:Hk; cbn [orb negb].
  - apply Z.eqb_eq in Hk. rewrite Hk, Z.add_0_r, Z.eqb_refl. reflexivity.
  - apply Z.eqb_neq in Hk.
    assert (Hne : (n =? n + k) = false) by (apply Z.eqb_neq; lia).
    rewrite Hne. cbn [negb andb].
    destruct (n + k <=? SessionController.INT4_MAX) eqn:Hle;
      [apply Z.leb_le in Hle; apply Z.ltb_ge; lia
      |apply Z.leb_gt in Hle; apply Z.ltb_lt; lia].
Qed.

Lemma existsb_out_of_range (records : list AttendanceRecord.t)
    (tbl : list Enrollment.t) :
  existsb (fun row => SessionController.out_of_range (fst row) (snd row))
    (combine tbl (map (bump records) tbl))
  = negb (counters_fit records tbl).
Proof.
  unfold counters_fit.
  induction tbl as [|e tbl IH]; [reflexivity|].
  cbn [map combine existsb forallb fst snd].
  rewrite IH, out_of_range_bump, negb_andb. reflexivity.
Qed.

Lemma session_close_session_run (st : Store) (session_id teacher_id : Z)
    (s : ClassSession.t) (tm : TeacherModules.t) :
  session_get (sessions st) session_id = Some s ->
  ClassSession.is_active s = true ->
  session_get (teacher_modules st) (ClassSession.teacher_module_id s) = Some tm ->
  TeacherModules.teacher_id tm = teacher_id ->
  pk_unique (enrollments st) ->
  let records :=
    select_all (fun r => AttendanceRecord.session_id r =? session_id)
      (attendance_records st) in
  let total := Z.of_nat (List.length records) in
  let closed :=
    set_sessions (sql_update session_id (ClassSession.with_is_active false)) st in
  SessionController.close_session session_id teacher_id st
  = if counters_fit records (enrollments st) then
      (Ok (SessionController.mkCloseSessionResult session_id false
             "Session closed"
             [ ("total_students", PyInt total);
               ("present", PyInt (count_status PRESENT records));
               ("absent", PyInt (count_status ABSENT records));
               ("attendance_rate",
                if total >? 0
                then PyFloat (percentage (count_status PRESENT records) total)
                else PyInt 0) ]),
       set_enrollments (map (bump records)) closed)
    else (Raise (DataError "integer out of range"), closed).
Proof.
  intros Hs Hact Htm Hown Hu records total closed.
  unfold SessionController.close_session.
  unfold bind at 1 2. unfold query at 1. rewrite Hs. unfold or_raise, ret at 1.
  rewrite Hact. cbn [negb].
  unfold bind at 1. unfold query at 1. rewrite Htm.
  rewrite Hown, Z.eqb_refl. cbn [negb].
  pose proof (session_get_pk _ _ _ Hs) as Hpk. simpl in Hpk. rewrite Hpk.
  unfold bind at 1. unfold persist at 1.
  unfold bind at 1. unfold query at 1.
  cbn [attendance_records set_sessions].
  unfold bind at 1. unfold query at 1.
  unfold bind at 1.
  rewrite for_each_count_absence by exact Hu.
  unfold bind at 1. unfold SessionController.commit_counters.
  cbn [enrollments set_enrollments set_sessions].
  fold records. rewrite existsb_out_of_range.
  destruct (counters_fit records (enrollments st)); cbn [negb].
  - reflexivity.
  - reflexivity.
Qed.

Lemma count_absence_frame (record : AttendanceRecord.t) (st : Store) :
  exists f, SessionController.count_absence record st
            = (Ok tt, set_enrollments f st).
Proof.
  unfold SessionController.count_absence.
  destruct (AttendanceStatus_eqb (AttendanceRecord.status record) ABSENT).
  - run. destruct (session_get (enrollments st) _) as [e|].
    + eexists. reflexivity.
    + exists (fun tbl => tbl). now destruct st.
  - exists (fun tbl => tbl). unfold ret. now destruct st.
Qed.

Lemma for_each_count_absence_frame (records : list AttendanceRecord.t) :
  forall st, exists f,
    for_each records SessionController.count_absence st
    = (Ok tt, set_enrollments f st).
Proof.
  induction records as [|r records IH]; intros st.
  - exists (fun tbl => tbl). simpl. unfold ret. now destruct st.
  - destruct (count_absence_frame r st) as (f1 & H1).
    destruct (IH (set_enrollments f1 st)) as (f2 & H2).
    exists (fun tbl => f2 (f1 tbl)). simpl. unfold bind. now rewrite H1, H2.
Qed.

Lemma session_close_session_owner_run (st : Store)
    (session_id teacher_id : Z) (s : ClassSession.t) (tm : TeacherModules.t) :
  session_get (sessions st) session_id = Some s ->
  ClassSession.is_active s = true ->
  session_get (teacher_modules st) (ClassSession.teacher_module_id s) = Some tm ->
  (TeacherModules.teacher_id tm =? teacher_id) = true ->
  let records :=
    select_all (fun r => AttendanceRecord.session_id r =? session_id)
      (attendance_records st) in
  let total := Z.of_nat (List.length records) in
  let closed :=
    set_sessions (sql_update session_id (ClassSession.with_is_active false)) st in
  exists f (overflow : bool),
    SessionController.close_session session_id teacher_id st
    = if overflow then (Raise (DataError "integer out of range"), closed)
      else
        (Ok (SessionController.mkCloseSessionResult session_id false
               "Session closed"
               [ ("total_students", PyInt total);
                 ("present", PyInt (count_status PRESENT records));
                 ("absent", PyInt (count_status ABSENT records));
                 ("attendance_rate",
                  if total >? 0
                  then PyFloat (percentage (count_status PRESENT records) total)
                  else PyInt 0) ]),
         set_enrollments f closed).
Proof.
  intros Hs Hact Htm Hown records total closed.
  destruct (for_each_count_absence_frame records closed) as (f & Hloop).
  exists f.
  exists (existsb
            (fun row => SessionController.out_of_range (fst row) (snd row))
            (combine (enrollments st) (f (enrollments st)))).
  unfold SessionController.close_session.
  unfold bind at 1 2. unfold query at 1. rewrite Hs.
  unfold or_raise at 1, ret at 1. rewrite Hact. cbn [negb].
  unfold bind at 1. unfold query at 1. rewrite Htm, Hown. cbn [negb].
  pose proof (session_get_pk _ _ _ Hs) as Hpk. simpl in Hpk. rewrite Hpk.
  unfold bind at 1. unfold persist at 1.
  unfold bind at 1. unfold query at 1.
  cbn [attendance_records set_sessions].
  unfold bind at 1. unfold query at 1.
  unfold bind at 1.
  fold closed. fold records.
  rewrite Hloop.
  unfold bind at 1. unfold SessionController.commit_counters.
  cbn [enrollments set_enrollments set_sessions closed].
  destruct (existsb _ _); reflexivity.
Qed.

(** Every outcome of [SessionController.close_session]. *)
Lemma session_close_session_cases (st : Store) (session_id teacher_id : Z) :
  let records :=
    select_all (fun r => AttendanceRecord.session_id r =? session_id)
      (attendance_records st) in
  let total := Z.of_nat (List.length records) in
  let closed :=
    set_sessions (sql_update session_id (ClassSession.with_is_active false)) st in
  match session_get (sessions st) session_id with
  | None =>
      SessionController.close_session session_id teacher_id st
      = (Raise (HTTPException HTTP_404_NOT_FOUND
                  ("Session with ID " +++ str_of_int session_id +++ " not found")),
         st)
  | Some s =>
      if ClassSession.is_active s then
        match session_get (teacher_modules st) (ClassSession.teacher_module_id s)
        with
        | None =>
            SessionController.close_session session_id teacher_id st
            = (Raise (AttributeError
                        "'NoneType' object has no attribute 'teacher_id'"), st)
        | Some tm =>
            if TeacherModules.teacher_id tm =? teacher_id then
              (exists f,
                 SessionController.close_session session_id teacher_id st
                 = (Ok (SessionController.mkCloseSessionResult session_id false
                          "Session closed"
                          [ ("total_students", PyInt total);
                            ("present", PyInt (count_status PRESENT records));
                            ("absent", PyInt (count_status ABSENT records));
                            ("attendance_rate",
                             if total >? 0
                             then PyFloat
                                    (percentage (count_status PRESENT records)
                                       total)
                             else PyInt 0) ]),
                    set_enrollments f closed))
              \/ SessionController.close_session session_id teacher_id st
                 = (Raise (DataError "integer out of range"), closed)
            else
              SessionController.close_session session_id teacher_id st
              = (Raise (HTTPException HTTP_403_FORBIDDEN
                          "You don't have permission to close this session"), st)
        end
      else
        SessionController.close_session session_id teacher_id st
        = (Raise (HTTPException HTTP_400_BAD_REQUEST
                    "Session is already closed"), st)
  end.
Proof.
  intros records total closed.
  destruct (session_get (sessions st) session_id) as [s|] eqn:Hs.
  2:{ unfold SessionController.close_session.
      unfold bind at 1 2. unfold query at 1. now rewrite Hs. }
  destruct (ClassSession.is_active s) eqn:Hact.
  2:{ unfold SessionController.close_session.
      unfold bind at 1 2. unfold query at 1. rewrite Hs.
      unfold or_raise at 1, ret at 1. now rewrite Hact. }
  destruct (session_get (teacher_modules st) (ClassSession.teacher_module_id s))
    as [tm|] eqn:Htm.
  2:{ unfold SessionController.close_session.
      unfold bind at 1 2. unfold query at 1. rewrite Hs.
      unfold or_raise at 1, ret at 1. rewrite Hact. cbn [negb].
      unfold bind at 1. unfold query at 1. now rewrite Htm. }
  destruct (TeacherModules.teacher_id tm =? teacher_id) eqn:Hown.
  2:{ unfold SessionController.close_session.
      unfold bind at 1 2. unfold query at 1. rewrite Hs.
      unfold or_raise at 1, ret at 1. rewrite Hact. cbn [negb].
      unfold bind at 1. unfold query at 1. rewrite Htm.
      now rewrite Hown. }
  destruct (session_close_session_owner_run st session_id teacher_id s tm
              Hs Hact Htm Hown) as (f & b & Hrun).
  fold records total closed in Hrun. rewrite Hrun.
  destruct b; [right; reflexivity | left; exists f; reflexivity].
Qed.

Lemma session_close_session_frame (st st' : Store) (session_id teacher_id : Z)
    (resp : SessionController.CloseSessionResult) :
  SessionController.close_session session_id teacher_id st = (Ok resp, st') ->
  exists f,
    st' = set_enrollments f
            (set_sessions
               (sql_update session_id (ClassSession.with_is_active false)) st).
Proof.
  intros Hrun.
  pose proof (session_close_session_cases st session_id teacher_id) as Hc.
  cbv zeta in Hc.
  destruct (session_get (sessions st) session_id) as [s|]; [|congruence].
  destruct (ClassSession.is_active s); [|congruence].
  destruct (session_get (teacher_modules st) _) as [tm|]; [|congruence].
  destruct (TeacherModules.teacher_id tm =? teacher_id); [|congruence].
  destruct Hc as [(f & Hc)|Hc]; [|congruence].
  rewrite Hc in Hrun. inversion Hrun. exists f. reflexivity.
Qed.

Lemma absent_refs_none (records : list AttendanceRecord.t) (i : Z) :
  (forall r, In r records ->
     AttendanceRecord.enrollement_id r = i ->
     AttendanceRecord.status r <> ABSENT) ->
  absent_refs records i = 0.
Proof.
  intros Hnone. unfold absent_refs.
  replace (filter _ records) with (@nil AttendanceRecord.t); [reflexivity|].
  symmetry. induction records as [|r rs IH]; [reflexivity|].
  cbn [filter].
  destruct (AttendanceStatus_eqb (AttendanceRecord.status r) ABSENT) eqn:Hst;
    destruct (AttendanceRecord.enrollement_id r =? i) eqn:Hid;
    cbn [andb]; try (apply IH; intros r' Hr'; apply Hnone; now right).
  exfalso. apply (Hnone r); [now left | now apply Z.eqb_eq |].
  now apply AttendanceStatus_eqb_eq.
Qed.

Lemma filter_none {A : Type} (p : A -> bool) (l : list A) :
  (forall x, In x l -> p x = false) -> filter p l = [].
Proof.
  induction l as [|x l IH]; intros Hp; simpl; [reflexivity|].
  rewrite (Hp x (or_introl eq_refl)). apply IH.
  intros y Hy. apply Hp. now right.
Qed.

Lemma filter_same_key_length {A B : Type} (f : A -> B) (p : A -> bool)
    (c : B) (l : list A) :
  NoDup (map f l) ->
  (forall x, In x l -> p x = true -> f x = c) ->
  (List.length (filter p l) <= 1)%nat.
Proof.
  induction l as [|a l IH]; intros Hnd Hkey; [simpl; lia|].
  inversion Hnd as [|? ? Hnotin Hnd']; subst.
  cbn [filter]. destruct (p a) eqn:Hpa.
  - assert (Hnil : filter p l = []).
    { apply filter_none. intros x Hx.
      destruct (p x) eqn:Hpx; [|reflexivity].
      exfalso. apply Hnotin.
      rewrite (Hkey a (or_introl eq_refl) Hpa).
      rewrite <- (Hkey x (or_intror Hx) Hpx). now apply in_map. }
    rewrite Hnil. simpl. lia.
  - apply IH; [exact Hnd'|]. intros x Hx. apply Hkey. now right.
Qed.

Lemma absent_refs_one (tbl : list AttendanceRecord.t) (session_id : Z)
    (r : AttendanceRecord.t) :
  record_pairs_unique tbl ->
  In r (select_all (fun r => AttendanceRecord.session_id r =? session_id) tbl) ->
  AttendanceRecord.status r = ABSENT ->
  absent_refs
    (select_all (fun r => AttendanceRecord.session_id r =? session_id) tbl)
    (AttendanceRecord.enrollement_id r) = 1.
Proof.
  intros Hp Hr Hst.
  set (p := fun x => (AttendanceStatus_eqb (AttendanceRecord.status x) ABSENT
                      && (AttendanceRecord.enrollement_id x
                          =? AttendanceRecord.enrollement_id r))%bool).
  set (q := fun x => ((AttendanceRecord.session_id x =? session_id) && p x)%bool).
  assert (Hsame : filter p
                    (select_all
                       (fun r => AttendanceRecord.session_id r =? session_id) tbl)
                  = filter q tbl).
  { unfold select_all, q. clear. induction tbl as [|a tbl IH]; [reflexivity|].
    cbn [filter]. destruct (AttendanceRecord.session_id a =? session_id);
      cbn [andb filter]; now rewrite IH. }
  assert (Hle : (List.length (filter q tbl) <= 1)%nat).
  { apply (filter_same_key_length
             (fun x => (AttendanceRecord.session_id x,
                        AttendanceRecord.enrollement_id x)) q
             (session_id, AttendanceRecord.enrollement_id r) tbl Hp).
    intros x _ Hqx. unfold q, p in Hqx.
    apply andb_true_iff in Hqx. destruct Hqx as [Hsid Hpx].
    apply andb_true_iff in Hpx. destruct Hpx as [_ Heid].
    apply Z.eqb_eq in Hsid, Heid. now rewrite Hsid, Heid. }
  assert (Hin : In r (filter q tbl)).
  { rewrite <- Hsame. apply filter_In. split; [exact Hr|]. unfold p.
    rewrite Hst, Z.eqb_refl. reflexivity. }
  unfold absent_refs. fold p. rewrite Hsame.
  destruct (filter q tbl) as [|x [|y l]]; [contradiction | reflexivity |].
  simpl in Hle. lia.
Qed.

Lemma teacher_close_session_run (st : Store) (session_id teacher_id : Z) :
  TeacherController.close_session session_id teacher_id st
  = match session_get (sessions st) session_id with
    | None =>
        (Raise (HTTPException HTTP_404_NOT_FOUND
                  ("Session with ID " +++ str_of_int session_id +++ " not found")),
         st)
    | Some s =>
        match session_get (teacher_modules st) (ClassSession.teacher_module_id s)
        with
        | Some tm =>
            if TeacherModules.teacher_id tm =? teacher_id then
              if ClassSession.is_active s then
                (Ok (TeacherController.mkCloseSessionResult true
                       "Session closed successfully" session_id false),
                 set_sessions
                   (sql_update session_id (ClassSession.with_is_active false)) st)
              else
                (Raise (HTTPException HTTP_400_BAD_REQUEST
                          "Session is already closed"), st)
            else
              (Raise (HTTPException HTTP_403_FORBIDDEN
                        "You do not have permission to close this session"), st)
        | None =>
            (Raise (HTTPException HTTP_403_FORBIDDEN
                      "You do not have permission to close this session"), st)
        end
    end.
Proof.
  unfold TeacherController.close_session,
    TeacherController._verify_teacher_owns_session.
  run.
  destruct (session_get (sessions st) session_id) as [s|] eqn:Hs; [|reflexivity].
  pose proof (session_get_pk _ _ _ Hs) as Hpk. simpl in Hpk.
  destruct (session_get (teacher_modules st) (ClassSession.teacher_module_id s))
    as [tm|]; [|reflexivity].
  destruct (TeacherModules.teacher_id tm =? teacher_id); simpl; [|reflexivity].
  destruct (ClassSession.is_active s); simpl; [|reflexivity].
  now rewrite Hpk.
Qed.

(** C2 (as the code has it). For an open session closed by its owner, when
    no counter that is raised leaves its INTEGER column,
    [SessionController.close_session] succeeds, stores the session as
    inactive, changes no attendance record and raises every enrollment's
    [number_of_absences] by the number of ABSENT records of the session that
    belong to it: by exactly one per ABSENT record when there is one record
    per session and enrollment, by nothing for an enrollment whose records
    are PRESENT or EXCLUDED.  The returned statistics hold
    [total_students], [present], [absent] and [attendance_rate], the latter
    being the float [round(present / total * 100, 2)] and the integer [0]
    when there is no record; there is no [excluded] entry.
    [TeacherController.close_session], on the same request, succeeds and
    stores the session as inactive too, but leaves every enrollment, and so
    every absence counter, as it was. *)
Theorem session_close_session_effect (st : Store) (session_id teacher_id : Z)
    (s : ClassSession.t) (tm : TeacherModules.t) :
  session_get (sessions st) session_id = Some s ->
  ClassSession.is_active s = true ->
  session_get (teacher_modules st) (ClassSession.teacher_module_id s) = Some tm ->
  TeacherModules.teacher_id tm = teacher_id ->
  pk_unique (enrollments st) ->
  let records :=
    select_all (fun r => AttendanceRecord.session_id r =? session_id)
      (attendance_records st) in
  let present := count_status PRESENT records in
  let absent := count_status ABSENT records in
  let total := Z.of_nat (List.length records) in
  counters_fit records (enrollments st) = true ->
  (exists resp st',
     SessionController.close_session session_id teacher_id st = (Ok resp, st')
     /\ (exists s',
           session_get (sessions st') session_id = Some s'
           /\ ClassSession.is_active s' = false
           /\ ClassSession.session_code s' = ClassSession.session_code s
           /\ ClassSession.teacher_module_id s'
              = ClassSession.teacher_module_id s)
     /\ attendance_records st' = attendance_records st
     /\ (forall e, In e (enrollments st) ->
           exists e',
             session_get (enrollments st') (Enrollment.id e) = Some e'
             /\ Enrollment.number_of_absences e'
                = Enrollment.number_of_absences e
                  + absent_refs records (Enrollment.id e)
             /\ Enrollment.number_of_absences_justified e'
                = Enrollment.number_of_absences_justified e
             /\ Enrollment.student_id e' = Enrollment.student_id e
             /\ Enrollment.module_id e' = Enrollment.module_id e
             /\ Enrollment.is_excluded e' = Enrollment.is_excluded e)
     /\ (record_pairs_unique (attendance_records st) ->
         forall r e, In r records ->
           AttendanceRecord.status r = ABSENT ->
           session_get (enrollments st) (AttendanceRecord.enrollement_id r)
           = Some e ->
           exists e',
             session_get (enrollments st') (AttendanceRecord.enrollement_id r)
             = Some e'
             /\ Enrollment.number_of_absences e'
                = Enrollment.number_of_absences e + 1)
     /\ (forall e, In e (enrollments st) ->
           (forall r, In r records ->
              AttendanceRecord.enrollement_id r = Enrollment.id e ->
              AttendanceRecord.status r <> ABSENT) ->
           session_get (enrollments st') (Enrollment.id e) = Some e)
     /\ SessionController.cs_is_active resp = false
     /\ dict_lookup "total_students" (SessionController.cs_statistics resp)
        = Some (PyInt total)
     /\ dict_lookup "present" (SessionController.cs_statistics resp)
        = Some (PyInt present)
     /\ dict_lookup "absent" (SessionController.cs_statistics resp)
        = Some (PyInt absent)
     /\ dict_lookup "excluded" (SessionController.cs_statistics resp) = None
     /\ dict_lookup "attendance_rate" (SessionController.cs_statistics resp)
        = Some (if total >? 0 then PyFloat (percentage present total)
                else PyInt 0))
  /\ (exists resp st2 s2,
        TeacherController.close_session session_id teacher_id st
        = (Ok resp, st2)
        /\ session_get (sessions st2) session_id = Some s2
        /\ ClassSession.is_active s2 = false
        /\ enrollments st2 = enrollments st
        /\ attendance_records st2 = attendance_records st).
Proof.
  intros Hs Hact Htm Hown Hu records present absent total Hfit.
  pose proof (session_close_session_run st session_id teacher_id s tm
                Hs Hact Htm Hown Hu) as Hrun.
  cbv zeta in Hrun. fold records total in Hrun. rewrite Hfit in Hrun.
  assert (Hbump : forall e, In e (enrollments st) ->
            session_get (map (bump records) (enrollments st)) (Enrollment.id e)
            = Some (bump records e)).
  { intros e He.
    assert (Hu' : pk_unique (map (bump records) (enrollments st))).
    { unfold pk_unique. rewrite map_map. exact Hu. }
    apply (pk_unique_session_get _ (bump records e) Hu').
    now apply in_map. }
  assert (Hclosed : session_get
                      (sql_update session_id (ClassSession.with_is_active false)
                         (sessions st)) session_id
                    = Some (ClassSession.with_is_active false s)).
  { rewrite session_get_sql_update_same by reflexivity. now rewrite Hs. }
  split.
  - eexists. eexists. split; [exact Hrun|].
    cbn [sessions attendance_records enrollments set_enrollments set_sessions
         SessionController.cs_statistics SessionController.cs_is_active].
    split.
    { exists (ClassSession.with_is_active false s).
      split; [exact Hclosed|]. now destruct s. }
    split; [reflexivity|].
    split.
    { intros e He. exists (bump records e). split; [exact (Hbump e He)|].
      unfold bump. now destruct e. }
    split.
    { intros Hpairs r e Hr Hst He.
      pose proof (session_get_pk _ _ _ He) as Hpk. simpl in Hpk.
      pose proof (session_get_In _ _ _ He) as Hin.
      exists (bump records e). split.
      - rewrite <- Hpk. exact (Hbump e Hin).
      - unfold bump. rewrite Hpk.
        subst records.
        rewrite (absent_refs_one _ _ r Hpairs Hr Hst). now destruct e. }
    split.
    { intros e He Hnone.
      transitivity (Some (bump records e)); [exact (Hbump e He)|]. f_equal.
      unfold bump. rewrite (absent_refs_none _ _ Hnone).
      destruct e; unfold Enrollment.with_number_of_absences; simpl.
      now rewrite Z.add_0_r. }
    repeat split.
  - rewrite teacher_close_session_run, Hs, Htm, Hown, Z.eqb_refl, Hact.
    eexists. eexists. exists (ClassSession.with_is_active false s).
    split; [reflexivity|].
    cbn [sessions attendance_records enrollments set_sessions].
    split; [exact Hclosed|]. split; [now destruct s|]. split; reflexivity.
Qed.

(** C2, Scenario C: closing session 1 of the concrete store (three ABSENT,
    two PRESENT records) by teacher 1.  The three absent students' counters
    go from 0, 0 and 2 to 1, 1 and 3, the others stay, and the rate is the
    float 40.0. *)
Lemma session_close_session_effect_witness :
  (exists resp st',
     SessionController.close_session 1 1 scenario_store = (Ok resp, st')
     /\ session_get (sessions st') 1
        = Some (ClassSession.mk 1 "ABC123" (Some "A1") 90 false 1)
     /\ attendance_records st' = attendance_records scenario_store
     /\ enrollments st'
        = [Enrollment.mk 1 1 1 1 0 false; Enrollment.mk 2 2 1 1 0 false;
           Enrollment.mk 3 3 1 3 0 false; Enrollment.mk 4 4 1 0 0 false;
           Enrollment.mk 5 5 1 1 1 false; Enrollment.mk 6 6 1 3 0 true]
     /\ SessionController.cs_statistics resp
        = [ ("total_students", PyInt 5); ("present", PyInt 2);
            ("absent", PyInt 3);
            ("attendance_rate",
             PyFloat (S754_finite false 5629499534213120 (-47))) ])
  /\ (forall e, In e (enrollments scenario_store) ->
        exists e',
          session_get
            (enrollments
               (snd (SessionController.close_session 1 1 scenario_store)))
            (Enrollment.id e) = Some e'
          /\ Enrollment.number_of_absences e'
             = Enrollment.number_of_absences e
               + absent_refs
                   (select_all (fun r => AttendanceRecord.session_id r =? 1)
                      (attendance_records scenario_store))
                   (Enrollment.id e))
  /\ (exists resp st2,
        TeacherController.close_session 1 1 scenario_store = (Ok resp, st2)
        /\ enrollments st2 = enrollments scenario_store).
Proof.
  assert (Hu : pk_unique (enrollments scenario_store))
    by (apply nodupb_sound; reflexivity).
  destruct (session_close_session_effect scenario_store 1 1
              (ClassSession.mk 1 "ABC123" (Some "A1") 90 true 1)
              (TeacherModules.mk 1 1 1)
              eq_refl eq_refl eq_refl eq_refl Hu eq_refl)
    as ((resp & st' & Hrun & _ & _ & Hcount & _) & (resp2 & st2 & s2 & Hrun2
        & _ & _ & Henr & _)).
  split; [|split].
  - eexists. eexists. split; [vm_compute; reflexivity|].
    repeat split.
  - intros e He. rewrite Hrun. cbn [snd].
    destruct (Hcount e He) as (e' & Hget & Hn & _).
    exists e'. split; [exact Hget | exact Hn].
  - exists resp2, st2. split; [exact Hrun2 | exact Henr].
Defined.

(** Scenario C, evaluated: the three absent students' counters grow by one,
    the two present students' counters and the excluded enrollment stay. *)
Example scenario_C_counters :
  map Enrollment.number_of_absences
    (enrollments (snd (SessionController.close_session 1 1 scenario_store)))
  = [1; 1; 3; 0; 1; 3]
  /\ map Enrollment.number_of_absences (enrollments scenario_store)
     = [0; 0; 2; 0; 1; 3].
Proof. split; vm_compute; reflexivity. Qed.

(** The rate is computed in floating point: for 23 present of 160 the
    quotient times 100 is the float just below 14.375 and the rate is
    14.37, where exact arithmetic would give 14.38. *)
Example percentage_23_of_160 :
  float_mul_int (int_truediv 23 160) 100
  = S754_finite false 8092405580431359 (-49)
  /\ percentage 23 160 = S754_finite false 8089590830664253 (-49)
  /\ percentage 23 160 = int_truediv 1437 100
  /\ percentage 2 5 = float_of_int 40.
Proof. repeat split; vm_compute; reflexivity. Qed.

(** C2, refuted as stated.  On the concrete store, where session 1 has
    three ABSENT and two PRESENT records: [SessionController.close_session]
    returns statistics without an [excluded] count and with
    [attendance_rate] the float 40.0, not [present / total] (the float
    nearest to 2/5); and [TeacherController.close_session], the method the
    route calls, closes the session successfully without incrementing the
    absence counter of any of the three absent students. *)
Lemma session_close_session_summary_counterexample :
  (exists resp st',
     SessionController.close_session 1 1 scenario_store = (Ok resp, st')
     /\ dict_lookup "excluded" (SessionController.cs_statistics resp) = None
     /\ dict_lookup "present" (SessionController.cs_statistics resp)
        = Some (PyInt 2)
     /\ dict_lookup "total_students" (SessionController.cs_statistics resp)
        = Some (PyInt 5)
     /\ dict_lookup "attendance_rate" (SessionController.cs_statistics resp)
        = Some (PyFloat (float_of_int 40))
     /\ float_of_int 40 <> int_truediv 2 5)
  /\ (exists resp st2,
        TeacherController.close_session 1 1 scenario_store = (Ok resp, st2)
        /\ option_map ClassSession.is_active (session_get (sessions st2) 1)
           = Some false
        /\ count_status ABSENT
             (select_all (fun r => AttendanceRecord.session_id r =? 1)
                (attendance_records st2)) = 3
        /\ map Enrollment.number_of_absences (enrollments st2)
           = map Enrollment.number_of_absences (enrollments scenario_store)
        /\ map Enrollment.number_of_absences (enrollments st2)
           = [0; 0; 2; 0; 1; 3]).
Proof.
  split.
  - eexists. eexists. split; [vm_compute; reflexivity|].
    repeat split; try (vm_compute; reflexivity).
    vm_compute. discriminate.
  - eexists. eexists. split; [vm_compute; reflexivity|].
    repeat split.
Qed.

(** C3. Closing a session that is already closed fails with the 400 error
    "Session is already closed" and leaves the store as it was: in
    [SessionController.close_session] for whoever calls, in
    [TeacherController.close_session] for the teacher who owns the session
    (another caller is turned away with an error as well); no enrollment
    counter and no attendance record is touched. *)
Theorem close_session_already_closed (st : Store) (session_id : Z)
    (s : ClassSession.t) :
  session_get (sessions st) session_id = Some s ->
  ClassSession.is_active s = false ->
  (forall teacher_id,
     SessionController.close_session session_id teacher_id st
     = (Raise (HTTPException HTTP_400_BAD_REQUEST "Session is already closed"),
        st))
  /\ (forall teacher_id tm,
        session_get (teacher_modules st) (ClassSession.teacher_module_id s)
        = Some tm ->
        TeacherModules.teacher_id tm = teacher_id ->
        TeacherController.close_session session_id teacher_id st
        = (Raise (HTTPException HTTP_400_BAD_REQUEST "Session is already closed"),
           st))
  /\ (forall teacher_id, exists e,
        TeacherController.close_session session_id teacher_id st = (Raise e, st)).
Proof.
  intros Hs Hact. split; [|split].
  - intros teacher_id. unfold SessionController.close_session. run.
    now rewrite Hs, Hact.
  - intros teacher_id tm Htm Hown.
    rewrite teacher_close_session_run, Hs, Htm, Hown, Z.eqb_refl, Hact.
    reflexivity.
  - intros teacher_id. rewrite teacher_close_session_run, Hs.
    destruct (session_get (teacher_modules st) (ClassSession.teacher_module_id s))
      as [tm|]; [|eauto].
    destruct (TeacherModules.teacher_id tm =? teacher_id); [|eauto].
    rewrite Hact. eauto.
Qed.

(** C3, at the closed session 2 of the concrete store. *)
Lemma close_session_already_closed_witness :
  (forall teacher_id,
     SessionController.close_session 2 teacher_id scenario_store
     = (Raise (HTTPException HTTP_400_BAD_REQUEST "Session is already closed"),
        scenario_store))
  /\ (forall teacher_id tm,
        session_get (teacher_modules scenario_store) 1 = Some tm ->
        TeacherModules.teacher_id tm = teacher_id ->
        TeacherController.close_session 2 teacher_id scenario_store
        = (Raise (HTTPException HTTP_400_BAD_REQUEST "Session is already closed"),
           scenario_store))
  /\ (forall teacher_id, exists e,
        TeacherController.close_session 2 teacher_id scenario_store
        = (Raise e, scenario_store)).
Proof.
  apply (close_session_already_closed scenario_store 2
           (ClassSession.mk 2 "XYZ789" (Some "A1") 90 false 1)).
  - reflexivity.
  - reflexivity.
Defined.

(** C10. [TeacherController.close_session], the method behind the teacher
    API's close-session route, writes nothing but the session's active flag:
    when it succeeds the session was open and owned by the caller, the
    sessions table differs only in that this session is now inactive, and
    every other table (attendance records and enrollments with their
    absence counters included) is what it was before the call. *)
Theorem teacher_close_session_only_flag (st st' : Store)
    (session_id teacher_id : Z) (resp : TeacherController.CloseSessionResult) :
  TeacherController.close_session session_id teacher_id st = (Ok resp, st') ->
  attendance_records st' = attendance_records st
  /\ enrollments st' = enrollments st
  /\ justifications st' = justifications st
  /\ notifications st' = notifications st
  /\ st' = set_sessions
             (sql_update session_id (ClassSession.with_is_active false)) st
  /\ (exists s, session_get (sessions st) session_id = Some s
                /\ ClassSession.is_active s = true
                /\ session_get (sessions st') session_id
                   = Some (ClassSession.with_is_active false s))
  /\ (forall j, j <> session_id ->
        session_get (sessions st') j = session_get (sessions st) j).
Proof.
  rewrite teacher_close_session_run.
  destruct (session_get (sessions st) session_id) as [s|] eqn:Hs; [|discriminate].
  destruct (session_get (teacher_modules st) (ClassSession.teacher_module_id s))
    as [tm|]; [|discriminate].
  destruct (TeacherModules.teacher_id tm =? teacher_id); [|discriminate].
  destruct (ClassSession.is_active s) eqn:Hact; [|discriminate].
  intros Heq. inversion Heq; subst. clear Heq.
  repeat (split; [reflexivity|]).
  split.
  - exists s. repeat split; try assumption. simpl.
    rewrite session_get_sql_update_same by reflexivity. now rewrite Hs.
  - intros j Hj. simpl. rewrite session_get_sql_update by reflexivity.
    apply Z.eqb_neq in Hj. rewrite Hj.
    now destruct (session_get (sessions st) j).
Qed.

(** C10, at the open session 1 of the concrete store: the call succeeds and
    the three ABSENT records leave every absence counter where it was. *)
Lemma teacher_close_session_only_flag_witness :
  let st' := set_sessions (sql_update 1 (ClassSession.with_is_active false))
               scenario_store in
  TeacherController.close_session 1 1 scenario_store
  = (Ok (TeacherController.mkCloseSessionResult true
           "Session closed successfully" 1 false), st')
  /\ attendance_records st' = attendance_records scenario_store
  /\ enrollments st' = enrollments scenario_store
  /\ justifications st' = justifications scenario_store
  /\ notifications st' = notifications scenario_store
  /\ st' = set_sessions (sql_update 1 (ClassSession.with_is_active false))
             scenario_store
  /\ (exists s, session_get (sessions scenario_store) 1 = Some s
                /\ ClassSession.is_active s = true
                /\ session_get (sessions st') 1
                   = Some (ClassSession.with_is_active false s))
  /\ (forall j, j <> 1 ->
        session_get (sessions st') j = session_get (sessions scenario_store) j).
Proof.
  split; [reflexivity|].
  apply (teacher_close_session_only_flag scenario_store _ 1 1
           (TeacherController.mkCloseSessionResult true
              "Session closed successfully" 1 false)).
  reflexivity.
Defined.

(** ** Exclusion propagation *)

Section KeyedRows.
Context {T : Type} `{SQLModel T}.

Lemma pk_unique_inj (tbl : list T) (x y : T) :
  pk_unique tbl -> In x tbl -> In y tbl -> pk x = pk y -> x = y.
Proof.
  intros Hu Hx Hy Heq.
  pose proof (pk_unique_session_get tbl x Hu Hx) as Hgx.
  pose proof (pk_unique_session_get tbl y Hu Hy) as Hgy.
  rewrite Heq, Hgy in Hgx. now inversion Hgx.
Qed.

(** Updating the rows of a selection one key after the other is one pass
    over the table. *)
Lemma fold_sql_update (f : T -> T) (sel tbl : list T) :
  (forall r, pk (f r) = pk r) ->
  (forall r, f (f r) = f r) ->
  fold_left (fun t x => sql_update (pk x) f t) sel tbl
  = map (fun r => if existsb (Z.eqb (pk r)) (map pk sel) then f r else r) tbl.
Proof.
  intros Hpk Hidem. revert tbl.
  induction sel as [|x sel IH]; intros tbl; simpl.
  - symmetry. apply map_id.
  - rewrite IH. unfold sql_update. rewrite map_map. apply map_ext.
    intros r. destruct (pk r =? pk x) eqn:Hx; simpl.
    + rewrite Hpk, Hidem. now destruct (existsb _ _).
    + reflexivity.
Qed.

(** With unique keys, a row's key is among the keys of a selection exactly
    when the row is selected. *)
Lemma existsb_pk_select_all (p : T -> bool) (tbl : list T) (r : T) :
  pk_unique tbl -> In r tbl ->
  existsb (Z.eqb (pk r)) (map pk (select_all p tbl)) = p r.
Proof.
  intros Hu Hr. unfold select_all.
  destruct (p r) eqn:Hp.
  - apply existsb_exists. exists (pk r). split; [|apply Z.eqb_refl].
    apply in_map. apply filter_In. now split.
  - apply not_true_is_false. intros Hex.
    apply existsb_exists in Hex. destruct Hex as (k & Hk & Heq).
    apply Z.eqb_eq in Heq. subst k.
    apply in_map_iff in Hk. destruct Hk as (x & Hpkx & Hx).
    apply filter_In in Hx. destruct Hx as [Hx Hpx].
    assert (x = r) by (apply (pk_unique_inj tbl); auto).
    subst x. congruence.
Qed.

End KeyedRows.

Lemma for_each_set_attendance_status (status : AttendanceStatus)
    (sel : list AttendanceRecord.t) (st : Store) :
  for_each sel (fun record =>
    persist (set_attendance_records
               (sql_update (AttendanceRecord.id record)
                  (AttendanceRecord.with_status status)))) st
  = (Ok tt,
     set_attendance_records
       (fold_left (fun t x => sql_update (pk x)
                                (AttendanceRecord.with_status status) t) sel) st).
Proof.
  revert st. induction sel as [|x sel IH]; intros st; simpl.
  - unfold ret. now destruct st.
  - unfold bind, persist. rewrite IH. reflexivity.
Qed.

Lemma make_excluded_from_module_run (st : Store) (enrollment_id : Z)
    (e : Enrollment.t) :
  session_get (enrollments st) enrollment_id = Some e ->
  Enrollment.is_excluded e = false ->
  pk_unique (attendance_records st) ->
  EnrollmentController.make_excluded_from_module enrollment_id st
  = (Ok (Enrollment.with_is_excluded true e),
     set_attendance_records (map (exclude_absent enrollment_id))
       (set_enrollments
          (sql_update enrollment_id (Enrollment.with_is_excluded true)) st)).
Proof.
  intros Hget Hex Hu.
  unfold EnrollmentController.make_excluded_from_module,
    EnrollmentController.get_enrollment_by_id.
  unfold bind at 1 2. unfold query at 1. rewrite Hget. unfold or_raise, ret at 1.
  rewrite Hex.
  pose proof (session_get_pk _ _ _ Hget) as Hpk. simpl in Hpk. rewrite Hpk.
  unfold bind at 1. unfold persist at 1.
  unfold bind at 1. unfold query at 1.
  unfold bind at 1. rewrite for_each_set_attendance_status.
  unfold ret. f_equal.
  unfold set_attendance_records, set_enrollments.
  cbn [attendance_records]. f_equal.
  rewrite (fold_sql_update (AttendanceRecord.with_status EXCLUDED))
    by reflexivity.
  apply map_ext_in. intros r Hr.
  rewrite (existsb_pk_select_all _ (attendance_records st) r Hu Hr).
  reflexivity.
Qed.

(** C7. Excluding an enrollment that is not yet excluded sets its exclusion
    flag, turns every ABSENT attendance record of that enrollment into
    EXCLUDED and changes no other record (PRESENT records in particular), so
    that afterwards no record of the enrollment is ABSENT; on an enrollment
    that is already excluded the call fails with the 400 error "Student is
    already excluded from this module" and the store is left as it was. *)
Theorem make_excluded_from_module_effect (st : Store) (enrollment_id : Z)
    (e : Enrollment.t) :
  session_get (enrollments st) enrollment_id = Some e ->
  pk_unique (attendance_records st) ->
  (Enrollment.is_excluded e = false ->
   exists st' e',
     EnrollmentController.make_excluded_from_module enrollment_id st
     = (Ok e', st')
     /\ session_get (enrollments st') enrollment_id = Some e'
     /\ Enrollment.is_excluded e' = true
     /\ Enrollment.id e' = Enrollment.id e
     /\ Enrollment.student_id e' = Enrollment.student_id e
     /\ Enrollment.module_id e' = Enrollment.module_id e
     /\ Enrollment.number_of_absences e' = Enrollment.number_of_absences e
     /\ Enrollment.number_of_absences_justified e'
        = Enrollment.number_of_absences_justified e
     /\ attendance_records st'
        = map (exclude_absent enrollment_id) (attendance_records st)
     /\ (forall r, In r (attendance_records st) ->
           AttendanceRecord.enrollement_id r = enrollment_id ->
           AttendanceRecord.status r = ABSENT ->
           exists r',
             session_get (attendance_records st') (AttendanceRecord.id r)
             = Some r'
             /\ AttendanceRecord.status r' = EXCLUDED
             /\ AttendanceRecord.session_id r' = AttendanceRecord.session_id r
             /\ AttendanceRecord.module_id r' = AttendanceRecord.module_id r
             /\ AttendanceRecord.enrollement_id r' = enrollment_id
             /\ AttendanceRecord.justification_id r'
                = AttendanceRecord.justification_id r)
     /\ (forall r, In r (attendance_records st) ->
           AttendanceRecord.status r <> ABSENT
           \/ AttendanceRecord.enrollement_id r <> enrollment_id ->
           session_get (attendance_records st') (AttendanceRecord.id r) = Some r)
     /\ (forall r, In r (attendance_records st') ->
           AttendanceRecord.enrollement_id r = enrollment_id ->
           AttendanceRecord.status r <> ABSENT))
  /\ (Enrollment.is_excluded e = true ->
      EnrollmentController.make_excluded_from_module enrollment_id st
      = (Raise (HTTPException HTTP_400_BAD_REQUEST
                  "Student is already excluded from this module"), st)).
Proof.
  intros Hget Hu. split.
  - intros Hex. eexists. exists (Enrollment.with_is_excluded true e). split.
    { apply make_excluded_from_module_run; eassumption. }
    cbn [enrollments attendance_records set_attendance_records set_enrollments].
    split; [rewrite session_get_sql_update_same by reflexivity;
            now rewrite Hget|].
    split; [now destruct e|]. split; [now destruct e|].
    split; [now destruct e|]. split; [now destruct e|].
    split; [now destruct e|]. split; [now destruct e|].
    assert (Hu' : pk_unique (map (exclude_absent enrollment_id)
                               (attendance_records st))).
    { unfold pk_unique. rewrite map_map.
      erewrite map_ext; [exact Hu|].
      intros r. unfold exclude_absent. now destruct (_ && _)%bool. }
    assert (Hrow : forall r, In r (attendance_records st) ->
              session_get (map (exclude_absent enrollment_id)
                             (attendance_records st)) (AttendanceRecord.id r)
              = Some (exclude_absent enrollment_id r)).
    { intros r Hr.
      replace (AttendanceRecord.id r)
        with (pk (exclude_absent enrollment_id r))
        by (unfold exclude_absent; now destruct (_ && _)%bool).
      apply pk_unique_session_get; [exact Hu' | now apply in_map]. }
    split; [|split; [|split]].
    + reflexivity.
    + intros r Hr Hid Hst. exists (AttendanceRecord.with_status EXCLUDED r).
      split.
      { rewrite (Hrow r Hr). unfold exclude_absent.
        now rewrite Hid, Z.eqb_refl, Hst. }
      destruct r; cbn in *. repeat split; auto.
    + intros r Hr Hcase. rewrite (Hrow r Hr). unfold exclude_absent.
      destruct Hcase as [Hst|Hid].
      * destruct (AttendanceRecord.status r); try congruence;
          now rewrite andb_false_r.
      * apply Z.eqb_neq in Hid. now rewrite Hid.
    + intros r Hr Hid Hst.
      apply in_map_iff in Hr. destruct Hr as (r0 & Hr0 & _).
      unfold exclude_absent in Hr0.
      destruct (AttendanceRecord.enrollement_id r0 =? enrollment_id) eqn:Hid0;
        destruct (AttendanceRecord.status r0) eqn:Hst0; simpl in Hr0;
        subst r; simpl in *; try congruence.
      apply Z.eqb_neq in Hid0. congruence.
  - intros Hex.
    unfold EnrollmentController.make_excluded_from_module,
      EnrollmentController.get_enrollment_by_id.
    run. now rewrite Hget, Hex.
Qed.

(** C7, at enrollment 1 of the concrete store, whose records are the ABSENT
    records 1 (session 1) and 6 (session 2). *)
Lemma make_excluded_from_module_effect_witness :
  (exists st',
     EnrollmentController.make_excluded_from_module 1 scenario_store
     = (Ok (Enrollment.mk 1 1 1 0 0 true), st')
     /\ session_get (enrollments st') 1 = Some (Enrollment.mk 1 1 1 0 0 true)
     /\ attendance_records st'
        = [AttendanceRecord.mk 1 EXCLUDED 1 1 1 None;
           AttendanceRecord.mk 2 ABSENT 1 1 2 None;
           AttendanceRecord.mk 3 ABSENT 1 1 3 None;
           AttendanceRecord.mk 4 PRESENT 1 1 4 None;
           AttendanceRecord.mk 5 PRESENT 1 1 5 None;
           AttendanceRecord.mk 6 EXCLUDED 2 1 1 None]
     /\ (forall r, In r (attendance_records st') ->
           AttendanceRecord.enrollement_id r = 1 ->
           AttendanceRecord.status r <> ABSENT))
  /\ EnrollmentController.make_excluded_from_module 6 scenario_store
     = (Raise (HTTPException HTTP_400_BAD_REQUEST
                 "Student is already excluded from this module"),
        scenario_store).
Proof.
  assert (Hu : pk_unique (attendance_records scenario_store))
    by (apply nodupb_sound; reflexivity).
  split.
  - destruct (make_excluded_from_module_effect scenario_store 1
                (Enrollment.mk 1 1 1 0 0 false) eq_refl Hu) as (Hok & _).
    destruct (Hok eq_refl)
      as (st' & e' & Hrun & Hget & Hex & Hid & Hsid & Hmid & Hn & Hnj & Hrec
          & _ & _ & Hnone).
    assert (He' : e' = Enrollment.mk 1 1 1 0 0 true).
    { destruct e' as [i sid mid n nj ex]. cbn in Hex, Hid, Hsid, Hmid, Hn, Hnj.
      now subst. }
    subst e'. exists st'.
    split; [exact Hrun|]. split; [exact Hget|].
    split; [rewrite Hrec; reflexivity | exact Hnone].
  - destruct (make_excluded_from_module_effect scenario_store 6
                (Enrollment.mk 6 6 1 3 0 true) eq_refl Hu) as (_ & Hno).
    exact (Hno eq_refl).
Defined.

(** Exclusion, evaluated on the concrete store: enrollment 1 loses its two
    ABSENT records to EXCLUDED, the other rows keep their status; the
    already excluded enrollment 6 is refused. *)
Example make_excluded_from_module_scenario :
  map AttendanceRecord.status
    (attendance_records
       (snd (EnrollmentController.make_excluded_from_module 1 scenario_store)))
  = [EXCLUDED; ABSENT; ABSENT; PRESENT; PRESENT; EXCLUDED]
  /\ EnrollmentController.make_excluded_from_module 6 scenario_store
     = (Raise (HTTPException HTTP_400_BAD_REQUEST
                 "Student is already excluded from this module"),
        scenario_store).
Proof. split; reflexivity. Qed.

(** ** Opening a session *)


Lemma fold_max_app (l : list Z) (x : Z) :
  0 <= x ->
  fold_right Z.max 0 (l ++ [x]) = Z.max (fold_right Z.max 0 l) x.
Proof.
  intros Hx. induction l as [|y l IH]; simpl; [lia|].
  rewrite IH. lia.
Qed.

Lemma fold_max_nonneg (l : list Z) : 0 <= fold_right Z.max 0 l.
Proof. induction l as [|y l IH]; simpl; lia. Qed.

Lemma fold_max_upper (l : list Z) (x : Z) :
  In x l -> x <= fold_right Z.max 0 l.
Proof.
  induction l as [|y l IH]; simpl; [contradiction|].
  intros [->|Hin]; [lia|]. specialize (IH Hin). lia.
Qed.

Section FreshKeys.
Context {T : Type} `{SQLModel T}.

Lemma next_id_fresh (tbl : list T) (r : T) : In r tbl -> pk r < next_id tbl.
Proof.
  intros Hr. unfold next_id.
  assert (pk r <= fold_right Z.max 0 (map pk tbl))
    by (apply fold_max_upper; now apply in_map).
  lia.
Qed.

Lemma next_id_app (tbl : list T) (r : T) :
  pk r = next_id tbl -> next_id (tbl ++ [r]) = next_id tbl + 1.
Proof.
  intros Hr. unfold next_id in *. rewrite map_app. cbn [map].
  pose proof (fold_max_nonneg (map pk tbl)) as Hnn.
  assert (Hr0 : 0 <= pk r) by (rewrite Hr; lia).
  rewrite (fold_max_app _ _ Hr0), Hr. lia.
Qed.

Lemma session_get_app_fresh (tbl l : list T) (i : Z) :
  (forall r, In r tbl -> pk r <> i) ->
  session_get (tbl ++ l) i = session_get l i.
Proof.
  unfold session_get. induction tbl as [|x tbl IH]; intros Hne; simpl; [reflexivity|].
  destruct (pk x =? i) eqn:Hx.
  - apply Z.eqb_eq in Hx. exfalso. apply (Hne x); [now left | exact Hx].
  - apply IH. intros r Hr. apply Hne. now right.
Qed.

Lemma session_get_app_old (tbl l : list T) (i : Z) (r : T) :
  session_get tbl i = Some r -> session_get (tbl ++ l) i = Some r.
Proof.
  unfold session_get. induction tbl as [|x tbl IH]; simpl; [discriminate|].
  destruct (pk x =? i); auto.
Qed.

End FreshKeys.

Lemma create_attendance_loop_run (new_session_id module_id : Z)
    (selected : list Enrollment.t) :
  forall (acc : list TeacherController.CreatedAttendance) (st : Store),
    let rows :=
      new_attendance_rows (next_id (attendance_records st)) new_session_id
        module_id selected in
    TeacherController.create_attendance_loop selected new_session_id module_id
      acc st
    = (Ok (acc ++ map created_entry (combine rows selected)),
       set_attendance_records (fun tbl => tbl ++ rows) st).
Proof.
  induction selected as [|e rest IH]; intros acc st; simpl.
  - unfold ret. rewrite app_nil_r. f_equal. destruct st; simpl.
    unfold set_attendance_records; simpl. now rewrite app_nil_r.
  - unfold bind at 1. unfold query at 1.
    unfold bind at 1. unfold persist at 1.
    rewrite IH. cbn [attendance_records set_attendance_records].
    rewrite next_id_app by reflexivity.
    f_equal.
    + f_equal. rewrite <- app_assoc. reflexivity.
    + unfold set_attendance_records. cbn. f_equal.
      now rewrite <- app_assoc.
Qed.

Lemma new_attendance_rows_length (n sid mid : Z) (selected : list Enrollment.t) :
  List.length (new_attendance_rows n sid mid selected) = List.length selected.
Proof.
  revert n. induction selected as [|e rest IH]; intros n; simpl; auto.
Qed.

Lemma new_attendance_rows_enrollments (n sid mid : Z)
    (selected : list Enrollment.t) :
  map AttendanceRecord.enrollement_id (new_attendance_rows n sid mid selected)
  = map Enrollment.id selected.
Proof.
  revert n. induction selected as [|e rest IH]; intros n; simpl; [auto|].
  now rewrite IH.
Qed.

Lemma new_attendance_rows_shape (n sid mid : Z) (selected : list Enrollment.t)
    (r : AttendanceRecord.t) :
  In r (new_attendance_rows n sid mid selected) ->
  AttendanceRecord.status r = ABSENT
  /\ AttendanceRecord.session_id r = sid
  /\ AttendanceRecord.module_id r = mid
  /\ AttendanceRecord.justification_id r = None
  /\ n <= AttendanceRecord.id r
  /\ exists e, In e selected /\ AttendanceRecord.enrollement_id r = Enrollment.id e.
Proof.
  revert n. induction selected as [|e rest IH]; intros n; simpl; [contradiction|].
  intros [<-|Hin].
  - simpl. repeat split; try reflexivity; try lia. exists e. auto.
  - destruct (IH _ Hin) as (H1 & H2 & H3 & H4 & H5 & e' & He' & Hid).
    repeat split; auto; try lia. exists e'. auto.
Qed.

Lemma new_attendance_rows_select (n sid mid : Z) (selected : list Enrollment.t) :
  select_all (fun r => AttendanceRecord.session_id r =? sid)
    (new_attendance_rows n sid mid selected)
  = new_attendance_rows n sid mid selected.
Proof.
  revert n. unfold select_all.
  induction selected as [|e rest IH]; intros n; simpl; [auto|].
  now rewrite Z.eqb_refl, IH.
Qed.

Lemma create_session_run (st : Store) (share_code : string)
    (teacher_id module_id duration_minutes : Z) (room : option string)
    (t : Teacher.t) (m : Module_.t) (tm : TeacherModules.t) :
  session_get (teachers st) teacher_id = Some t ->
  session_get (modules st) module_id = Some m ->
  select_first
    (fun tm => (TeacherModules.teacher_id tm =? teacher_id)
               && (TeacherModules.module_id tm =? module_id))%bool
    (teacher_modules st) = Some tm ->
  let selected := select_all (enrolled_in module_id) (enrollments st) in
  let sid := next_id (sessions st) in
  let session_room := if truthy_str room then room else Module_.room m in
  let rows :=
    new_attendance_rows (next_id (attendance_records st)) sid module_id
      selected in
  let created := map created_entry (combine rows selected) in
  TeacherController.create_session share_code teacher_id module_id
    duration_minutes room st
  = (Ok (TeacherController.mkCreateSessionResult
           ("Session created. "
            +++ str_of_int (Z.of_nat (List.length created))
            +++ " attendance records created.")
           sid module_id (Module_.name m) teacher_id share_code
           duration_minutes session_room true
           (Z.of_nat (List.length created)) created),
     set_attendance_records (fun tbl => tbl ++ rows)
       (set_sessions
          (fun tbl => tbl ++ [ClassSession.mk sid share_code session_room
                                duration_minutes true (TeacherModules.id tm)])
          st)).
Proof.
  intros Ht Hm Htm selected sid session_room rows created.
  unfold TeacherController.create_session.
  unfold bind at 1 2. unfold query at 1. rewrite Ht. unfold or_raise at 1, ret at 1.
  unfold bind at 1 2. unfold query at 1. rewrite Hm. unfold or_raise at 1, ret at 1.
  unfold bind at 1 2. unfold query at 1. rewrite Htm. unfold or_raise at 1, ret at 1.
  unfold bind at 1. unfold query at 1.
  unfold bind at 1. unfold persist at 1.
  unfold bind at 1. unfold query at 1.
  unfold bind at 1. rewrite create_attendance_loop_run.
  reflexivity.
Qed.

Lemma filter_map_length (rows : list AttendanceRecord.t) (k : Z) :
  List.length (filter (fun r => k =? AttendanceRecord.enrollement_id r) rows)
  = List.length (filter (Z.eqb k) (map AttendanceRecord.enrollement_id rows)).
Proof.
  induction rows as [|r rows IH]; simpl; [reflexivity|].
  destruct (k =? AttendanceRecord.enrollement_id r); simpl; now rewrite IH.
Qed.

Lemma nodup_filter_length (l : list Z) (k : Z) :
  NoDup l ->
  List.length (filter (Z.eqb k) l) = if existsb (Z.eqb k) l then 1%nat else 0%nat.
Proof.
  induction 1 as [|x l Hnotin Hnd IH]; simpl; [reflexivity|].
  destruct (k =? x) eqn:Hk; simpl.
  - apply Z.eqb_eq in Hk. subst x. rewrite IH.
    destruct (existsb (Z.eqb k) l) eqn:Hex; [|reflexivity].
    apply existsb_exists in Hex. destruct Hex as (y & Hy & Heq).
    apply Z.eqb_eq in Heq. subst y. contradiction.
  - exact IH.
Qed.

Lemma filter_all {A : Type} (p : A -> bool) (l : list A) :
  (forall x, In x l -> p x = true) -> filter p l = l.
Proof.
  induction l as [|x l IH]; intros Hp; simpl; [reflexivity|].
  rewrite (Hp x (or_introl eq_refl)). f_equal. apply IH.
  intros y Hy. apply Hp. now right.
Qed.

Lemma pk_unique_select_all {T : Type} `{SQLModel T} (p : T -> bool)
    (tbl : list T) :
  pk_unique tbl -> pk_unique (select_all p tbl).
Proof.
  unfold pk_unique, select_all.
  induction tbl as [|x tbl IH]; simpl; intros Hu; [constructor|].
  inversion Hu as [|? ? Hnotin Hu']; subst.
  destruct (p x); simpl; [|now apply IH].
  constructor; [|now apply IH].
  intros Hin. apply Hnotin. apply in_map_iff in Hin.
  destruct Hin as (y & Hy & Hin). apply filter_In in Hin.
  rewrite <- Hy. apply in_map. tauto.
Qed.

(** C6. When the teacher and the module exist and the teacher is assigned
    to the module, [create_session] succeeds, appends the new open session
    and appends one attendance record per enrollment of the module that is
    not excluded, in ABSENT and attached to the new session; it changes no
    enrollment.  With unique enrollment keys every such enrollment has
    exactly one of the new records and an excluded enrollment (or one of
    another module) has none; when the attendance records stored before only
    refer to existing sessions, the new session's records are exactly the
    inserted ones, so five enrolled students give five ABSENT records. *)
Theorem create_session_records (st : Store) (share_code : string)
    (teacher_id module_id duration_minutes : Z) (room : option string)
    (t : Teacher.t) (m : Module_.t) (tm : TeacherModules.t) :
  session_get (teachers st) teacher_id = Some t ->
  session_get (modules st) module_id = Some m ->
  select_first
    (fun tm => (TeacherModules.teacher_id tm =? teacher_id)
               && (TeacherModules.module_id tm =? module_id))%bool
    (teacher_modules st) = Some tm ->
  let selected := select_all (enrolled_in module_id) (enrollments st) in
  let sid := next_id (sessions st) in
  let rows :=
    new_attendance_rows (next_id (attendance_records st)) sid module_id
      selected in
  exists resp st',
    TeacherController.create_session share_code teacher_id module_id
      duration_minutes room st = (Ok resp, st')
    /\ TeacherController.cr_session_id resp = sid
    /\ TeacherController.cr_students_enrolled resp
       = Z.of_nat (List.length selected)
    /\ session_get (sessions st') sid
       = Some (ClassSession.mk sid share_code
                 (if truthy_str room then room else Module_.room m)
                 duration_minutes true (TeacherModules.id tm))
    /\ enrollments st' = enrollments st
    /\ attendance_records st' = attendance_records st ++ rows
    /\ List.length rows = List.length selected
    /\ map AttendanceRecord.enrollement_id rows = map Enrollment.id selected
    /\ (forall r, In r rows ->
          AttendanceRecord.status r = ABSENT
          /\ AttendanceRecord.session_id r = sid)
    /\ (pk_unique (enrollments st) ->
        forall e, In e (enrollments st) ->
          List.length
            (filter (fun r => Enrollment.id e =? AttendanceRecord.enrollement_id r)
               rows)
          = if enrolled_in module_id e then 1%nat else 0%nat)
    /\ ((forall r, In r (attendance_records st) ->
           exists s, In s (sessions st)
                     /\ ClassSession.id s = AttendanceRecord.session_id r) ->
        select_all (fun r => AttendanceRecord.session_id r =? sid)
          (attendance_records st') = rows
        /\ (List.length selected = 5%nat ->
            List.length
              (select_all
                 (fun r => (AttendanceRecord.session_id r =? sid)
                           && AttendanceStatus_eqb (AttendanceRecord.status r) ABSENT)%bool
                 (attendance_records st')) = 5%nat)).
Proof.
  intros Ht Hm Htm selected sid rows.
  eexists. eexists. split.
  { apply (create_session_run st share_code teacher_id module_id
             duration_minutes room t m tm); assumption. }
  cbn [TeacherController.cr_session_id TeacherController.cr_students_enrolled
       sessions enrollments attendance_records set_attendance_records
       set_sessions].
  fold selected. fold sid. fold rows.
  assert (Hlen : List.length rows = List.length selected)
    by apply new_attendance_rows_length.
  assert (Hsel : forall r, In r (attendance_records st) ->
            (exists s, In s (sessions st)
                       /\ ClassSession.id s = AttendanceRecord.session_id r) ->
            (AttendanceRecord.session_id r =? sid) = false).
  { intros r _ (s0 & Hs0 & Hid). apply Z.eqb_neq.
    pose proof (next_id_fresh (sessions st) s0 Hs0) as Hlt. simpl in Hlt.
    fold sid in Hlt. lia. }
  split; [reflexivity|].
  split.
  { rewrite length_map, length_combine, Hlen. f_equal. lia. }
  split.
  { rewrite session_get_app_fresh.
    - unfold session_get. simpl. now rewrite Z.eqb_refl.
    - intros s0 Hs0.
      pose proof (next_id_fresh (sessions st) s0 Hs0) as Hlt.
      fold sid in Hlt. lia. }
  split; [reflexivity|].
  split; [reflexivity|].
  split; [exact Hlen|].
  split; [apply new_attendance_rows_enrollments|].
  split.
  { intros r Hr. apply new_attendance_rows_shape in Hr. tauto. }
  split.
  { intros Hu e He. rewrite filter_map_length.
    unfold rows. rewrite new_attendance_rows_enrollments.
    rewrite nodup_filter_length.
    - change (map Enrollment.id selected) with (map pk selected).
      change (Enrollment.id e) with (pk e).
      unfold selected.
      now rewrite (existsb_pk_select_all _ (enrollments st) e Hu He).
    - apply (pk_unique_select_all (enrolled_in module_id)) in Hu. exact Hu. }
  intros Hfk.
  assert (Hold : forall p,
            filter (fun r => (AttendanceRecord.session_id r =? sid) && p r)%bool
              (attendance_records st) = []).
  { intros p. apply filter_none. intros r Hr.
    now rewrite (Hsel r Hr (Hfk r Hr)). }
  split.
  - unfold select_all. rewrite filter_app.
    pose proof (Hold (fun _ => true)) as Hnil.
    erewrite filter_ext in Hnil; [rewrite Hnil|].
    + simpl. apply new_attendance_rows_select.
    + intros r. simpl. now rewrite andb_true_r.
  - intros H5. unfold select_all. rewrite filter_app, Hold. simpl.
    rewrite filter_all; [now rewrite Hlen|].
    intros r Hr. apply new_attendance_rows_shape in Hr.
    destruct Hr as (Hst & Hsid & _).
    rewrite Hst, Hsid. now rewrite Z.eqb_refl.
Qed.

(** C6, Scenario A: teacher 1 opens a session for module 1 of the concrete
    store, which has five enrolled students and one excluded student. *)
Lemma create_session_records_witness :
  exists resp st',
    TeacherController.create_session "D4E5F6" 1 1 90 None scenario_store
    = (Ok resp, st')
    /\ TeacherController.cr_session_id resp = 3
    /\ TeacherController.cr_students_enrolled resp = 5
    /\ map AttendanceRecord.enrollement_id
         (select_all (fun r => AttendanceRecord.session_id r =? 3)
            (attendance_records st'))
       = [1; 2; 3; 4; 5]
    /\ List.length
         (select_all
            (fun r => (AttendanceRecord.session_id r =? 3)
                      && AttendanceStatus_eqb (AttendanceRecord.status r) ABSENT)%bool
            (attendance_records st')) = 5%nat.
Proof.
  destruct (create_session_records scenario_store "D4E5F6" 1 1 90 None
              (Teacher.mk 1 10) (Module_.mk 1 "Algorithms" (Some "A1"))
              (TeacherModules.mk 1 1 1) eq_refl eq_refl eq_refl)
    as (resp & st' & Hrun & Hsid & Hn & _ & _ & _ & _ & Hids & _ & _ & Hfk).
  assert (Hrefs : forall r, In r (attendance_records scenario_store) ->
            exists s, In s (sessions scenario_store)
                      /\ ClassSession.id s = AttendanceRecord.session_id r).
  { intros r Hr. simpl in Hr.
    repeat (destruct Hr as [<-|Hr];
            [first [ exists (ClassSession.mk 1 "ABC123" (Some "A1") 90 true 1);
                     split; [simpl; tauto | reflexivity]
                   | exists (ClassSession.mk 2 "XYZ789" (Some "A1") 90 false 1);
                     split; [simpl; tauto | reflexivity] ]|]).
    contradiction. }
  destruct (Hfk Hrefs) as [Hrows H5].
  exists resp, st'. split; [exact Hrun|].
  split; [exact Hsid|]. split; [exact Hn|].
  split.
  - exact (eq_trans (f_equal (map AttendanceRecord.enrollement_id) Hrows) Hids).
  - exact (H5 eq_refl).
Defined.

(** ** Submitting a justification *)

Lemma create_notification_run (st : Store) (user_id : Z)
    (title message : string) (ty : NotificationType) :
  NotificationController.create_notification user_id title message (Some ty) st
  = match session_get (users st) user_id with
    | Some _ =>
        let n := Notification.mk (next_id (notifications st)) title message
                   (Some ty) false user_id in
        (Ok n, set_notifications (fun tbl => tbl ++ [n]) st)
    | None =>
        (Raise (HTTPException HTTP_404_NOT_FOUND
                  ("User with ID " +++ str_of_int user_id +++ " not found")), st)
    end.
Proof.
  unfold NotificationController.create_notification. run.
  now destruct (session_get (users st) user_id).
Qed.

Lemma justify_absence_run (st : Store) (student_id attendance_record_id : Z)
    (comment : string) (file_url : option string)
    (student : Student.t) (a : AttendanceRecord.t) :
  session_get (students st) student_id = Some student ->
  session_get (attendance_records st) attendance_record_id = Some a ->
  StudentController.justify_absence student_id attendance_record_id comment
    file_url st
  = if match session_get (enrollments st) (AttendanceRecord.enrollement_id a) with
       | None => true
       | Some e => negb (Enrollment.student_id e =? student_id)
       end
    then (Raise (HTTPException HTTP_403_FORBIDDEN
                   "This attendance record does not belong to you"), st)
    else if negb (AttendanceStatus_eqb (AttendanceRecord.status a) ABSENT)
    then (Raise (HTTPException HTTP_400_BAD_REQUEST "Can only justify absences"),
          st)
    else
      match select_first
              (fun j => Justification.attendance_record_id j
                        =? attendance_record_id) (justifications st) with
      | Some _ =>
          (Raise (HTTPException HTTP_400_BAD_REQUEST
                    "A justification already exists for this absence"), st)
      | None =>
          let j := Justification.mk (next_id (justifications st))
                     attendance_record_id (Some comment) file_url PENDING in
          let st1 := submitted st attendance_record_id j in
          match session_get (users st) (Student.user_id student) with
          | Some _ =>
              (Ok j,
               set_notifications
                 (fun tbl =>
                    tbl ++ [Notification.mk (next_id (notifications st))
                              "Justification Submitted"
                              ("Your justification for attendance record #"
                               +++ str_of_int attendance_record_id
                               +++ " has been submitted and is pending review.")
                              (Some JUSTIFICATION_SUBMITTED) false
                              (Student.user_id student)]) st1)
          | None =>
              (Raise (HTTPException HTTP_404_NOT_FOUND
                        ("User with ID "
                         +++ str_of_int (Student.user_id student)
                         +++ " not found")), st1)
          end
      end.
Proof.
  intros Hstu Ha.
  unfold StudentController.justify_absence, StudentController.get_student_by_id.
  unfold bind at 1 2. unfold query at 1. rewrite Hstu. unfold or_raise at 1, ret at 1.
  unfold bind at 1 2. unfold query at 1. rewrite Ha. unfold or_raise at 1, ret at 1.
  unfold bind at 1. unfold query at 1.
  destruct (match session_get (enrollments st) (AttendanceRecord.enrollement_id a)
            with None => true | Some e => _ end); [reflexivity|].
  destruct (negb (AttendanceStatus_eqb (AttendanceRecord.status a) ABSENT));
    [reflexivity|].
  unfold bind at 1. unfold query at 1.
  destruct (select_first _ (justifications st)); [reflexivity|].
  pose proof (session_get_pk _ _ _ Ha) as Hpk. simpl in Hpk.
  unfold bind at 1. unfold query at 1.
  unfold bind at 1. unfold persist at 1.
  unfold bind at 1. unfold persist at 1.
  unfold bind at 1. rewrite create_notification_run.
  cbn [users set_attendance_records set_justifications notifications
       Justification.id].
  rewrite Hpk. unfold submitted. cbn [Justification.id].
  now destruct (session_get (users st) (Student.user_id student)).
Qed.

(** C8 (as the code has it). For an existing student and attendance record,
    [justify_absence] fails with 403 (Forbidden) when the record does not
    belong to the student, with 400 "Can only justify absences" when the
    record is the student's but not ABSENT, and with 400 "A justification
    already exists for this absence" when one is stored for the record; each
    failure leaves the store as it was.  Otherwise (the student's user being
    there to notify) it succeeds: the new justification is stored in PENDING
    and the attendance record's [justification_id] is the new
    justification's id. *)
Theorem justify_absence_outcomes (st : Store)
    (student_id attendance_record_id : Z) (comment : string)
    (file_url : option string) (student : Student.t) (a : AttendanceRecord.t) :
  session_get (students st) student_id = Some student ->
  session_get (attendance_records st) attendance_record_id = Some a ->
  let call :=
    StudentController.justify_absence student_id attendance_record_id comment
      file_url st in
  let existing :=
    select_first
      (fun j => Justification.attendance_record_id j =? attendance_record_id)
      (justifications st) in
  (belongs_to st a student_id = false ->
   call = (Raise (HTTPException HTTP_403_FORBIDDEN
                    "This attendance record does not belong to you"), st))
  /\ (belongs_to st a student_id = true ->
      AttendanceRecord.status a <> ABSENT ->
      call = (Raise (HTTPException HTTP_400_BAD_REQUEST
                       "Can only justify absences"), st))
  /\ (belongs_to st a student_id = true ->
      AttendanceRecord.status a = ABSENT ->
      existing <> None ->
      call = (Raise (HTTPException HTTP_400_BAD_REQUEST
                       "A justification already exists for this absence"), st))
  /\ (belongs_to st a student_id = true ->
      AttendanceRecord.status a = ABSENT ->
      existing = None ->
      session_get (users st) (Student.user_id student) <> None ->
      let j := Justification.mk (next_id (justifications st))
                 attendance_record_id (Some comment) file_url PENDING in
      exists st',
        call = (Ok j, st')
        /\ session_get (justifications st') (Justification.id j) = Some j
        /\ Justification.status j = PENDING
        /\ session_get (attendance_records st') attendance_record_id
           = Some (AttendanceRecord.with_justification_id
                     (Some (Justification.id j)) a)).
Proof.
  intros Hstu Ha call existing. subst call.
  rewrite (justify_absence_run st student_id attendance_record_id comment
             file_url student a Hstu Ha).
  unfold belongs_to. fold existing.
  destruct (session_get (enrollments st) (AttendanceRecord.enrollement_id a))
    as [e|] eqn:He.
  2:{ repeat split; intros; try discriminate; reflexivity. }
  destruct (Enrollment.student_id e =? student_id) eqn:Hown; cbn [negb].
  2:{ repeat split; intros; try discriminate; reflexivity. }
  split; [discriminate|].
  destruct (AttendanceStatus_eqb (AttendanceRecord.status a) ABSENT) eqn:Hst;
    cbn [negb].
  - apply AttendanceStatus_eqb_eq in Hst.
    split; [intros _ Hne; contradiction|].
    destruct existing as [j0|] eqn:Hex.
    + split; [reflexivity|]. intros _ _ Hnone. discriminate.
    + split; [intros _ _ Hne; contradiction|].
      intros _ _ _ Hu.
      destruct (session_get (users st) (Student.user_id student)) as [u|];
        [|contradiction].
      eexists. split; [reflexivity|].
      cbn [justifications attendance_records set_notifications submitted
           set_attendance_records set_justifications Justification.id].
      split; [|split; [reflexivity|]].
      * rewrite session_get_app_fresh.
        -- unfold session_get. simpl. now rewrite Z.eqb_refl.
        -- intros r Hr. pose proof (next_id_fresh (justifications st) r Hr). lia.
      * rewrite session_get_sql_update_same by reflexivity. now rewrite Ha.
  - assert (Hne : AttendanceRecord.status a <> ABSENT).
    { intros Heq. rewrite Heq in Hst. discriminate. }
    split; [reflexivity|]. split; intros _ Heq; contradiction.
Qed.

(** C8, at student 1 and ABSENT record 1 of the concrete store. *)
Lemma justify_absence_outcomes_witness :
  exists st',
    StudentController.justify_absence 1 1 "medical certificate" None
      scenario_store
    = (Ok (Justification.mk 1 1 (Some "medical certificate") None PENDING), st')
    /\ session_get (justifications st') 1
       = Some (Justification.mk 1 1 (Some "medical certificate") None PENDING)
    /\ session_get (attendance_records st') 1
       = Some (AttendanceRecord.mk 1 ABSENT 1 1 1 (Some 1)).
Proof.
  destruct (justify_absence_outcomes scenario_store 1 1 "medical certificate"
              None (Student.mk 1 11 1) (AttendanceRecord.mk 1 ABSENT 1 1 1 None)
              eq_refl eq_refl) as (_ & _ & _ & Hok).
  destruct (Hok eq_refl eq_refl eq_refl ltac:(discriminate))
    as (st' & Hrun & Hj & _ & Hr).
  exists st'. auto.
Defined.

(** C8, refuted as stated: student 2 submits a justification for record 1,
    which belongs to student 1; the call fails with 403 (Forbidden), not
    with the 400 of an invalid state. *)
Lemma justify_absence_foreign_record_counterexample :
  StudentController.justify_absence 2 1 "medical certificate" None
    scenario_store
  = (Raise (HTTPException HTTP_403_FORBIDDEN
              "This attendance record does not belong to you"), scenario_store)
  /\ HTTP_403_FORBIDDEN <> HTTP_400_BAD_REQUEST.
Proof. split; [reflexivity | discriminate]. Qed.

(** ** Deciding a justification *)

Lemma notify_student_run (st : Store) (j : Justification.t)
    (title message : string) (ty : NotificationType) :
  students_have_users st ->
  exists added,
    JustificationController.notify_student j title message ty st
    = (Ok tt, set_notifications (fun tbl => tbl ++ added) st).
Proof.
  intros Hfk.
  assert (Hsame : (Ok tt, st)
                  = (Ok tt, set_notifications (fun tbl => tbl ++ []) st)).
  { f_equal. destruct st; unfold set_notifications; simpl.
    now rewrite app_nil_r. }
  unfold JustificationController.notify_student. run.
  destruct (session_get (attendance_records st) _) as [a|];
    [|exists []; exact Hsame].
  destruct (session_get (enrollments st) _) as [e|];
    [|exists []; exact Hsame].
  destruct (session_get (students st) (Enrollment.student_id e)) as [s|] eqn:Hs;
    [|exists []; exact Hsame].
  rewrite create_notification_run.
  pose proof (Hfk s (session_get_In _ _ _ Hs)) as Hu.
  destruct (session_get (users st) (Student.user_id s)); [|contradiction].
  eexists. reflexivity.
Qed.

Lemma verify_teacher_owns_session_run (st : Store) (s : ClassSession.t)
    (teacher_id : Z) (tm : TeacherModules.t) :
  session_get (teacher_modules st) (ClassSession.teacher_module_id s) = Some tm ->
  TeacherModules.teacher_id tm = teacher_id ->
  TeacherController._verify_teacher_owns_session s teacher_id st = (Ok true, st).
Proof.
  intros Htm Hown. unfold TeacherController._verify_teacher_owns_session. run.
  now rewrite Htm, Hown, Z.eqb_refl.
Qed.

Section Decide.
Variables (st : Store) (justification_id teacher_id : Z).
Variables (decision : string) (teacher_notes : option string).
Variables (j : Justification.t) (a : AttendanceRecord.t).
Variables (s : ClassSession.t) (tm : TeacherModules.t).
Hypothesis Hj : session_get (justifications st) justification_id = Some j.
Hypothesis Hpending : Justification.status j = PENDING.
Hypothesis Ha :
  session_get (attendance_records st) (Justification.attendance_record_id j)
  = Some a.
Hypothesis Hs :
  session_get (sessions st) (AttendanceRecord.session_id a) = Some s.
Hypothesis Htm :
  session_get (teacher_modules st) (ClassSession.teacher_module_id s) = Some tm.
Hypothesis Hown : TeacherModules.teacher_id tm = teacher_id.
Hypothesis Hfk : students_have_users st.

(** Run [validate_justification] through its checks, which all pass. *)
Ltac pass_checks Hdec :=
  unfold TeacherController.validate_justification; cbv zeta;
  rewrite Hdec;
  match goal with
  | |- context [str_in ?d ?l] => change (str_in d l) with true
  end;
  cbn [negb];
  unfold bind at 1 2; unfold query at 1; rewrite Hj;
  unfold or_raise at 1, ret at 1;
  rewrite Hpending; cbn [JustificationStatus_eqb negb];
  unfold bind at 1 2; unfold query at 1; rewrite Ha;
  unfold or_raise at 1, ret at 1;
  unfold bind at 1 2; unfold query at 1; rewrite Hs;
  unfold or_raise at 1, ret at 1;
  unfold bind at 1;
  rewrite (verify_teacher_owns_session_run st s teacher_id tm Htm Hown);
  cbn [negb].

Lemma approve_run :
  exists added,
    JustificationController.approve justification_id st
    = (Ok (Justification.with_status APPROVED j),
       set_notifications (fun tbl => tbl ++ added)
         (set_justifications
            (sql_update justification_id (Justification.with_status APPROVED))
            st)).
Proof.
  unfold JustificationController.approve,
    JustificationController.get_justification_by_id.
  unfold bind at 1 2. unfold query at 1. rewrite Hj. unfold or_raise at 1, ret at 1.
  rewrite Hpending. cbn [JustificationStatus_eqb negb].
  pose proof (session_get_pk _ _ _ Hj) as Hpk. simpl in Hpk. rewrite Hpk.
  unfold bind at 1. unfold persist at 1.
  unfold bind at 1.
  match goal with
  | |- context [JustificationController.notify_student ?jj ?t ?m ?ty ?st0] =>
      destruct (notify_student_run st0 jj t m ty Hfk) as (added & Hrun)
  end.
  exists added. rewrite Hrun. reflexivity.
Qed.

Lemma reject_run :
  exists added,
    JustificationController.reject justification_id st
    = (Ok (Justification.with_status REJECTED j),
       set_notifications (fun tbl => tbl ++ added)
         (set_justifications
            (sql_update justification_id (Justification.with_status REJECTED))
            st)).
Proof.
  unfold JustificationController.reject,
    JustificationController.get_justification_by_id.
  unfold bind at 1 2. unfold query at 1. rewrite Hj. unfold or_raise at 1, ret at 1.
  rewrite Hpending. cbn [JustificationStatus_eqb negb].
  pose proof (session_get_pk _ _ _ Hj) as Hpk. simpl in Hpk. rewrite Hpk.
  unfold bind at 1. unfold persist at 1.
  unfold bind at 1.
  match goal with
  | |- context [JustificationController.notify_student ?jj ?t ?m ?ty ?st0] =>
      destruct (notify_student_run st0 jj t m ty Hfk) as (added & Hrun)
  end.
  exists added. rewrite Hrun. reflexivity.
Qed.

Lemma validate_justification_approve :
  lower decision = "approve" ->
  exists resp st',
    TeacherController.validate_justification justification_id teacher_id
      decision teacher_notes st = (Ok resp, st')
    /\ TeacherController.vr_justification resp
       = Justification.with_status APPROVED j
    /\ session_get (justifications st') justification_id
       = Some (Justification.with_status APPROVED j)
    /\ session_get (attendance_records st') (AttendanceRecord.id a)
       = Some (AttendanceRecord.with_status PRESENT a).
Proof.
  intros Hdec. pass_checks Hdec.
  change ("approve" =? "approve")%string with true. cbv iota.
  destruct approve_run as (added & Happ).
  unfold bind at 1 2. rewrite Happ.
  unfold bind at 1. unfold persist at 1. unfold ret.
  cbn [fst snd].
  eexists. eexists. split; [reflexivity|].
  cbn [TeacherController.vr_justification justifications attendance_records
       set_attendance_records set_notifications set_justifications].
  split; [reflexivity|]. split.
  - rewrite session_get_sql_update_same by reflexivity. now rewrite Hj.
  - rewrite session_get_sql_update_same by reflexivity.
    pose proof (session_get_pk _ _ _ Ha) as Hpk. simpl in Hpk.
    rewrite <- Hpk in Ha. now rewrite Ha.
Qed.

Lemma validate_justification_reject :
  lower decision = "reject" ->
  exists resp st',
    TeacherController.validate_justification justification_id teacher_id
      decision teacher_notes st = (Ok resp, st')
    /\ TeacherController.vr_justification resp
       = Justification.with_status REJECTED j
    /\ session_get (justifications st') justification_id
       = Some (Justification.with_status REJECTED j)
    /\ attendance_records st' = attendance_records st.
Proof.
  intros Hdec. pass_checks Hdec.
  change ("reject" =? "approve")%string with false. cbv iota.
  destruct reject_run as (added & Hrej).
  unfold bind at 1 2. rewrite Hrej.
  unfold ret. cbn [fst snd].
  eexists. eexists. split; [reflexivity|].
  cbn [TeacherController.vr_justification justifications attendance_records
       set_attendance_records set_notifications set_justifications].
  split; [reflexivity|]. split; [|reflexivity].
  rewrite session_get_sql_update_same by reflexivity. now rewrite Hj.
Qed.

End Decide.

(** What a successful [justify_absence] leaves behind. *)
Lemma justify_absence_success (st st1 : Store)
    (student_id attendance_record_id : Z) (comment : string)
    (file_url : option string) (j : Justification.t) (a : AttendanceRecord.t) :
  session_get (attendance_records st) attendance_record_id = Some a ->
  StudentController.justify_absence student_id attendance_record_id comment
    file_url st = (Ok j, st1) ->
  AttendanceRecord.status a = ABSENT
  /\ Justification.status j = PENDING
  /\ Justification.attendance_record_id j = attendance_record_id
  /\ session_get (justifications st1) (Justification.id j) = Some j
  /\ session_get (attendance_records st1) attendance_record_id
     = Some (AttendanceRecord.with_justification_id
               (Some (Justification.id j)) a)
  /\ sessions st1 = sessions st
  /\ teacher_modules st1 = teacher_modules st
  /\ students st1 = students st
  /\ users st1 = users st.
Proof.
  intros Ha Hrun.
  destruct (session_get (students st) student_id) as [student|] eqn:Hstu.
  2:{ unfold StudentController.justify_absence,
        StudentController.get_student_by_id in Hrun.
      unfold bind at 1 2 in Hrun. unfold query at 1 in Hrun.
      rewrite Hstu in Hrun. discriminate. }
  rewrite (justify_absence_run st student_id attendance_record_id comment
             file_url student a Hstu Ha) in Hrun.
  destruct (match session_get (enrollments st) (AttendanceRecord.enrollement_id a)
            with None => true | Some e => _ end); [discriminate|].
  destruct (AttendanceStatus_eqb (AttendanceRecord.status a) ABSENT) eqn:Hst;
    [|discriminate].
  cbn [negb] in Hrun.
  destruct (select_first _ (justifications st)); [discriminate|].
  destruct (session_get (users st) (Student.user_id student)); [|discriminate].
  cbv zeta in Hrun. inversion Hrun; subst; clear Hrun.
  apply AttendanceStatus_eqb_eq in Hst.
  cbn [justifications attendance_records sessions teacher_modules students
       users set_notifications submitted set_attendance_records
       set_justifications Justification.id Justification.status
       Justification.attendance_record_id].
  repeat (split; [first [assumption | reflexivity]|]).
  split; [|split].
  - rewrite session_get_app_fresh.
    + unfold session_get. simpl. now rewrite Z.eqb_refl.
    + intros r Hr. pose proof (next_id_fresh (justifications st) r Hr). lia.
  - rewrite session_get_sql_update_same by reflexivity. now rewrite Ha.
  - repeat split.
Qed.

(** C4. Deciding a PENDING justification as the teacher who owns its
    session: "approve" (in any letter case) stores the justification as
    APPROVED and the linked attendance record as PRESENT; "reject" stores
    the justification as REJECTED and changes no attendance record.  Hence
    a justification submitted for a record and then approved leaves the
    record PRESENT, and one submitted and then rejected leaves it ABSENT. *)
Theorem validate_justification_decision :
  (forall (st : Store) (justification_id teacher_id : Z) (decision : string)
          (teacher_notes : option string) (j : Justification.t)
          (a : AttendanceRecord.t) (s : ClassSession.t) (tm : TeacherModules.t),
     session_get (justifications st) justification_id = Some j ->
     Justification.status j = PENDING ->
     session_get (attendance_records st) (Justification.attendance_record_id j)
     = Some a ->
     session_get (sessions st) (AttendanceRecord.session_id a) = Some s ->
     session_get (teacher_modules st) (ClassSession.teacher_module_id s)
     = Some tm ->
     TeacherModules.teacher_id tm = teacher_id ->
     students_have_users st ->
     (lower decision = "approve" ->
      exists resp st' j' a',
        TeacherController.validate_justification justification_id teacher_id
          decision teacher_notes st = (Ok resp, st')
        /\ session_get (justifications st') justification_id = Some j'
        /\ Justification.status j' = APPROVED
        /\ Justification.attendance_record_id j'
           = Justification.attendance_record_id j
        /\ Justification.comment j' = Justification.comment j
        /\ Justification.file_url j' = Justification.file_url j
        /\ session_get (attendance_records st')
             (Justification.attendance_record_id j) = Some a'
        /\ AttendanceRecord.status a' = PRESENT
        /\ AttendanceRecord.session_id a' = AttendanceRecord.session_id a
        /\ AttendanceRecord.module_id a' = AttendanceRecord.module_id a
        /\ AttendanceRecord.enrollement_id a'
           = AttendanceRecord.enrollement_id a
        /\ AttendanceRecord.justification_id a'
           = AttendanceRecord.justification_id a)
     /\ (lower decision = "reject" ->
         exists resp st' j',
           TeacherController.validate_justification justification_id teacher_id
             decision teacher_notes st = (Ok resp, st')
           /\ session_get (justifications st') justification_id = Some j'
           /\ Justification.status j' = REJECTED
           /\ Justification.attendance_record_id j'
              = Justification.attendance_record_id j
           /\ Justification.comment j' = Justification.comment j
           /\ Justification.file_url j' = Justification.file_url j
           /\ attendance_records st' = attendance_records st
           /\ session_get (attendance_records st')
                (Justification.attendance_record_id j) = Some a))
  /\ (forall (st st1 : Store) (student_id attendance_record_id teacher_id : Z)
             (comment : string) (file_url teacher_notes : option string)
             (j : Justification.t) (a : AttendanceRecord.t)
             (s : ClassSession.t) (tm : TeacherModules.t),
        StudentController.justify_absence student_id attendance_record_id
          comment file_url st = (Ok j, st1) ->
        session_get (attendance_records st) attendance_record_id = Some a ->
        session_get (sessions st) (AttendanceRecord.session_id a) = Some s ->
        session_get (teacher_modules st) (ClassSession.teacher_module_id s)
        = Some tm ->
        TeacherModules.teacher_id tm = teacher_id ->
        students_have_users st ->
        (exists resp st2,
           TeacherController.validate_justification (Justification.id j)
             teacher_id "approve" teacher_notes st1 = (Ok resp, st2)
           /\ option_map AttendanceRecord.status
                (session_get (attendance_records st2) attendance_record_id)
              = Some PRESENT)
        /\ (exists resp st2,
              TeacherController.validate_justification (Justification.id j)
                teacher_id "reject" teacher_notes st1 = (Ok resp, st2)
              /\ option_map AttendanceRecord.status
                   (session_get (attendance_records st2) attendance_record_id)
                 = Some ABSENT)).
Proof.
  split.
  - intros st justification_id teacher_id decision teacher_notes j a s tm
      Hj Hpending Ha Hs Htm Hown Hfk.
    split; intros Hdec.
    + destruct (validate_justification_approve st justification_id teacher_id
                  decision teacher_notes j a s tm Hj Hpending Ha Hs Htm Hown
                  Hfk Hdec) as (resp & st' & Hrun & _ & Hj' & Ha').
      pose proof (session_get_pk _ _ _ Ha) as Hpk. simpl in Hpk.
      exists resp, st', (Justification.with_status APPROVED j),
        (AttendanceRecord.with_status PRESENT a).
      split; [exact Hrun|]. split; [exact Hj'|].
      split; [now destruct j|]. split; [now destruct j|].
      split; [now destruct j|]. split; [now destruct j|].
      split; [rewrite <- Hpk; exact Ha'|].
      split; [now destruct a|]. split; [now destruct a|].
      split; [now destruct a|]. split; now destruct a.
    + destruct (validate_justification_reject st justification_id teacher_id
                  decision teacher_notes j a s tm Hj Hpending Ha Hs Htm Hown
                  Hfk Hdec) as (resp & st' & Hrun & _ & Hj' & Ha').
      exists resp, st', (Justification.with_status REJECTED j).
      split; [exact Hrun|]. split; [exact Hj'|].
      split; [now destruct j|]. split; [now destruct j|].
      split; [now destruct j|]. split; [now destruct j|].
      split; [exact Ha'|].
      rewrite Ha'. exact Ha.
  - intros st st1 student_id attendance_record_id teacher_id comment file_url
      teacher_notes j a s tm Hsubmit Ha Hs Htm Hown Hfk.
    destruct (justify_absence_success st st1 student_id attendance_record_id
                comment file_url j a Ha Hsubmit)
      as (Hst & Hpending & Hrec & Hj1 & Ha1 & Hsess & Htms & Hstu & Husers).
    pose proof (session_get_pk _ _ _ Ha) as Hpk. simpl in Hpk.
    set (a1 := AttendanceRecord.with_justification_id
                 (Some (Justification.id j)) a) in *.
    assert (Ha1' : session_get (attendance_records st1)
                     (Justification.attendance_record_id j) = Some a1)
      by now rewrite Hrec.
    assert (Hs1 : session_get (sessions st1) (AttendanceRecord.session_id a1)
                  = Some s) by now rewrite Hsess.
    assert (Htm1 : session_get (teacher_modules st1)
                     (ClassSession.teacher_module_id s) = Some tm)
      by now rewrite Htms.
    assert (Hfk1 : students_have_users st1).
    { unfold students_have_users. rewrite Hstu, Husers. exact Hfk. }
    split.
    + destruct (validate_justification_approve st1 (Justification.id j)
                  teacher_id "approve" teacher_notes j a1 s tm Hj1 Hpending
                  Ha1' Hs1 Htm1 Hown Hfk1 eq_refl)
        as (resp & st2 & Hrun & _ & _ & Ha2).
      exists resp, st2. split; [exact Hrun|].
      replace attendance_record_id with (AttendanceRecord.id a1)
        by (subst a1; simpl; exact Hpk).
      now rewrite Ha2.
    + destruct (validate_justification_reject st1 (Justification.id j)
                  teacher_id "reject" teacher_notes j a1 s tm Hj1 Hpending
                  Ha1' Hs1 Htm1 Hown Hfk1 eq_refl)
        as (resp & st2 & Hrun & _ & _ & Ha2).
      exists resp, st2. split; [exact Hrun|].
      rewrite Ha2, Ha1. simpl. now rewrite Hst.
Qed.

Lemma scenario_students_have_users : students_have_users scenario_store.
Proof.
  intros s Hs. simpl in Hs.
  repeat (destruct Hs as [<-|Hs]; [discriminate|]). contradiction.
Qed.

(** C4, on the concrete store: student 1 submits a justification for the
    ABSENT record 1 and teacher 1, who owns session 1, decides it. *)
Lemma validate_justification_decision_witness :
  let submit :=
    StudentController.justify_absence 1 1 "medical certificate" None
      scenario_store in
  let j := Justification.mk 1 1 (Some "medical certificate") None PENDING in
  fst submit = Ok j
  /\ (exists resp st2,
        TeacherController.validate_justification 1 1 "approve" None (snd submit)
        = (Ok resp, st2)
        /\ option_map AttendanceRecord.status
             (session_get (attendance_records st2) 1) = Some PRESENT)
  /\ (exists resp st2,
        TeacherController.validate_justification 1 1 "reject" None (snd submit)
        = (Ok resp, st2)
        /\ option_map AttendanceRecord.status
             (session_get (attendance_records st2) 1) = Some ABSENT)
  /\ (exists resp st2,
        TeacherController.validate_justification 1 1 "APPROVE" None (snd submit)
        = (Ok resp, st2)
        /\ session_get (justifications st2) 1
           = Some (Justification.mk 1 1 (Some "medical certificate") None
                     APPROVED)
        /\ session_get (attendance_records st2) 1
           = Some (AttendanceRecord.mk 1 PRESENT 1 1 1 (Some 1)))
  /\ (exists resp st2,
        TeacherController.validate_justification 1 1 "Reject" None (snd submit)
        = (Ok resp, st2)
        /\ session_get (justifications st2) 1
           = Some (Justification.mk 1 1 (Some "medical certificate") None
                     REJECTED)
        /\ session_get (attendance_records st2) 1
           = Some (AttendanceRecord.mk 1 ABSENT 1 1 1 (Some 1))).
Proof.
  intros submit j.
  split; [reflexivity|].
  destruct validate_justification_decision as [Hdecide Hround].
  destruct (Hround scenario_store (snd submit) 1 1 1 "medical certificate"
              None None j (AttendanceRecord.mk 1 ABSENT 1 1 1 None)
              (ClassSession.mk 1 "ABC123" (Some "A1") 90 true 1)
              (TeacherModules.mk 1 1 1)
              eq_refl eq_refl eq_refl eq_refl eq_refl
              scenario_students_have_users) as [Happ Hrej].
  split; [exact Happ|]. split; [exact Hrej|].
  split.
  - destruct (Hdecide (snd submit) 1 1 "APPROVE" None j
                (AttendanceRecord.mk 1 ABSENT 1 1 1 (Some 1))
                (ClassSession.mk 1 "ABC123" (Some "A1") 90 true 1)
                (TeacherModules.mk 1 1 1)
                eq_refl eq_refl eq_refl eq_refl eq_refl eq_refl
                scenario_students_have_users) as [Hup _].
    destruct (Hup eq_refl)
      as (resp & st2 & j' & a' & Hrun & Hj' & Hst & Hrec & Hcom & Hfile & Ha'
          & Hsta & Hsess & Hmod & Henr & Hjid).
    exists resp, st2. split; [exact Hrun|]. split.
    + rewrite Hj'. f_equal.
      pose proof (session_get_pk _ _ _ Hj') as Hid.
      destruct j' as [i r c f0 stat]. cbn in Hid, Hst, Hrec, Hcom, Hfile.
      now subst.
    + transitivity (Some a'); [exact Ha'|]. f_equal.
      pose proof (session_get_pk _ _ _ Ha') as Hid.
      destruct a' as [i stat sid mid eid jid].
      cbn in Hid, Hsta, Hsess, Hmod, Henr, Hjid.
      now subst.
  - destruct (Hdecide (snd submit) 1 1 "Reject" None j
                (AttendanceRecord.mk 1 ABSENT 1 1 1 (Some 1))
                (ClassSession.mk 1 "ABC123" (Some "A1") 90 true 1)
                (TeacherModules.mk 1 1 1)
                eq_refl eq_refl eq_refl eq_refl eq_refl eq_refl
                scenario_students_have_users) as [_ Hdown].
    destruct (Hdown eq_refl)
      as (resp & st2 & j' & Hrun & Hj' & Hst & Hrec & Hcom & Hfile & _ & Ha').
    exists resp, st2. split; [exact Hrun|]. split; [|exact Ha'].
    rewrite Hj'. f_equal.
    pose proof (session_get_pk _ _ _ Hj') as Hid.
    destruct j' as [i r c f0 stat]. cbn in Hid, Hst, Hrec, Hcom, Hfile.
    now subst.
Defined.

(** ** Marking attendance *)

Lemma select_first_sql_update {T : Type} `{SQLModel T} (p : T -> bool)
    (i : Z) (f : T -> T) (tbl : list T) :
  (forall r, p (f r) = p r) ->
  select_first p (sql_update i f tbl)
  = option_map (fun r => if pk r =? i then f r else r) (select_first p tbl).
Proof.
  intros Hp. unfold select_first, sql_update.
  induction tbl as [|r tbl IH]; simpl; [reflexivity|].
  destruct (pk r =? i) eqn:Hri.
  - rewrite Hp. destruct (p r); simpl; [now rewrite Hri | exact IH].
  - destruct (p r); simpl; [now rewrite Hri | exact IH].
Qed.

Lemma session_mark_attendance_run (st : Store) (share_code : string)
    (student_id : Z) :
  SessionController.mark_attendance share_code student_id st
  = match select_first
            (fun s => String.eqb (ClassSession.session_code s) share_code)
            (sessions st) with
    | None =>
        (Raise (HTTPException HTTP_404_NOT_FOUND
                  "Invalid code. Session not found."), st)
    | Some s =>
        if negb (ClassSession.is_active s) then
          (Raise (HTTPException HTTP_400_BAD_REQUEST
                    "Session is closed. Cannot mark attendance."), st)
        else
          match session_get (teacher_modules st)
                  (ClassSession.teacher_module_id s) with
          | None =>
              (Raise (HTTPException HTTP_404_NOT_FOUND
                        "Session module not found"), st)
          | Some tm =>
              match select_first
                      (fun e => (Enrollment.student_id e =? student_id)
                                && (Enrollment.module_id e
                                    =? TeacherModules.module_id tm))%bool
                      (enrollments st) with
              | None =>
                  (Raise (HTTPException HTTP_404_NOT_FOUND
                            "You are not enrolled in this module"), st)
              | Some e =>
                  if Enrollment.is_excluded e then
                    (Raise (HTTPException HTTP_403_FORBIDDEN
                              "You are excluded from this module"), st)
                  else
                    match select_first
                            (fun r => (AttendanceRecord.session_id r
                                       =? ClassSession.id s)
                                      && (AttendanceRecord.enrollement_id r
                                          =? Enrollment.id e))%bool
                            (attendance_records st) with
                    | None =>
                        (Raise (HTTPException HTTP_404_NOT_FOUND
                                  "Attendance record not found"), st)
                    | Some a =>
                        if AttendanceStatus_eqb (AttendanceRecord.status a) PRESENT
                        then
                          (Raise (HTTPException HTTP_400_BAD_REQUEST
                                    "Attendance already marked as present"), st)
                        else
                          (Ok (SessionController.mkMarkAttendanceResult
                                 "Attendance marked successfully" student_id
                                 (ClassSession.id s) "PRESENT"),
                           set_attendance_records
                             (sql_update (AttendanceRecord.id a)
                                (AttendanceRecord.with_status PRESENT)) st)
                    end
              end
          end
    end.
Proof.
  unfold SessionController.mark_attendance. run.
  destruct (select_first _ (sessions st)) as [s|]; [|reflexivity].
  destruct (ClassSession.is_active s); simpl; [|reflexivity].
  destruct (session_get (teacher_modules st) _) as [tm|]; [|reflexivity].
  destruct (select_first _ (enrollments st)) as [e|]; [|reflexivity].
  destruct (Enrollment.is_excluded e); [reflexivity|].
  destruct (select_first _ (attendance_records st)) as [a|]; [|reflexivity].
  now destruct (AttendanceStatus_eqb (AttendanceRecord.status a) PRESENT).
Qed.

(** Scenario B, second half: after a successful [mark_attendance] the same
    call is refused with 400 "Attendance already marked as present". *)
Lemma session_mark_attendance_twice (st st' : Store) (share_code : string)
    (student_id : Z) (resp : SessionController.MarkAttendanceResult) :
  SessionController.mark_attendance share_code student_id st = (Ok resp, st') ->
  SessionController.mark_attendance share_code student_id st'
  = (Raise (HTTPException HTTP_400_BAD_REQUEST
              "Attendance already marked as present"), st').
Proof.
  rewrite !session_mark_attendance_run.
  destruct (select_first _ (sessions st)) as [s|] eqn:Hs; [|discriminate].
  destruct (ClassSession.is_active s) eqn:Hact; simpl; [|discriminate].
  destruct (session_get (teacher_modules st) _) as [tm|] eqn:Htm; [|discriminate].
  destruct (select_first _ (enrollments st)) as [e|] eqn:He; [|discriminate].
  destruct (Enrollment.is_excluded e) eqn:Hex; [discriminate|].
  destruct (select_first _ (attendance_records st)) as [a|] eqn:Ha;
    [|discriminate].
  destruct (AttendanceStatus_eqb (AttendanceRecord.status a) PRESENT);
    [discriminate|].
  intros Heq. inversion Heq; subst; clear Heq.
  cbn [sessions teacher_modules enrollments attendance_records
       set_attendance_records].
  rewrite Hs, Hact. cbn [negb]. rewrite Htm, He, Hex.
  rewrite select_first_sql_update by reflexivity.
  rewrite Ha. cbn [option_map]. change (pk a) with (AttendanceRecord.id a).
  now rewrite Z.eqb_refl.
Qed.

(** What [SessionController.mark_attendance] does, check by check. *)
Lemma session_mark_attendance_outcomes (st : Store) (share_code : string)
    (student_id : Z) :
  let call := SessionController.mark_attendance share_code student_id st in
  let found :=
    select_first (fun s => String.eqb (ClassSession.session_code s) share_code)
      (sessions st) in
  (found = None ->
   call = (Raise (HTTPException HTTP_404_NOT_FOUND
                    "Invalid code. Session not found."), st))
  /\ (forall s, found = Some s -> ClassSession.is_active s = false ->
        call = (Raise (HTTPException HTTP_400_BAD_REQUEST
                         "Session is closed. Cannot mark attendance."), st))
  /\ (forall s tm e,
        found = Some s -> ClassSession.is_active s = true ->
        session_get (teacher_modules st) (ClassSession.teacher_module_id s)
        = Some tm ->
        select_first
          (fun e => (Enrollment.student_id e =? student_id)
                    && (Enrollment.module_id e =? TeacherModules.module_id tm))%bool
          (enrollments st) = Some e ->
        (Enrollment.is_excluded e = true ->
         call = (Raise (HTTPException HTTP_403_FORBIDDEN
                          "You are excluded from this module"), st))
        /\ (forall a,
              Enrollment.is_excluded e = false ->
              select_first
                (fun r => (AttendanceRecord.session_id r =? ClassSession.id s)
                          && (AttendanceRecord.enrollement_id r
                              =? Enrollment.id e))%bool
                (attendance_records st) = Some a ->
              (AttendanceRecord.status a = PRESENT ->
               call = (Raise (HTTPException HTTP_400_BAD_REQUEST
                                "Attendance already marked as present"), st))
              /\ (AttendanceRecord.status a <> PRESENT ->
                  exists resp st',
                    call = (Ok resp, st')
                    /\ st' = set_attendance_records
                               (sql_update (AttendanceRecord.id a)
                                  (AttendanceRecord.with_status PRESENT)) st
                    /\ SessionController.mark_attendance share_code student_id st'
                       = (Raise (HTTPException HTTP_400_BAD_REQUEST
                                   "Attendance already marked as present"),
                          st')))).
Proof.
  intros call found. subst call found.
  split; [|split].
  - intros Hf. now rewrite session_mark_attendance_run, Hf.
  - intros s Hf Hact. now rewrite session_mark_attendance_run, Hf, Hact.
  - intros s tm e Hf Hact Htm He. split.
    + intros Hex.
      now rewrite session_mark_attendance_run, Hf, Hact, Htm, He, Hex.
    + intros a Hex Ha. split.
      * intros Hst.
        now rewrite session_mark_attendance_run, Hf, Hact, Htm, He, Hex, Ha, Hst.
      * intros Hst.
        assert (Hrun : SessionController.mark_attendance share_code student_id st
                       = (Ok (SessionController.mkMarkAttendanceResult
                                "Attendance marked successfully" student_id
                                (ClassSession.id s) "PRESENT"),
                          set_attendance_records
                            (sql_update (AttendanceRecord.id a)
                               (AttendanceRecord.with_status PRESENT)) st)).
        { rewrite session_mark_attendance_run, Hf, Hact, Htm, He, Hex, Ha.
          cbn [negb].
          destruct (AttendanceRecord.status a); try reflexivity. congruence. }
        eexists. eexists. split; [exact Hrun|]. split; [reflexivity|].
        exact (session_mark_attendance_twice _ _ _ _ _ Hrun).
Qed.

(** C5, where the code departs from it: student 7 exists and is not
    enrolled in module 1, session 1 is open under code "ABC123".
    [SessionController.mark_attendance] answers 404 (not found), while
    [StudentController.mark_attendance], the method behind the student
    route, answers the same request with 403 (forbidden). *)
Theorem session_mark_attendance_not_enrolled_404 :
  SessionController.mark_attendance "ABC123" 7 scenario_store
  = (Raise (HTTPException HTTP_404_NOT_FOUND
              "You are not enrolled in this module"), scenario_store)
  /\ StudentController.mark_attendance 7 "ABC123" scenario_store
     = (Raise (HTTPException HTTP_403_FORBIDDEN
                 "You are not enrolled in this module"), scenario_store)
  /\ HTTP_404_NOT_FOUND <> HTTP_403_FORBIDDEN.
Proof. repeat split; try reflexivity. discriminate. Qed.

(** Scenario B on the concrete store: student 1 marks attendance with the
    code of the open session 1; record 1 goes from ABSENT to PRESENT and
    the second call is refused. *)
Example scenario_B_mark_twice :
  let first := SessionController.mark_attendance "ABC123" 1 scenario_store in
  fst first
  = Ok (SessionController.mkMarkAttendanceResult
          "Attendance marked successfully" 1 1 "PRESENT")
  /\ session_get (attendance_records (snd first)) 1
     = Some (AttendanceRecord.mk 1 PRESENT 1 1 1 None)
  /\ fst (SessionController.mark_attendance "ABC123" 1 (snd first))
     = Raise (HTTPException HTTP_400_BAD_REQUEST
                "Attendance already marked as present").
Proof. repeat split; reflexivity. Qed.

(** ** Bulk operations *)

Lemma update_attendance_status_raises (st st1 : Store) (attendance_id : Z)
    (new_status : AttendanceStatus) (e : Exception) :
  AttendanceController.update_attendance_status attendance_id new_status st
  = (Raise e, st1) ->
  st1 = st /\ exists code detail, e = HTTPException code detail.
Proof.
  unfold AttendanceController.update_attendance_status,
    AttendanceController.get_attendance_by_id. run.
  destruct (session_get (attendance_records st) attendance_id) as [a|].
  - destruct (negb _); simpl; intros Heq; inversion Heq; subst; eauto.
  - intros Heq; inversion Heq; subst; eauto.
Qed.

Lemma update_attendance_status_returns (st st1 : Store) (attendance_id : Z)
    (new_status : AttendanceStatus) (r : AttendanceRecord.t) :
  AttendanceController.update_attendance_status attendance_id new_status st
  = (Ok r, st1) ->
  AttendanceRecord.id r = attendance_id /\ AttendanceRecord.status r = new_status.
Proof.
  destruct (session_get (attendance_records st) attendance_id) as [a|] eqn:Ha.
  - rewrite (update_attendance_status_run st attendance_id a new_status Ha).
    pose proof (session_get_pk _ _ _ Ha) as Hpk. simpl in Hpk.
    destruct (AttendanceController.status_in _ _); intros Heq;
      inversion Heq; subst; auto.
  - unfold AttendanceController.update_attendance_status,
      AttendanceController.get_attendance_by_id. run.
    rewrite Ha. discriminate.
Qed.

Lemma bulk_update_loop_step_ok (st st1 : Store) (attendance_id : Z)
    (rest : list Z) (new_status : AttendanceStatus)
    (acc : list AttendanceRecord.t) (r : AttendanceRecord.t) :
  AttendanceController.update_attendance_status attendance_id new_status st
  = (Ok r, st1) ->
  AttendanceController.bulk_update_loop (attendance_id :: rest) new_status acc st
  = AttendanceController.bulk_update_loop rest new_status (acc ++ [r]) st1.
Proof.
  intros Hrun. cbn [AttendanceController.bulk_update_loop].
  unfold bind at 1. unfold try_except. unfold bind at 1. now rewrite Hrun.
Qed.

Lemma bulk_update_loop_step_fail (st st1 : Store) (attendance_id : Z)
    (rest : list Z) (new_status : AttendanceStatus)
    (acc : list AttendanceRecord.t) (e : Exception) :
  AttendanceController.update_attendance_status attendance_id new_status st
  = (Raise e, st1) ->
  AttendanceController.bulk_update_loop (attendance_id :: rest) new_status acc st
  = AttendanceController.bulk_update_loop rest new_status acc st.
Proof.
  intros Hrun.
  destruct (update_attendance_status_raises _ _ _ _ _ Hrun)
    as (-> & code & detail & ->).
  cbn [AttendanceController.bulk_update_loop].
  unfold bind at 1. unfold try_except. unfold bind at 1. now rewrite Hrun.
Qed.

Lemma bulk_update_loop_total (attendance_ids : list Z)
    (new_status : AttendanceStatus) :
  forall (acc : list AttendanceRecord.t) (st : Store),
  exists updated st',
    AttendanceController.bulk_update_loop attendance_ids new_status acc st
    = (Ok (acc ++ updated), st')
    /\ sublist (map AttendanceRecord.id updated) attendance_ids
    /\ Forall (fun r => AttendanceRecord.status r = new_status) updated.
Proof.
  induction attendance_ids as [|i rest IH]; intros acc st.
  - exists [], st. simpl. unfold ret. rewrite app_nil_r.
    repeat split; constructor.
  - destruct (AttendanceController.update_attendance_status i new_status st)
      as [[r|e] st1] eqn:Hrun.
    + rewrite (bulk_update_loop_step_ok _ _ _ _ _ _ _ Hrun).
      destruct (IH (acc ++ [r]) st1) as (updated & st' & Hloop & Hsub & Hall).
      destruct (update_attendance_status_returns _ _ _ _ _ Hrun) as [Hid Hst].
      exists (r :: updated), st'. split; [|split].
      * rewrite Hloop, <- app_assoc. reflexivity.
      * simpl. rewrite Hid. now constructor.
      * now constructor.
    + rewrite (bulk_update_loop_step_fail _ _ _ _ _ _ _ Hrun).
      destruct (IH acc st) as (updated & st' & Hloop & Hsub & Hall).
      exists updated, st'. split; [exact Hloop|]. split; [|exact Hall].
      now constructor.
Qed.

Lemma enroll_student_raises (st st1 : Store) (student_id module_id : Z)
    (e : Exception) :
  EnrollmentController.enroll_student student_id module_id st = (Raise e, st1) ->
  exists code detail, e = HTTPException code detail.
Proof.
  unfold EnrollmentController.enroll_student. run.
  destruct (session_get (students st) student_id);
    [|intros Heq; inversion Heq; eauto].
  destruct (session_get (modules st) module_id);
    [|intros Heq; inversion Heq; eauto].
  destruct (select_first _ (enrollments st)) as [ex|]; [|discriminate].
  destruct (Enrollment.is_excluded ex); simpl; [discriminate|].
  intros Heq; inversion Heq; eauto.
Qed.

Lemma bulk_enroll_loop_step_ok (st st1 : Store) (student_id module_id : Z)
    (rest success : list Z) (failed : list (Z * string)) (en : Enrollment.t) :
  EnrollmentController.enroll_student student_id module_id st = (Ok en, st1) ->
  EnrollmentController.bulk_enroll_loop (student_id :: rest) module_id success
    failed st
  = EnrollmentController.bulk_enroll_loop rest module_id
      (success ++ [student_id]) failed st1.
Proof.
  intros Hrun. cbn [EnrollmentController.bulk_enroll_loop].
  unfold bind at 1. unfold try_except. unfold bind at 1. now rewrite Hrun.
Qed.

Lemma bulk_enroll_loop_step_fail (st st1 : Store) (student_id module_id : Z)
    (rest success : list Z) (failed : list (Z * string))
    (code : Z) (detail : string) :
  EnrollmentController.enroll_student student_id module_id st
  = (Raise (HTTPException code detail), st1) ->
  EnrollmentController.bulk_enroll_loop (student_id :: rest) module_id success
    failed st
  = EnrollmentController.bulk_enroll_loop rest module_id success
      (failed ++ [(student_id, detail)]) st1.
Proof.
  intros Hrun. cbn [EnrollmentController.bulk_enroll_loop].
  unfold bind at 1. unfold try_except. unfold bind at 1. now rewrite Hrun.
Qed.

Lemma bulk_enroll_loop_total (student_ids : list Z) (module_id : Z) :
  forall (success : list Z) (failed : list (Z * string)) (st : Store),
  exists success' failed' st',
    EnrollmentController.bulk_enroll_loop student_ids module_id success failed st
    = (Ok (success ++ success', failed ++ failed'), st')
    /\ Permutation (success' ++ map fst failed') student_ids.
Proof.
  induction student_ids as [|x rest IH]; intros success failed st.
  - exists [], [], st. simpl. unfold ret. now rewrite !app_nil_r.
  - destruct (EnrollmentController.enroll_student x module_id st)
      as [[en|e] st1] eqn:Hrun.
    + rewrite (bulk_enroll_loop_step_ok _ _ _ _ _ _ _ _ Hrun).
      destruct (IH (success ++ [x]) failed st1)
        as (s' & f' & st' & Hloop & Hperm).
      exists (x :: s'), f', st'. split.
      * rewrite Hloop, <- app_assoc. reflexivity.
      * simpl. now constructor.
    + destruct (enroll_student_raises _ _ _ _ _ Hrun) as (code & detail & ->).
      rewrite (bulk_enroll_loop_step_fail _ _ _ _ _ _ _ _ _ Hrun).
      destruct (IH success (failed ++ [(x, detail)]) st1)
        as (s' & f' & st' & Hloop & Hperm).
      exists s', ((x, detail) :: f'), st'. split.
      * rewrite Hloop, <- app_assoc. reflexivity.
      * simpl. apply Permutation_sym.
        apply Permutation_cons_app. now apply Permutation_sym.
Qed.

Lemma select_first_app_none {T : Type} (p : T -> bool) (tbl l : list T) :
  select_first p tbl = None -> select_first p (tbl ++ l) = select_first p l.
Proof.
  unfold select_first. induction tbl as [|x tbl IH]; simpl; [reflexivity|].
  destruct (p x); [discriminate | exact IH].
Qed.

Lemma select_first_app_some {T : Type} (p : T -> bool) (tbl l : list T) (r : T) :
  select_first p tbl = Some r -> select_first p (tbl ++ l) = Some r.
Proof.
  unfold select_first. induction tbl as [|x tbl IH]; simpl; [discriminate|].
  destruct (p x); auto.
Qed.

Lemma enroll_student_run (st : Store) (student_id module_id : Z) :
  EnrollmentController.enroll_student student_id module_id st
  = match session_get (students st) student_id with
    | None =>
        (Raise (HTTPException HTTP_404_NOT_FOUND
                  ("Student with ID " +++ str_of_int student_id +++ " not found")),
         st)
    | Some _ =>
        match session_get (modules st) module_id with
        | None =>
            (Raise (HTTPException HTTP_404_NOT_FOUND
                      ("Module with ID " +++ str_of_int module_id
                       +++ " not found")), st)
        | Some _ =>
            match enrollment_of student_id module_id st with
            | Some existing =>
                if Enrollment.is_excluded existing then
                  (Ok (Enrollment.with_is_excluded false existing),
                   set_enrollments
                     (sql_update (Enrollment.id existing)
                        (Enrollment.with_is_excluded false)) st)
                else
                  (Raise (HTTPException HTTP_400_BAD_REQUEST
                            "Student is already enrolled in this module"), st)
            | None =>
                let enrollment :=
                  Enrollment.mk (next_id (enrollments st)) student_id module_id
                    0 0 false in
                (Ok enrollment,
                 set_enrollments (fun tbl => tbl ++ [enrollment]) st)
            end
        end
    end.
Proof.
  unfold EnrollmentController.enroll_student, enrollment_of. run.
  destruct (session_get (students st) student_id); [|reflexivity].
  destruct (session_get (modules st) module_id); [|reflexivity].
  destruct (select_first _ (enrollments st)) as [ex|]; [|reflexivity].
  now destruct (Enrollment.is_excluded ex).
Qed.

Lemma enrollment_of_fields (st : Store) (student_id module_id : Z)
    (e : Enrollment.t) :
  enrollment_of student_id module_id st = Some e ->
  In e (enrollments st)
  /\ Enrollment.student_id e = student_id
  /\ Enrollment.module_id e = module_id.
Proof.
  unfold enrollment_of, select_first. intros Hf. apply find_some in Hf.
  destruct Hf as [Hin Hp]. apply andb_true_iff in Hp.
  destruct Hp as [H1 H2]. apply Z.eqb_eq in H1, H2. auto.
Qed.

Lemma blocked_update_raises (st : Store) (attendance_id : Z)
    (new_status : AttendanceStatus) :
  blocked attendance_id new_status st ->
  exists e,
    AttendanceController.update_attendance_status attendance_id new_status st
    = (Raise e, st).
Proof.
  unfold blocked.
  destruct (session_get (attendance_records st) attendance_id) as [a|] eqn:Ha.
  - intros Hb. rewrite (update_attendance_status_run st _ a _ Ha), Hb.
    eexists. reflexivity.
  - intros _. unfold AttendanceController.update_attendance_status,
      AttendanceController.get_attendance_by_id. run. rewrite Ha.
    eexists. reflexivity.
Qed.

Lemma raised_update_blocked (st st1 : Store) (attendance_id : Z)
    (new_status : AttendanceStatus) (e : Exception) :
  AttendanceController.update_attendance_status attendance_id new_status st
  = (Raise e, st1) ->
  blocked attendance_id new_status st.
Proof.
  unfold blocked.
  destruct (session_get (attendance_records st) attendance_id) as [a|] eqn:Ha;
    [|auto].
  rewrite (update_attendance_status_run st _ a _ Ha).
  destruct (AttendanceController.status_in _ _); [discriminate | auto].
Qed.

Lemma updated_then_blocked (st st1 : Store) (i j : Z)
    (new_status : AttendanceStatus) (r : AttendanceRecord.t) :
  AttendanceController.update_attendance_status j new_status st = (Ok r, st1) ->
  (i = j \/ blocked i new_status st) ->
  blocked i new_status st1.
Proof.
  intros Hrun Hcase.
  destruct (session_get (attendance_records st) j) as [a|] eqn:Ha.
  2:{ unfold AttendanceController.update_attendance_status,
        AttendanceController.get_attendance_by_id in Hrun. run.
      unfold bind, query, or_raise, raise in Hrun. rewrite Ha in Hrun.
      discriminate. }
  rewrite (update_attendance_status_run st _ a _ Ha) in Hrun.
  destruct (AttendanceController.status_in _ _) eqn:Hin; [|discriminate].
  inversion Hrun; subst r st1; clear Hrun.
  unfold blocked. cbn [attendance_records set_attendance_records].
  rewrite session_get_sql_update by reflexivity.
  destruct (Z.eq_dec i j) as [->|Hne].
  - rewrite Ha, Z.eqb_refl. cbn [option_map AttendanceRecord.status
                                 AttendanceRecord.with_status].
    now destruct new_status.
  - destruct Hcase as [Heq|Hb]; [contradiction|].
    unfold blocked in Hb. apply Z.eqb_neq in Hne. rewrite Hne.
    destruct (session_get (attendance_records st) i); exact Hb.
Qed.

Lemma bulk_update_loop_acc (attendance_ids : list Z)
    (new_status : AttendanceStatus) :
  forall (acc1 acc2 updated : list AttendanceRecord.t) (st st' : Store),
    AttendanceController.bulk_update_loop attendance_ids new_status acc1 st
    = (Ok (acc1 ++ updated), st') ->
    AttendanceController.bulk_update_loop attendance_ids new_status acc2 st
    = (Ok (acc2 ++ updated), st').
Proof.
  induction attendance_ids as [|i rest IH]; intros acc1 acc2 updated st st' Hloop.
  - simpl in *. unfold ret in *. inversion Hloop as [[Hacc Hst]].
    rewrite <- (app_nil_r acc1) in Hacc at 1.
    apply app_inv_head in Hacc. subst updated. now rewrite app_nil_r.
  - destruct (AttendanceController.update_attendance_status i new_status st)
      as [[r|e] st1] eqn:Hrun.
    + rewrite (bulk_update_loop_step_ok _ _ _ _ _ _ _ Hrun) in Hloop.
      rewrite (bulk_update_loop_step_ok _ _ _ _ _ _ _ Hrun).
      destruct (bulk_update_loop_total rest new_status (acc1 ++ [r]) st1)
        as (u2 & st2 & Hloop2 & _).
      rewrite Hloop2 in Hloop. inversion Hloop as [[Hacc Hst]].
      rewrite <- app_assoc in Hacc. apply app_inv_head in Hacc.
      subst updated st2.
      rewrite (IH _ (acc2 ++ [r]) _ _ _ Hloop2). now rewrite <- app_assoc.
    + rewrite (bulk_update_loop_step_fail _ _ _ _ _ _ _ Hrun) in Hloop.
      rewrite (bulk_update_loop_step_fail _ _ _ _ _ _ _ Hrun).
      now apply (IH acc1).
Qed.

Lemma update_attendance_status_ok (st st1 : Store) (attendance_id : Z)
    (new_status : AttendanceStatus) (r : AttendanceRecord.t) :
  AttendanceController.update_attendance_status attendance_id new_status st
  = (Ok r, st1) ->
  session_get (attendance_records st1) attendance_id = Some r
  /\ ~ blocked attendance_id new_status st
  /\ (forall j, j <> attendance_id ->
        session_get (attendance_records st1) j
        = session_get (attendance_records st) j).
Proof.
  intros Hrun.
  destruct (session_get (attendance_records st) attendance_id) as [a|] eqn:Ha.
  2:{ unfold AttendanceController.update_attendance_status,
        AttendanceController.get_attendance_by_id in Hrun.
      unfold bind, query, or_raise, raise in Hrun. rewrite Ha in Hrun.
      discriminate. }
  rewrite (update_attendance_status_run st _ a _ Ha) in Hrun.
  destruct (AttendanceController.status_in _ _) eqn:Hin; [|discriminate].
  inversion Hrun; subst r st1; clear Hrun.
  cbn [attendance_records set_attendance_records].
  split; [|split].
  - rewrite session_get_sql_update_same by reflexivity. now rewrite Ha.
  - unfold blocked. rewrite Ha, Hin. discriminate.
  - intros j Hj. rewrite session_get_sql_update by reflexivity.
    apply Z.eqb_neq in Hj. rewrite Hj.
    now destruct (session_get (attendance_records st) j).
Qed.

Lemma blocked_same_row (st st1 : Store) (i : Z) (new_status : AttendanceStatus) :
  session_get (attendance_records st1) i = session_get (attendance_records st) i ->
  (blocked i new_status st1 <-> blocked i new_status st).
Proof. unfold blocked. now intros ->. Qed.

Lemma bulk_update_loop_keeps (attendance_ids : list Z)
    (new_status : AttendanceStatus) :
  forall (acc res : list AttendanceRecord.t) (st st' : Store) (i : Z)
         (a : AttendanceRecord.t),
    AttendanceController.bulk_update_loop attendance_ids new_status acc st
    = (Ok res, st') ->
    session_get (attendance_records st) i = Some a ->
    AttendanceRecord.status a = new_status ->
    session_get (attendance_records st') i = Some a.
Proof.
  induction attendance_ids as [|j rest IH]; intros acc res st st' i a Hloop Ha Hst.
  - simpl in Hloop. unfold ret in Hloop. now inversion Hloop; subst.
  - destruct (AttendanceController.update_attendance_status j new_status st)
      as [[r|e] st1] eqn:Hrun.
    + rewrite (bulk_update_loop_step_ok _ _ _ _ _ _ _ Hrun) in Hloop.
      destruct (update_attendance_status_ok _ _ _ _ _ Hrun)
        as (_ & Hnb & Hother).
      assert (Hne : i <> j).
      { intros ->. apply Hnb. unfold blocked. rewrite Ha, Hst.
        now destruct new_status. }
      apply (IH _ _ _ _ _ _ Hloop); [|exact Hst].
      rewrite (Hother i Hne). exact Ha.
    + rewrite (bulk_update_loop_step_fail _ _ _ _ _ _ _ Hrun) in Hloop.
      now apply (IH _ _ _ _ _ _ Hloop).
Qed.

(** What [bulk_update_status] returns and stores, item by item. *)
Lemma bulk_update_loop_spec (attendance_ids : list Z)
    (new_status : AttendanceStatus) :
  forall (acc updated : list AttendanceRecord.t) (st st' : Store),
    AttendanceController.bulk_update_loop attendance_ids new_status acc st
    = (Ok (acc ++ updated), st') ->
    (forall r, In r updated ->
       session_get (attendance_records st') (AttendanceRecord.id r) = Some r)
    /\ (forall i, In i (map AttendanceRecord.id updated) <->
                  In i attendance_ids /\ ~ blocked i new_status st)
    /\ (forall i, ~ In i attendance_ids ->
          session_get (attendance_records st') i
          = session_get (attendance_records st) i).
Proof.
  induction attendance_ids as [|j rest IH]; intros acc updated st st' Hloop.
  - simpl in Hloop. unfold ret in Hloop. inversion Hloop as [[Hacc Hst]].
    rewrite <- (app_nil_r acc) in Hacc at 1. apply app_inv_head in Hacc.
    subst updated. split; [intros r []|]. split; [|reflexivity].
    intros i. simpl. tauto.
  - destruct (AttendanceController.update_attendance_status j new_status st)
      as [[r|e] st1] eqn:Hrun.
    + rewrite (bulk_update_loop_step_ok _ _ _ _ _ _ _ Hrun) in Hloop.
      destruct (bulk_update_loop_total rest new_status (acc ++ [r]) st1)
        as (u2 & st2 & Hloop2 & _).
      rewrite Hloop2 in Hloop. inversion Hloop as [[Hacc Hst]].
      rewrite <- app_assoc in Hacc. apply app_inv_head in Hacc.
      subst updated st2. clear Hloop.
      destruct (IH _ _ _ _ Hloop2) as (Hstored & Hiff & Hout).
      destruct (update_attendance_status_ok _ _ _ _ _ Hrun)
        as (Hr & Hnb & Hother).
      destruct (update_attendance_status_returns _ _ _ _ _ Hrun) as [Hid Hstat].
      split; [|split].
      * cbn [app]. intros x [<-|Hx]; [|now apply Hstored].
        rewrite Hid.
        apply (bulk_update_loop_keeps _ _ _ _ _ _ _ _ Hloop2 Hr Hstat).
      * intros i.
        change (In i (map AttendanceRecord.id ([r] ++ u2)))
          with (AttendanceRecord.id r = i
                \/ In i (map AttendanceRecord.id u2)).
        change (In i (j :: rest)) with (j = i \/ In i rest).
        rewrite Hid, Hiff. split.
        -- intros [<-|[Hin Hnb1]]; [split; [now left | exact Hnb]|].
           destruct (Z.eq_dec i j) as [->|Hne].
           ++ exfalso. apply Hnb1.
              apply (updated_then_blocked _ _ _ _ _ _ Hrun). now left.
           ++ split; [now right|].
              intros Hb. apply Hnb1.
              apply (blocked_same_row st st1 i new_status (Hother i Hne)).
              exact Hb.
        -- intros [[<-|Hin] Hnb0]; [now left|].
           destruct (Z.eq_dec i j) as [->|Hne]; [now left|].
           right. split; [exact Hin|]. intros Hb. apply Hnb0.
           apply (blocked_same_row st st1 i new_status (Hother i Hne)).
           exact Hb.
      * intros i Hnotin.
        assert (Hne : i <> j) by (intros ->; apply Hnotin; now left).
        rewrite Hout by (intros Hin; apply Hnotin; now right).
        now apply Hother.
    + pose proof (raised_update_blocked _ _ _ _ _ Hrun) as Hbj.
      rewrite (bulk_update_loop_step_fail _ _ _ _ _ _ _ Hrun) in Hloop.
      destruct (IH _ _ _ _ Hloop) as (Hstored & Hiff & Hout).
      split; [exact Hstored|]. split.
      * intros i. rewrite Hiff.
        change (In i (j :: rest)) with (j = i \/ In i rest). split.
        -- intros [Hin Hnb]. split; [now right | exact Hnb].
        -- intros [[<-|Hin] Hnb]; [contradiction | now split].
      * intros i Hnotin. apply Hout. intros Hin. apply Hnotin. now right.
Qed.

Lemma enroll_student_outcome (st st1 : Store) (student_id module_id : Z)
    (res : Result Enrollment.t) :
  session_get (modules st) module_id <> None ->
  EnrollmentController.enroll_student student_id module_id st = (res, st1) ->
  students st1 = students st
  /\ modules st1 = modules st
  /\ attendance_records st1 = attendance_records st
  /\ (forall i e,
        enrollment_of i module_id st = Some e ->
        Enrollment.is_excluded e = false ->
        exists e', enrollment_of i module_id st1 = Some e'
                   /\ Enrollment.is_excluded e' = false)
  /\ match res with
     | Ok en =>
         session_get (students st) student_id <> None
         /\ exists e', enrollment_of student_id module_id st1 = Some e'
                       /\ Enrollment.is_excluded e' = false
     | Raise e =>
         st1 = st
         /\ ((session_get (students st) student_id = None
              /\ e = HTTPException HTTP_404_NOT_FOUND
                       ("Student with ID " +++ str_of_int student_id
                        +++ " not found"))
             \/ (session_get (students st) student_id <> None
                 /\ (exists en, enrollment_of student_id module_id st = Some en
                                /\ Enrollment.is_excluded en = false)
                 /\ e = HTTPException HTTP_400_BAD_REQUEST
                          "Student is already enrolled in this module"))
     end.
Proof.
  intros Hmod. rewrite enroll_student_run.
  destruct (session_get (students st) student_id) as [stu|] eqn:Hstu.
  2:{ intros Heq. inversion Heq; subst. repeat split; eauto. }
  destruct (session_get (modules st) module_id) as [m|]; [|contradiction].
  destruct (enrollment_of student_id module_id st) as [existing|] eqn:Hex.
  - destruct (Enrollment.is_excluded existing) eqn:Hexcl.
    + intros Heq. inversion Heq; subst res st1; clear Heq.
      cbn [students modules attendance_records set_enrollments].
      assert (Hsel : forall i,
                enrollment_of i module_id
                  (set_enrollments
                     (sql_update (Enrollment.id existing)
                        (Enrollment.with_is_excluded false)) st)
                = option_map
                    (fun r => if pk r =? Enrollment.id existing
                              then Enrollment.with_is_excluded false r else r)
                    (enrollment_of i module_id st)).
      { intros i. unfold enrollment_of. cbn [enrollments set_enrollments].
        apply select_first_sql_update. intros r. now destruct r. }
      repeat split.
      * intros i e He Hact. rewrite Hsel, He. cbn [option_map].
        eexists. split; [reflexivity|].
        destruct (pk e =? Enrollment.id existing); [now destruct e | exact Hact].
      * discriminate.
      * rewrite Hsel, Hex. cbn [option_map].
        eexists. split; [reflexivity|].
        change (pk existing) with (Enrollment.id existing).
        rewrite Z.eqb_refl. now destruct existing.
    + intros Heq. inversion Heq; subst res st1; clear Heq.
      repeat split; eauto.
      right. split; [discriminate|]. split; [eauto | reflexivity].
  - cbv zeta. intros Heq. inversion Heq; subst res st1; clear Heq.
    cbn [students modules attendance_records set_enrollments].
    repeat split.
    + intros i e He Hact. exists e. split; [|exact Hact].
      unfold enrollment_of in *. cbn [enrollments set_enrollments].
      now apply select_first_app_some.
    + discriminate.
    + eexists. split.
      * unfold enrollment_of in *. cbn [enrollments set_enrollments].
        rewrite select_first_app_none by exact Hex.
        unfold select_first. cbn [find Enrollment.student_id Enrollment.module_id].
        rewrite !Z.eqb_refl. reflexivity.
      * reflexivity.
Qed.

(** What [bulk_enroll_students] returns and stores, item by item. *)
Lemma bulk_enroll_loop_spec (student_ids : list Z) (module_id : Z) :
  forall (success success' : list Z) (failed failed' : list (Z * string))
         (st st' : Store),
    session_get (modules st) module_id <> None ->
    EnrollmentController.bulk_enroll_loop student_ids module_id success failed st
    = (Ok (success ++ success', failed ++ failed'), st') ->
    students st' = students st
    /\ modules st' = modules st
    /\ attendance_records st' = attendance_records st
    /\ (forall i e,
          enrollment_of i module_id st = Some e ->
          Enrollment.is_excluded e = false ->
          exists e', enrollment_of i module_id st' = Some e'
                     /\ Enrollment.is_excluded e' = false)
    /\ (forall i, In i success' ->
          session_get (students st) i <> None
          /\ exists e, enrollment_of i module_id st' = Some e
                       /\ Enrollment.is_excluded e = false)
    /\ (forall i detail, In (i, detail) failed' ->
          (session_get (students st) i = None
           /\ detail = "Student with ID " +++ str_of_int i +++ " not found")
          \/ (session_get (students st) i <> None
              /\ (exists e, enrollment_of i module_id st' = Some e
                            /\ Enrollment.is_excluded e = false)
              /\ detail = "Student is already enrolled in this module")).
Proof.
  induction student_ids as [|x rest IH];
    intros success success' failed failed' st st' Hmod Hloop.
  - simpl in Hloop. unfold ret in Hloop. inversion Hloop as [[Hs Hf Hst]].
    rewrite <- (app_nil_r success) in Hs at 1. apply app_inv_head in Hs.
    rewrite <- (app_nil_r failed) in Hf at 1. apply app_inv_head in Hf.
    subst success' failed'.
    split; [reflexivity|]. split; [reflexivity|]. split; [reflexivity|].
    split; [intros i e He Hact; eauto|].
    split; [intros i [] | intros i detail []].
  - destruct (EnrollmentController.enroll_student x module_id st)
      as [[en|e] st1] eqn:Hrun.
    + rewrite (bulk_enroll_loop_step_ok _ _ _ _ _ _ _ _ Hrun) in Hloop.
      destruct (enroll_student_outcome _ _ _ _ _ Hmod Hrun)
        as (Hstu & Hmods & Hrec & Hkeep & Hexists & e1 & He1 & Hact1).
      assert (Hmod1 : session_get (modules st1) module_id <> None)
        by now rewrite Hmods.
      destruct (bulk_enroll_loop_total rest module_id (success ++ [x]) failed st1)
        as (s2 & f2 & st2 & Hloop2 & _).
      rewrite Hloop2 in Hloop. inversion Hloop as [[Hs Hf Hst]].
      rewrite <- app_assoc in Hs. apply app_inv_head in Hs.
      apply app_inv_head in Hf. subst success' f2 st2. clear Hloop.
      destruct (IH _ _ _ _ _ _ Hmod1 Hloop2)
        as (Hstu2 & Hmods2 & Hrec2 & Hkeep2 & Hok2 & Hfail2).
      split; [congruence|]. split; [congruence|]. split; [congruence|].
      split; [|split].
      * intros i e He Hact. destruct (Hkeep i e He Hact) as (e' & He' & Hact').
        exact (Hkeep2 i e' He' Hact').
      * intros i [<-|Hi].
        -- split; [exact Hexists|]. exact (Hkeep2 x e1 He1 Hact1).
        -- destruct (Hok2 i Hi) as [Hs2 He2]. split; [|exact He2].
           now rewrite <- Hstu.
      * intros i detail Hin. destruct (Hfail2 i detail Hin) as [[Hn Hd]|[Hn Hd]].
        -- left. split; [now rewrite <- Hstu | exact Hd].
        -- right. split; [now rewrite <- Hstu | exact Hd].
    + destruct (enroll_student_raises _ _ _ _ _ Hrun) as (code & detail0 & ->).
      rewrite (bulk_enroll_loop_step_fail _ _ _ _ _ _ _ _ _ Hrun) in Hloop.
      destruct (enroll_student_outcome _ _ _ _ _ Hmod Hrun)
        as (Hstu & Hmods & Hrec & Hkeep & Hsame & Hreason).
      subst st1.
      destruct (bulk_enroll_loop_total rest module_id success
                  (failed ++ [(x, detail0)]) st)
        as (s2 & f2 & st2 & Hloop2 & _).
      rewrite Hloop2 in Hloop. inversion Hloop as [[Hs Hf Hst]].
      apply app_inv_head in Hs. rewrite <- app_assoc in Hf.
      apply app_inv_head in Hf. subst s2 failed' st2. clear Hloop.
      destruct (IH _ _ _ _ _ _ Hmod Hloop2)
        as (Hstu2 & Hmods2 & Hrec2 & Hkeep2 & Hok2 & Hfail2).
      split; [exact Hstu2|]. split; [exact Hmods2|]. split; [exact Hrec2|].
      split; [exact Hkeep2|]. split; [exact Hok2|].
      intros i detail [Heq|Hin]; [|now apply Hfail2].
      inversion Heq; subst i detail.
      destruct Hreason as [[Hn He]|(Hn & (en & Hen & Hact) & He)];
        inversion He; subst.
      * left. split; [exact Hn | reflexivity].
      * right. split; [exact Hn|]. split; [|reflexivity].
        exact (Hkeep2 x en Hen Hact).
Qed.

(** C9 (as the code has it). Neither bulk operation stops at a failing
    item, and every item is processed.
    [bulk_update_status] always returns normally.  An item whose update
    succeeds is written, is returned in its place at the head of what the
    remaining items return, and the remaining items run on the store it
    left; an item whose update fails is skipped without any entry and the
    remaining items run on the same store.  So the list returned holds, in
    input order and with the requested status, exactly the records whose
    update the store allowed when the call started; each of them is stored
    as returned, and records that are not named in the input are not
    touched.
    [bulk_enroll_students], when the module exists, always returns normally
    and reports every input id exactly once, in [enrolled_students] or,
    with the reason, in [failures], the two counts being the lengths of
    these lists.  A student reported as enrolled exists and has an
    enrollment in the module that is not excluded; a failure is either an
    unknown student ("... not found") or a student who already has such an
    enrollment ("... already enrolled ..."). *)
Theorem bulk_operations_continue :
  (forall (attendance_ids : list Z) (new_status : AttendanceStatus) (st : Store),
     exists updated st',
       AttendanceController.bulk_update_status attendance_ids new_status st
       = (Ok updated, st')
       /\ sublist (map AttendanceRecord.id updated) attendance_ids
       /\ Forall (fun r => AttendanceRecord.status r = new_status) updated
       /\ (forall i, In i (map AttendanceRecord.id updated) <->
                     In i attendance_ids /\ ~ blocked i new_status st)
       /\ (forall r, In r updated ->
             session_get (attendance_records st') (AttendanceRecord.id r)
             = Some r)
       /\ (forall i, ~ In i attendance_ids ->
             session_get (attendance_records st') i
             = session_get (attendance_records st) i))
  /\ (forall (attendance_id : Z) (rest : list Z) (new_status : AttendanceStatus)
             (st st1 : Store) (e : Exception),
        AttendanceController.update_attendance_status attendance_id new_status st
        = (Raise e, st1) ->
        AttendanceController.bulk_update_status (attendance_id :: rest)
          new_status st
        = AttendanceController.bulk_update_status rest new_status st)
  /\ (forall (attendance_id : Z) (rest : list Z) (new_status : AttendanceStatus)
             (st st1 : Store) (r : AttendanceRecord.t),
        AttendanceController.update_attendance_status attendance_id new_status st
        = (Ok r, st1) ->
        exists updated' st',
          AttendanceController.bulk_update_status rest new_status st1
          = (Ok updated', st')
          /\ AttendanceController.bulk_update_status (attendance_id :: rest)
               new_status st
             = (Ok (r :: updated'), st')
          /\ AttendanceRecord.status r = new_status
          /\ session_get (attendance_records st') attendance_id = Some r)
  /\ (forall (student_ids : list Z) (module_id : Z) (st : Store),
        session_get (modules st) module_id <> None ->
        exists resp st',
          EnrollmentController.bulk_enroll_students student_ids module_id st
          = (Ok resp, st')
          /\ Permutation
               (EnrollmentController.enrolled_students resp
                ++ map fst (EnrollmentController.failures resp))
               student_ids
          /\ EnrollmentController.successful_enrollments resp
             = Z.of_nat (List.length (EnrollmentController.enrolled_students resp))
          /\ EnrollmentController.failed_enrollments resp
             = Z.of_nat (List.length (EnrollmentController.failures resp))
          /\ (forall i, In i (EnrollmentController.enrolled_students resp) ->
                session_get (students st) i <> None
                /\ exists e,
                     enrollment_of i module_id st' = Some e
                     /\ Enrollment.is_excluded e = false)
          /\ (forall i detail,
                In (i, detail) (EnrollmentController.failures resp) ->
                (session_get (students st) i = None
                 /\ detail
                    = "Student with ID " +++ str_of_int i +++ " not found")
                \/ (session_get (students st) i <> None
                    /\ (exists e,
                          enrollment_of i module_id st' = Some e
                          /\ Enrollment.is_excluded e = false)
                    /\ detail = "Student is already enrolled in this module")))
  /\ (forall (student_id module_id : Z) (rest success : list Z)
             (failed : list (Z * string)) (st st1 : Store)
             (code : Z) (detail : string),
        EnrollmentController.enroll_student student_id module_id st
        = (Raise (HTTPException code detail), st1) ->
        EnrollmentController.bulk_enroll_loop (student_id :: rest) module_id
          success failed st
        = EnrollmentController.bulk_enroll_loop rest module_id success
            (failed ++ [(student_id, detail)]) st1)
  /\ (forall (student_id module_id : Z) (rest success : list Z)
             (failed : list (Z * string)) (st st1 : Store) (en : Enrollment.t),
        EnrollmentController.enroll_student student_id module_id st
        = (Ok en, st1) ->
        EnrollmentController.bulk_enroll_loop (student_id :: rest) module_id
          success failed st
        = EnrollmentController.bulk_enroll_loop rest module_id
            (success ++ [student_id]) failed st1).
Proof.
  split; [|split; [|split; [|split; [|split]]]].
  - intros attendance_ids new_status st.
    unfold AttendanceController.bulk_update_status.
    destruct (bulk_update_loop_total attendance_ids new_status [] st)
      as (updated & st' & Hloop & Hsub & Hall).
    destruct (bulk_update_loop_spec _ _ _ _ _ _ Hloop) as (Hstored & Hiff & Hout).
    exists updated, st'. auto 10.
  - intros attendance_id rest new_status st st1 e Hrun.
    unfold AttendanceController.bulk_update_status.
    exact (bulk_update_loop_step_fail _ _ _ _ _ _ _ Hrun).
  - intros attendance_id rest new_status st st1 r Hrun.
    unfold AttendanceController.bulk_update_status.
    destruct (bulk_update_loop_total rest new_status [] st1)
      as (updated' & st' & Hloop & _).
    exists updated', st'. split; [exact Hloop|].
    destruct (update_attendance_status_ok _ _ _ _ _ Hrun) as (Hr & _ & _).
    destruct (update_attendance_status_returns _ _ _ _ _ Hrun) as [_ Hstat].
    split; [|split; [exact Hstat|]].
    + rewrite (bulk_update_loop_step_ok _ _ _ _ _ _ _ Hrun).
      exact (bulk_update_loop_acc _ _ [] [r] _ _ _ Hloop).
    + exact (bulk_update_loop_keeps _ _ _ _ _ _ _ _ Hloop Hr Hstat).
  - intros student_ids module_id st Hmod.
    unfold EnrollmentController.bulk_enroll_students.
    unfold bind at 1 2. unfold query at 1.
    destruct (session_get (modules st) module_id) as [m|] eqn:Hm;
      [|contradiction].
    unfold or_raise at 1, ret at 1.
    destruct (bulk_enroll_loop_total student_ids module_id [] [] st)
      as (s' & f' & st' & Hloop & Hperm).
    assert (Hmod' : session_get (modules st) module_id <> None)
      by (rewrite Hm; discriminate).
    destruct (bulk_enroll_loop_spec _ _ _ _ _ _ _ _ Hmod' Hloop)
      as (_ & _ & _ & _ & Hok & Hfail).
    unfold bind at 1. rewrite Hloop. unfold ret.
    eexists. eexists. split; [reflexivity|].
    cbn [EnrollmentController.enrolled_students EnrollmentController.failures
         EnrollmentController.successful_enrollments
         EnrollmentController.failed_enrollments fst snd app].
    auto 10.
  - intros student_id module_id rest success failed st st1 code detail Hrun.
    exact (bulk_enroll_loop_step_fail _ _ _ _ _ _ _ _ _ Hrun).
  - intros student_id module_id rest success failed st st1 en Hrun.
    exact (bulk_enroll_loop_step_ok _ _ _ _ _ _ _ _ Hrun).
Qed.

(** C9, on the concrete store.  Enrolling students 1 (already enrolled),
    6 (excluded, so reinstated), 7 (new) and 99 (unknown) in module 1
    reports 6 and 7 as enrolled and 1 and 99 as failures, and 7 is enrolled
    afterwards.  Setting the records 1 (ABSENT), 99 (missing), 4 (PRESENT)
    and 2 (ABSENT) to PRESENT returns and stores the records 1 and 2. *)
Lemma bulk_operations_continue_witness :
  (exists resp st',
     EnrollmentController.bulk_enroll_students [1; 6; 7; 99] 1 scenario_store
     = (Ok resp, st')
     /\ EnrollmentController.enrolled_students resp = [6; 7]
     /\ EnrollmentController.failures resp
        = [(1, "Student is already enrolled in this module");
           (99, "Student with ID 99 not found")]
     /\ (exists e, enrollment_of 7 1 st' = Some e
                   /\ Enrollment.is_excluded e = false)
     /\ enrollment_of 7 1 st' = Some (Enrollment.mk 7 7 1 0 0 false))
  /\ (exists updated' st',
        AttendanceController.bulk_update_status [99; 4; 2] PRESENT
          (snd (AttendanceController.update_attendance_status 1 PRESENT
                  scenario_store))
        = (Ok updated', st')
        /\ AttendanceController.bulk_update_status [1; 99; 4; 2] PRESENT
             scenario_store
           = (Ok (AttendanceRecord.mk 1 PRESENT 1 1 1 None :: updated'), st')
        /\ updated' = [AttendanceRecord.mk 2 PRESENT 1 1 2 None]
        /\ session_get (attendance_records st') 1
           = Some (AttendanceRecord.mk 1 PRESENT 1 1 1 None)
        /\ session_get (attendance_records st') 2
           = Some (AttendanceRecord.mk 2 PRESENT 1 1 2 None))
  /\ AttendanceController.bulk_update_status [99; 1] PRESENT scenario_store
     = AttendanceController.bulk_update_status [1] PRESENT scenario_store.
Proof.
  destruct bulk_operations_continue
    as (Hupdate & Hskip & Hstep & Henroll & _ & _).
  split; [|split].
  - destruct (Henroll [1; 6; 7; 99] 1 scenario_store ltac:(discriminate))
      as (resp & st' & Hrun & _ & _ & _ & Hok & _).
    assert (Hresp : resp
                    = EnrollmentController.mkBulkEnrollResult 1 2 2 [6; 7]
                        [(1, "Student is already enrolled in this module");
                         (99, "Student with ID 99 not found")]).
    { vm_compute in Hrun. now inversion Hrun. }
    exists resp, st'. split; [exact Hrun|].
    split; [now rewrite Hresp|]. split; [now rewrite Hresp|].
    split.
    + apply (Hok 7). rewrite Hresp. simpl. auto.
    + vm_compute in Hrun. inversion Hrun. reflexivity.
  - destruct (Hstep 1 [99; 4; 2] PRESENT scenario_store _
                (AttendanceRecord.mk 1 PRESENT 1 1 1 None) eq_refl)
      as (updated' & st' & Hrest & Hall & _ & Hstored).
    exists updated', st'. split; [exact Hrest|]. split; [exact Hall|].
    assert (Hupd : updated' = [AttendanceRecord.mk 2 PRESENT 1 1 2 None]).
    { vm_compute in Hrest. now inversion Hrest. }
    split; [exact Hupd|]. split; [exact Hstored|].
    destruct (Hupdate [1; 99; 4; 2] PRESENT scenario_store)
      as (updated & st2 & Hrun & _ & _ & _ & Hst & _).
    rewrite Hall in Hrun. inversion Hrun; subst updated st2.
    apply (Hst (AttendanceRecord.mk 2 PRESENT 1 1 2 None)).
    rewrite Hupd. simpl. auto.
  - apply (Hskip 99 [1] PRESENT scenario_store scenario_store
             (HTTPException HTTP_404_NOT_FOUND
                "Attendance record with ID 99 not found")).
    reflexivity.
Defined.

(** Bulk enrollment, evaluated on the concrete store. *)
Example bulk_enroll_students_scenario :
  fst (EnrollmentController.bulk_enroll_students [1; 6; 7; 99] 1 scenario_store)
  = Ok (EnrollmentController.mkBulkEnrollResult 1 2 2 [6; 7]
          [(1, "Student is already enrolled in this module");
           (99, "Student with ID 99 not found")]).
Proof. reflexivity. Qed.

(** C9, refuted as stated: of the three items 1 (ABSENT, updated), 99 (no
    such record) and 4 (already PRESENT, transition refused) the bulk status
    update returns the one updated record and nothing about the two items
    that failed. *)
Lemma bulk_update_status_counterexample :
  fst (AttendanceController.bulk_update_status [1; 99; 4] PRESENT scenario_store)
  = Ok [AttendanceRecord.mk 1 PRESENT 1 1 1 None]
  /\ (exists e, fst (AttendanceController.update_attendance_status 99 PRESENT
                       scenario_store) = Raise e)
  /\ (exists e, fst (AttendanceController.update_attendance_status 4 PRESENT
                       scenario_store) = Raise e)
  /\ ~ (forall updated,
          fst (AttendanceController.bulk_update_status [1; 99; 4] PRESENT
                 scenario_store) = Ok updated ->
          forall i, In i [1; 99; 4] ->
            In i (map AttendanceRecord.id updated)).
Proof.
  split; [reflexivity|].
  split; [eexists; reflexivity|].
  split; [eexists; reflexivity|].
  intros Hcover.
  specialize (Hcover _ eq_refl 99 (or_intror (or_introl eq_refl))).
  simpl in Hcover. destruct Hcover as [Heq|[]]. discriminate.
Qed.

(** * Further properties of the controllers *)

(** ** Reinstating and enrolling *)

Lemma reinstate_student_run (st : Store) (enrollment_id : Z) :
  EnrollmentController.reinstate_student enrollment_id st
  = match session_get (enrollments st) enrollment_id with
    | None =>
        (Raise (HTTPException HTTP_404_NOT_FOUND
                  ("Enrollment with ID " +++ str_of_int enrollment_id
                   +++ " not found")), st)
    | Some e =>
        if Enrollment.is_excluded e then
          (Ok (Enrollment.with_is_excluded false e),
           set_enrollments
             (sql_update enrollment_id (Enrollment.with_is_excluded false)) st)
        else
          (Raise (HTTPException HTTP_400_BAD_REQUEST
                    "Student is not excluded from this module"), st)
    end.
Proof.
  unfold EnrollmentController.reinstate_student,
    EnrollmentController.get_enrollment_by_id. run.
  destruct (session_get (enrollments st) enrollment_id) as [e|] eqn:He;
    [|reflexivity].
  pose proof (session_get_pk _ _ _ He) as Hpk. simpl in Hpk.
  destruct (Enrollment.is_excluded e); simpl; [|reflexivity].
  now rewrite Hpk.
Qed.

(** X1. [reinstate_student] on an excluded enrollment clears the exclusion
    flag and nothing else: the absence counters of the enrollment stay and
    every attendance record, the EXCLUDED ones of that enrollment included,
    is left as it is.  On an enrollment that is not excluded it fails with
    400 and on an unknown id with 404, the store unchanged. *)
Theorem reinstate_student_effect (st : Store) (enrollment_id : Z) :
  (forall e,
     session_get (enrollments st) enrollment_id = Some e ->
     Enrollment.is_excluded e = true ->
     exists st',
       EnrollmentController.reinstate_student enrollment_id st
       = (Ok (Enrollment.with_is_excluded false e), st')
       /\ session_get (enrollments st') enrollment_id
          = Some (Enrollment.with_is_excluded false e)
       /\ Enrollment.number_of_absences (Enrollment.with_is_excluded false e)
          = Enrollment.number_of_absences e
       /\ attendance_records st' = attendance_records st
       /\ (forall i, i <> enrollment_id ->
             session_get (enrollments st') i = session_get (enrollments st) i))
  /\ (forall e,
        session_get (enrollments st) enrollment_id = Some e ->
        Enrollment.is_excluded e = false ->
        EnrollmentController.reinstate_student enrollment_id st
        = (Raise (HTTPException HTTP_400_BAD_REQUEST
                    "Student is not excluded from this module"), st))
  /\ (session_get (enrollments st) enrollment_id = None ->
      EnrollmentController.reinstate_student enrollment_id st
      = (Raise (HTTPException HTTP_404_NOT_FOUND
                  ("Enrollment with ID " +++ str_of_int enrollment_id
                   +++ " not found")), st)).
Proof.
  rewrite reinstate_student_run. split; [|split].
  - intros e He Hex. rewrite He, Hex. eexists. split; [reflexivity|].
    cbn [enrollments attendance_records set_enrollments].
    split; [|split; [reflexivity|split; [reflexivity|]]].
    + rewrite session_get_sql_update_same by reflexivity. now rewrite He.
    + intros i Hi. rewrite session_get_sql_update by reflexivity.
      apply Z.eqb_neq in Hi. rewrite Hi.
      now destruct (session_get (enrollments st) i).
  - intros e He Hex. now rewrite He, Hex.
  - intros He. now rewrite He.
Qed.

(** X1, at the excluded enrollment 6 and the active enrollment 1 of the
    concrete store. *)
Lemma reinstate_student_effect_witness :
  (exists st',
     EnrollmentController.reinstate_student 6 scenario_store
     = (Ok (Enrollment.mk 6 6 1 3 0 false), st')
     /\ attendance_records st' = attendance_records scenario_store)
  /\ EnrollmentController.reinstate_student 1 scenario_store
     = (Raise (HTTPException HTTP_400_BAD_REQUEST
                 "Student is not excluded from this module"), scenario_store).
Proof.
  destruct (reinstate_student_effect scenario_store 6) as (Hok & _ & _).
  destruct (reinstate_student_effect scenario_store 1) as (_ & Hno & _).
  split.
  - destruct (Hok (Enrollment.mk 6 6 1 3 0 true) eq_refl eq_refl)
      as (st' & Hrun & _ & _ & Hrec & _).
    exists st'. split; [exact Hrun | exact Hrec].
  - exact (Hno (Enrollment.mk 1 1 1 0 0 false) eq_refl eq_refl).
Defined.

(** X2. Exclusion is not undone by reinstatement: excluding an enrollment
    and reinstating it right away succeeds and gives back the enrollments
    table as it was, but the attendance records of the enrollment that were
    ABSENT stay EXCLUDED. *)
Theorem exclude_then_reinstate (st : Store) (enrollment_id : Z)
    (e : Enrollment.t) :
  session_get (enrollments st) enrollment_id = Some e ->
  Enrollment.is_excluded e = false ->
  pk_unique (enrollments st) ->
  pk_unique (attendance_records st) ->
  exists e1 st1 e2 st2,
    EnrollmentController.make_excluded_from_module enrollment_id st
    = (Ok e1, st1)
    /\ EnrollmentController.reinstate_student enrollment_id st1 = (Ok e2, st2)
    /\ e2 = e
    /\ enrollments st2 = enrollments st
    /\ attendance_records st2
       = map (exclude_absent enrollment_id) (attendance_records st)
    /\ (forall r, In r (attendance_records st) ->
          AttendanceRecord.enrollement_id r = enrollment_id ->
          AttendanceRecord.status r = ABSENT ->
          session_get (attendance_records st2) (AttendanceRecord.id r)
          = Some (AttendanceRecord.with_status EXCLUDED r)).
Proof.
  intros He Hex Hu Hua.
  assert (Hback : Enrollment.with_is_excluded false
                    (Enrollment.with_is_excluded true e) = e).
  { destruct e; simpl in Hex; subst; reflexivity. }
  eexists. eexists. eexists. eexists.
  split; [apply make_excluded_from_module_run; eassumption|].
  rewrite reinstate_student_run.
  cbn [enrollments set_attendance_records set_enrollments].
  rewrite session_get_sql_update_same by reflexivity. rewrite He.
  cbn [option_map Enrollment.is_excluded Enrollment.with_is_excluded].
  split; [reflexivity|].
  cbn [enrollments attendance_records set_attendance_records set_enrollments].
  split; [exact Hback|]. split; [|split; [reflexivity|]].
  - unfold sql_update. rewrite map_map.
    rewrite <- (map_id (enrollments st)) at 2.
    apply map_ext_in. intros x Hx.
    destruct (pk x =? enrollment_id) eqn:Hid; [|now rewrite Hid].
    cbn [pk Enrollment_model Enrollment.with_is_excluded Enrollment.id] in *.
    rewrite Hid.
    apply Z.eqb_eq in Hid.
    pose proof (pk_unique_session_get _ x Hu Hx) as Hgx. simpl in Hgx.
    rewrite Hid, He in Hgx. inversion Hgx; subst x. exact Hback.
  - intros r Hr Hid Hst.
    assert (Hu' : pk_unique (map (exclude_absent enrollment_id)
                               (attendance_records st))).
    { unfold pk_unique. rewrite map_map.
      erewrite map_ext; [exact Hua|].
      intros r0. unfold exclude_absent. now destruct (_ && _)%bool. }
    replace (AttendanceRecord.with_status EXCLUDED r)
      with (exclude_absent enrollment_id r)
      by (unfold exclude_absent; now rewrite Hid, Z.eqb_refl, Hst).
    replace (AttendanceRecord.id r)
      with (pk (exclude_absent enrollment_id r))
      by (unfold exclude_absent; now destruct (_ && _)%bool).
    apply pk_unique_session_get; [exact Hu' | now apply in_map].
Qed.

(** X2, at enrollment 1 of the concrete store. *)
Lemma exclude_then_reinstate_witness :
  exists e1 st1 e2 st2,
    EnrollmentController.make_excluded_from_module 1 scenario_store
    = (Ok e1, st1)
    /\ EnrollmentController.reinstate_student 1 st1 = (Ok e2, st2)
    /\ enrollments st2 = enrollments scenario_store
    /\ session_get (attendance_records st2) 1
       = Some (AttendanceRecord.mk 1 EXCLUDED 1 1 1 None).
Proof.
  assert (Hu : pk_unique (enrollments scenario_store))
    by (apply nodupb_sound; reflexivity).
  assert (Hua : pk_unique (attendance_records scenario_store))
    by (apply nodupb_sound; reflexivity).
  destruct (exclude_then_reinstate scenario_store 1
              (Enrollment.mk 1 1 1 0 0 false) eq_refl eq_refl Hu Hua)
    as (e1 & st1 & e2 & st2 & H1 & H2 & _ & Hen & _ & Hrec).
  exists e1, st1, e2, st2. repeat split; try assumption.
  apply (Hrec (AttendanceRecord.mk 1 ABSENT 1 1 1 None)); try reflexivity.
  simpl. auto.
Defined.

Lemma verify_enrollment_to_record_run (st : Store) (student_id module_id : Z) :
  AttendanceController.verify_enrollment_to_record student_id module_id st
  = (Ok match session_get (students st) student_id with
        | None =>
            AttendanceController.mkVerifyResult false None
              (Some ("Student with ID " +++ str_of_int student_id
                     +++ " not found")) None None None
        | Some _ =>
            match session_get (modules st) module_id with
            | None =>
                AttendanceController.mkVerifyResult false None
                  (Some ("Module with ID " +++ str_of_int module_id
                         +++ " not found")) None None None
            | Some _ =>
                match enrollment_of student_id module_id st with
                | None =>
                    AttendanceController.mkVerifyResult false None
                      (Some "Student is not enrolled in this module")
                      None None None
                | Some e =>
                    if Enrollment.is_excluded e then
                      AttendanceController.mkVerifyResult false (Some true)
                        (Some "Student is excluded from this module")
                        None None None
                    else
                      AttendanceController.mkVerifyResult true None None
                        (Some (Enrollment.id e)) (Some student_id)
                        (Some module_id)
                end
            end
        end, st).
Proof.
  unfold AttendanceController.verify_enrollment_to_record, enrollment_of. run.
  destruct (session_get (students st) student_id); [|reflexivity].
  destruct (session_get (modules st) module_id); [|reflexivity].
  destruct (select_first _ (enrollments st)) as [e|]; [|reflexivity].
  now destruct (Enrollment.is_excluded e).
Qed.

(** X3. A successful [enroll_student] leaves the student enrolled: the
    returned enrollment is the one the controllers then find for the pair,
    it is the student's, in the module and not excluded;
    [verify_enrollment_to_record] answers [is_enrolled = True] with its id;
    a second [enroll_student] for the pair is refused with 400; no
    attendance record is touched.  A new enrollment starts with both
    absence counters at 0, while enrolling an excluded student reinstates
    the old row with its counters and adds no row. *)
Theorem enroll_student_success (st st' : Store) (student_id module_id : Z)
    (en : Enrollment.t) :
  EnrollmentController.enroll_student student_id module_id st = (Ok en, st') ->
  enrollment_of student_id module_id st' = Some en
  /\ Enrollment.student_id en = student_id
  /\ Enrollment.module_id en = module_id
  /\ Enrollment.is_excluded en = false
  /\ AttendanceController.verify_enrollment_to_record student_id module_id st'
     = (Ok (AttendanceController.mkVerifyResult true None None
              (Some (Enrollment.id en)) (Some student_id) (Some module_id)),
        st')
  /\ EnrollmentController.enroll_student student_id module_id st'
     = (Raise (HTTPException HTTP_400_BAD_REQUEST
                 "Student is already enrolled in this module"), st')
  /\ attendance_records st' = attendance_records st
  /\ (enrollment_of student_id module_id st = None ->
      Enrollment.number_of_absences en = 0
      /\ Enrollment.number_of_absences_justified en = 0
      /\ enrollments st' = enrollments st ++ [en])
  /\ (forall ex, enrollment_of student_id module_id st = Some ex ->
        Enrollment.is_excluded ex = true
        /\ en = Enrollment.with_is_excluded false ex
        /\ List.length (enrollments st') = List.length (enrollments st)).
Proof.
  rewrite enroll_student_run.
  destruct (session_get (students st) student_id) as [stu|] eqn:Hstu;
    [|discriminate].
  destruct (session_get (modules st) module_id) as [m|] eqn:Hm; [|discriminate].
  destruct (enrollment_of student_id module_id st) as [ex|] eqn:Hex.
  - destruct (Enrollment.is_excluded ex) eqn:Hexcl; [|discriminate].
    intros Heq. inversion Heq; subst en st'; clear Heq.
    destruct (enrollment_of_fields _ _ _ _ Hex) as (Hin & Hsid & Hmid).
    assert (Hof : enrollment_of student_id module_id
                    (set_enrollments
                       (sql_update (Enrollment.id ex)
                          (Enrollment.with_is_excluded false)) st)
                  = Some (Enrollment.with_is_excluded false ex)).
    { unfold enrollment_of in *. cbn [enrollments set_enrollments].
      rewrite select_first_sql_update by reflexivity.
      rewrite Hex. cbn [option_map pk Enrollment_model].
      now rewrite Z.eqb_refl. }
    split; [exact Hof|].
    split; [exact Hsid|]. split; [exact Hmid|]. split; [reflexivity|].
    split.
    { rewrite verify_enrollment_to_record_run, Hof.
      cbn [students modules set_enrollments]. now rewrite Hstu, Hm. }
    split.
    { rewrite enroll_student_run, Hof.
      cbn [students modules set_enrollments]. now rewrite Hstu, Hm. }
    split; [reflexivity|]. split; [discriminate|].
    intros ex' Heq. inversion Heq; subst ex'.
    split; [exact Hexcl|]. split; [reflexivity|].
    cbn [enrollments set_enrollments]. unfold sql_update. apply length_map.
  - intros Heq. cbv zeta in Heq. inversion Heq; subst en st'; clear Heq.
    assert (Hof : enrollment_of student_id module_id
                    (set_enrollments
                       (fun tbl => tbl ++ [Enrollment.mk (next_id (enrollments st))
                                             student_id module_id 0 0 false]) st)
                  = Some (Enrollment.mk (next_id (enrollments st)) student_id
                            module_id 0 0 false)).
    { unfold enrollment_of in *. cbn [enrollments set_enrollments].
      rewrite select_first_app_none by exact Hex.
      unfold select_first. simpl. now rewrite !Z.eqb_refl. }
    split; [exact Hof|].
    split; [reflexivity|]. split; [reflexivity|]. split; [reflexivity|].
    split.
    { rewrite verify_enrollment_to_record_run, Hof.
      cbn [students modules set_enrollments]. now rewrite Hstu, Hm. }
    split.
    { rewrite enroll_student_run, Hof.
      cbn [students modules set_enrollments]. now rewrite Hstu, Hm. }
    split; [reflexivity|]. split; [|discriminate].
    intros _. repeat split.
Qed.

(** X3, on the concrete store: the new student 7 and the excluded student 6
    are enrolled in module 1. *)
Lemma enroll_student_success_witness :
  exists st7 st6,
    EnrollmentController.enroll_student 7 1 scenario_store
    = (Ok (Enrollment.mk 7 7 1 0 0 false), st7)
    /\ enrollment_of 7 1 st7 = Some (Enrollment.mk 7 7 1 0 0 false)
    /\ EnrollmentController.enroll_student 6 1 scenario_store
       = (Ok (Enrollment.mk 6 6 1 3 0 false), st6)
    /\ EnrollmentController.enroll_student 6 1 st6
       = (Raise (HTTPException HTTP_400_BAD_REQUEST
                   "Student is already enrolled in this module"), st6).
Proof.
  exists (snd (EnrollmentController.enroll_student 7 1 scenario_store)),
         (snd (EnrollmentController.enroll_student 6 1 scenario_store)).
  split; [reflexivity|]. split.
  - apply (enroll_student_success scenario_store _ 7 1
             (Enrollment.mk 7 7 1 0 0 false)). reflexivity.
  - split; [reflexivity|].
    apply (enroll_student_success scenario_store _ 6 1
             (Enrollment.mk 6 6 1 3 0 false)). reflexivity.
Defined.

Lemma NoDup_snoc {A : Type} (l : list A) (x : A) :
  NoDup l -> ~ In x l -> NoDup (l ++ [x]).
Proof.
  intros Hl Hx. apply NoDup_app; [exact Hl | repeat constructor; auto |].
  intros a Ha [<-|[]]. contradiction.
Qed.

Lemma enroll_student_keeps_unique (st st' : Store) (student_id module_id : Z)
    (r : Result Enrollment.t) :
  EnrollmentController.enroll_student student_id module_id st = (r, st') ->
  pk_unique (enrollments st) ->
  enrollment_pairs_unique (enrollments st) ->
  pk_unique (enrollments st') /\ enrollment_pairs_unique (enrollments st').
Proof.
  rewrite enroll_student_run. intros Hrun Hu Hp.
  destruct (session_get (students st) student_id);
    [|inversion Hrun; subst; auto].
  destruct (session_get (modules st) module_id);
    [|inversion Hrun; subst; auto].
  destruct (enrollment_of student_id module_id st) as [ex|] eqn:Hex.
  - destruct (Enrollment.is_excluded ex); inversion Hrun; subst; auto.
    cbn [enrollments set_enrollments]. split.
    + now apply pk_unique_sql_update.
    + unfold enrollment_pairs_unique, sql_update. rewrite map_map.
      erewrite map_ext; [exact Hp|].
      intros e. now destruct (pk e =? Enrollment.id ex).
  - cbv zeta in Hrun. inversion Hrun; subst. clear Hrun.
    cbn [enrollments set_enrollments]. split.
    + unfold pk_unique. rewrite map_app. apply NoDup_snoc; [exact Hu|].
      cbn [map pk Enrollment_model Enrollment.id].
      intros Hin. apply in_map_iff in Hin. destruct Hin as (e & Heq & He).
      pose proof (next_id_fresh (enrollments st) e He) as Hlt.
      change (pk e) with (Enrollment.id e) in Hlt. lia.
    + unfold enrollment_pairs_unique. rewrite map_app.
      apply NoDup_snoc; [exact Hp|].
      cbn [map Enrollment.student_id Enrollment.module_id].
      intros Hin. apply in_map_iff in Hin. destruct Hin as (e & Heq & He).
      inversion Heq as [[H1 H2]].
      unfold enrollment_of, select_first in Hex.
      pose proof (find_none _ _ Hex e He) as Hn. simpl in Hn.
      rewrite H1, H2, !Z.eqb_refl in Hn. discriminate.
Qed.

Lemma bulk_enroll_loop_keeps_unique (student_ids : list Z) (module_id : Z) :
  forall (success : list Z) (failed : list (Z * string)) (st st' : Store)
         (r : Result (list Z * list (Z * string))),
    EnrollmentController.bulk_enroll_loop student_ids module_id success failed st
    = (r, st') ->
    pk_unique (enrollments st) ->
    enrollment_pairs_unique (enrollments st) ->
    pk_unique (enrollments st') /\ enrollment_pairs_unique (enrollments st').
Proof.
  induction student_ids as [|x rest IH]; intros success failed st st' r Hrun Hu Hp.
  - simpl in Hrun. unfold ret in Hrun. inversion Hrun; subst; auto.
  - destruct (EnrollmentController.enroll_student x module_id st)
      as [[en|e] st1] eqn:Hone.
    + rewrite (bulk_enroll_loop_step_ok _ _ _ _ _ _ _ _ Hone) in Hrun.
      destruct (enroll_student_keeps_unique _ _ _ _ _ Hone Hu Hp) as [Hu1 Hp1].
      exact (IH _ _ _ _ _ Hrun Hu1 Hp1).
    + destruct (enroll_student_raises _ _ _ _ _ Hone) as (code & detail & ->).
      rewrite (bulk_enroll_loop_step_fail _ _ _ _ _ _ _ _ _ Hone) in Hrun.
      destruct (enroll_student_keeps_unique _ _ _ _ _ Hone Hu Hp) as [Hu1 Hp1].
      exact (IH _ _ _ _ _ Hrun Hu1 Hp1).
Qed.

(** X4. Enrolling keeps the enrollment table well formed: after
    [enroll_student], and after [bulk_enroll_students] whatever the list
    (repeated ids included), enrollment keys are still unique and there is
    still at most one enrollment per (student, module) pair. *)
Theorem enrolling_keeps_pairs_unique (st : Store) :
  pk_unique (enrollments st) ->
  enrollment_pairs_unique (enrollments st) ->
  (forall student_id module_id,
     let st' := snd (EnrollmentController.enroll_student student_id module_id st) in
     pk_unique (enrollments st') /\ enrollment_pairs_unique (enrollments st'))
  /\ (forall student_ids module_id,
        let st' := snd (EnrollmentController.bulk_enroll_students student_ids
                          module_id st) in
        pk_unique (enrollments st') /\ enrollment_pairs_unique (enrollments st')).
Proof.
  intros Hu Hp. split.
  - intros student_id module_id st'. subst st'.
    destruct (EnrollmentController.enroll_student student_id module_id st)
      as [r st1] eqn:Hrun.
    exact (enroll_student_keeps_unique _ _ _ _ _ Hrun Hu Hp).
  - intros student_ids module_id st'. subst st'.
    destruct (EnrollmentController.bulk_enroll_students student_ids module_id st)
      as [r st1] eqn:Hrun.
    cbn [snd].
    unfold EnrollmentController.bulk_enroll_students in Hrun.
    unfold bind at 1 2 in Hrun. unfold query at 1 in Hrun.
    destruct (session_get (modules st) module_id) as [m|].
    + unfold or_raise at 1, ret at 1 in Hrun. unfold bind at 1 in Hrun.
      destruct (EnrollmentController.bulk_enroll_loop student_ids module_id
                  [] [] st) as [r0 st0] eqn:Hloop.
      destruct (bulk_enroll_loop_keeps_unique _ _ _ _ _ _ _ Hloop Hu Hp)
        as [Hu1 Hp1].
      destruct r0; unfold ret in Hrun; inversion Hrun; subst; auto.
    + unfold or_raise, raise in Hrun. inversion Hrun; subst; auto.
Qed.

(** X4, on the concrete store with student 7 listed twice. *)
Lemma enrolling_keeps_pairs_unique_witness :
  let st' := snd (EnrollmentController.bulk_enroll_students [7; 7; 6] 1
                    scenario_store) in
  map Enrollment.id (enrollments st') = [1; 2; 3; 4; 5; 6; 7]
  /\ pk_unique (enrollments st')
  /\ enrollment_pairs_unique (enrollments st').
Proof.
  assert (Hu : pk_unique (enrollments scenario_store))
    by (apply nodupb_sound; reflexivity).
  assert (Hp : enrollment_pairs_unique (enrollments scenario_store)).
  { unfold enrollment_pairs_unique. simpl.
    repeat (constructor;
            [simpl; intros Hin;
             repeat (destruct Hin as [Hin|Hin]; [discriminate|]); exact Hin|]).
    constructor. }
  split; [reflexivity|].
  exact (proj2 (enrolling_keeps_pairs_unique scenario_store Hu Hp) [7; 7; 6] 1).
Defined.

(** ** Unenrolling *)

Lemma NoDup_map_inj {A B : Type} (f : A -> B) (l : list A) (x y : A) :
  NoDup (map f l) -> In x l -> In y l -> f x = f y -> x = y.
Proof.
  induction l as [|a l IH]; simpl; intros Hnd Hx Hy Heq; [contradiction|].
  inversion Hnd as [|? ? Hnotin Hnd']; subst.
  destruct Hx as [->|Hx], Hy as [->|Hy]; auto.
  - exfalso. apply Hnotin. rewrite Heq. now apply in_map.
  - exfalso. apply Hnotin. rewrite <- Heq. now apply in_map.
Qed.

Lemma find_none_all {A : Type} (p : A -> bool) (l : list A) :
  (forall x, In x l -> p x = false) -> find p l = None.
Proof.
  induction l as [|x l IH]; intros Hp; simpl; [reflexivity|].
  rewrite (Hp x (or_introl eq_refl)). apply IH.
  intros y Hy. apply Hp. now right.
Qed.


Section DeleteFacts.
Context {T : Type} `{SQLModel T}.




End DeleteFacts.





(** ** Creating attendance records *)




(** ** Statistics *)

Lemma count_status_partition (records : list AttendanceRecord.t) :
  count_status PRESENT records + count_status ABSENT records
  + count_status EXCLUDED records = Z.of_nat (List.length records).
Proof.
  unfold count_status.
  induction records as [|r records IH]; [reflexivity|].
  cbn [filter List.length].
  destruct (AttendanceRecord.status r); cbn [AttendanceStatus_eqb List.length];
    lia.
Qed.

Lemma count_status_nonneg (s : AttendanceStatus)
    (records : list AttendanceRecord.t) :
  0 <= count_status s records <= Z.of_nat (List.length records).
Proof.
  unfold count_status. split; [lia|].
  apply Nat2Z.inj_le. apply filter_length_le.
Qed.

Lemma percentage_none_present (total : Z) :
  0 < total -> percentage 0 total = S754_zero false.
Proof. intros Ht. destruct total; try lia. reflexivity. Qed.

Lemma get_attendance_statistics_run (st : Store)
    (module_id session_id : option Z) :
  let records :=
    select_all (AttendanceController.statistics_filter module_id session_id)
      (attendance_records st) in
  let total := Z.of_nat (List.length records) in
  AttendanceController.get_attendance_statistics module_id session_id st
  = (Ok (if total =? 0
         then AttendanceController.mkStatistics 0 0 0 0 (PyInt 0)
         else AttendanceController.mkStatistics total
                (count_status PRESENT records) (count_status ABSENT records)
                (count_status EXCLUDED records)
                (PyFloat (percentage (count_status PRESENT records) total))),
     st).
Proof.
  intros records total.
  unfold AttendanceController.get_attendance_statistics. run.
  fold records. fold total. now destruct (total =? 0).
Qed.

(** X7. [get_attendance_statistics] only reads the store.  Its counts are
    those of the records that pass its filters: [total_records] is their
    number, [present], [absent] and [excluded] the numbers of them in each
    status, and the three add up to [total_records].  [attendance_rate] is
    the integer [0] when no record matches, the float
    [round(present / total * 100, 2)] otherwise, and then the float 0.0
    when none of the records is PRESENT.  A filter id of [0] is ignored
    like a missing one, since the code tests the argument for truth. *)
Theorem get_attendance_statistics_counts (st : Store)
    (module_id session_id : option Z) :
  let records :=
    select_all (AttendanceController.statistics_filter module_id session_id)
      (attendance_records st) in
  (exists stats,
     AttendanceController.get_attendance_statistics module_id session_id st
     = (Ok stats, st)
     /\ AttendanceController.total_records stats
        = Z.of_nat (List.length records)
     /\ AttendanceController.present stats = count_status PRESENT records
     /\ AttendanceController.absent stats = count_status ABSENT records
     /\ AttendanceController.excluded stats = count_status EXCLUDED records
     /\ AttendanceController.present stats + AttendanceController.absent stats
        + AttendanceController.excluded stats
        = AttendanceController.total_records stats
     /\ (AttendanceController.total_records stats = 0 ->
         AttendanceController.attendance_rate stats = PyInt 0)
     /\ (AttendanceController.total_records stats <> 0 ->
         AttendanceController.attendance_rate stats
         = PyFloat (percentage (AttendanceController.present stats)
                      (AttendanceController.total_records stats)))
     /\ (AttendanceController.total_records stats <> 0 ->
         AttendanceController.present stats = 0 ->
         AttendanceController.attendance_rate stats
         = PyFloat (S754_zero false)))
  /\ AttendanceController.get_attendance_statistics (Some 0) session_id st
     = AttendanceController.get_attendance_statistics None session_id st
  /\ AttendanceController.get_attendance_statistics module_id (Some 0) st
     = AttendanceController.get_attendance_statistics module_id None st.
Proof.
  intros records.
  split; [|split; reflexivity].
  pose proof (get_attendance_statistics_run st module_id session_id) as Hrun.
  cbv zeta in Hrun. fold records in Hrun.
  pose proof (count_status_partition records) as Hpart.
  pose proof (count_status_nonneg PRESENT records) as Hp.
  pose proof (count_status_nonneg ABSENT records) as Ha.
  pose proof (count_status_nonneg EXCLUDED records) as He.
  eexists. split; [exact Hrun|].
  destruct (Z.of_nat (List.length records) =? 0) eqn:Hz.
  - apply Z.eqb_eq in Hz.
    cbn [AttendanceController.total_records AttendanceController.present
         AttendanceController.absent AttendanceController.excluded
         AttendanceController.attendance_rate].
    repeat split; try lia; try reflexivity; intros; lia.
  - apply Z.eqb_neq in Hz.
    cbn [AttendanceController.total_records AttendanceController.present
         AttendanceController.absent AttendanceController.excluded
         AttendanceController.attendance_rate].
    repeat split; try lia; try reflexivity.
    intros _ H0. rewrite H0. f_equal. apply percentage_none_present. lia.
Qed.

(** X7, on the concrete store: the records of session 1 and the records of
    a session that does not exist. *)
Lemma get_attendance_statistics_counts_witness :
  fst (AttendanceController.get_attendance_statistics None (Some 1)
         scenario_store)
  = Ok (AttendanceController.mkStatistics 5 2 3 0 (PyFloat (float_of_int 40)))
  /\ fst (AttendanceController.get_attendance_statistics None (Some 9)
            scenario_store)
     = Ok (AttendanceController.mkStatistics 0 0 0 0 (PyInt 0))
  /\ (exists stats,
        AttendanceController.get_attendance_statistics None (Some 2)
          scenario_store = (Ok stats, scenario_store)
        /\ AttendanceController.attendance_rate stats
           = PyFloat (S754_zero false)).
Proof.
  split; [vm_compute; reflexivity|]. split; [vm_compute; reflexivity|].
  destruct (get_attendance_statistics_counts scenario_store None (Some 2))
    as ((stats & Hrun & Htot & Hpres & _ & _ & _ & _ & _ & Hzero) & _).
  exists stats. split; [exact Hrun|].
  apply Hzero.
  - rewrite Htot. vm_compute. discriminate.
  - rewrite Hpres. reflexivity.
Defined.

(** X8. The summary of a successful [SessionController.close_session]
    counts the session's records as they were before the call:
    [total_students] is their number, [present] and [absent] the numbers of
    them in PRESENT and in ABSENT, which together fall short of
    [total_students] by the number of EXCLUDED records.  For a session id
    other than [0] the summary agrees with what
    [get_attendance_statistics], filtered by that session, reports on the
    resulting store: same total, same counts and the same
    [attendance_rate]. *)
Theorem session_close_session_statistics (st st' : Store)
    (session_id teacher_id : Z) (resp : SessionController.CloseSessionResult) :
  SessionController.close_session session_id teacher_id st = (Ok resp, st') ->
  let records :=
    select_all (fun r => AttendanceRecord.session_id r =? session_id)
      (attendance_records st) in
  let summary := SessionController.cs_statistics resp in
  dict_lookup "total_students" summary
  = Some (PyInt (Z.of_nat (List.length records)))
  /\ dict_lookup "present" summary = Some (PyInt (count_status PRESENT records))
  /\ dict_lookup "absent" summary = Some (PyInt (count_status ABSENT records))
  /\ count_status PRESENT records + count_status ABSENT records
     = Z.of_nat (List.length records) - count_status EXCLUDED records
  /\ (session_id <> 0 ->
      exists stats,
        AttendanceController.get_attendance_statistics None (Some session_id) st'
        = (Ok stats, st')
        /\ dict_lookup "total_students" summary
           = Some (PyInt (AttendanceController.total_records stats))
        /\ dict_lookup "present" summary
           = Some (PyInt (AttendanceController.present stats))
        /\ dict_lookup "absent" summary
           = Some (PyInt (AttendanceController.absent stats))
        /\ AttendanceController.excluded stats
           = count_status EXCLUDED records
        /\ dict_lookup "attendance_rate" summary
           = Some (AttendanceController.attendance_rate stats)).
Proof.
  intros Hrun records summary.
  pose proof (session_close_session_cases st session_id teacher_id) as Hc.
  cbv zeta in Hc. fold records in Hc.
  destruct (session_get (sessions st) session_id) as [s|]; [|congruence].
  destruct (ClassSession.is_active s); [|congruence].
  destruct (session_get (teacher_modules st) _) as [tm|]; [|congruence].
  destruct (TeacherModules.teacher_id tm =? teacher_id); [|congruence].
  destruct Hc as [(f & Hc)|Hc]; [|congruence].
  rewrite Hc in Hrun. inversion Hrun; subst resp st'; clear Hrun Hc.
  subst summary. cbn [SessionController.cs_statistics].
  pose proof (count_status_partition records) as Hpart.
  split; [reflexivity|]. split; [reflexivity|]. split; [reflexivity|].
  split; [lia|].
  intros Hne.
  pose proof (get_attendance_statistics_run
                (set_enrollments f
                   (set_sessions
                      (sql_update session_id (ClassSession.with_is_active false))
                      st)) None (Some session_id)) as Hstat.
  cbv zeta in Hstat.
  cbn [attendance_records set_enrollments set_sessions] in Hstat.
  assert (Hfilter : select_all
                      (AttendanceController.statistics_filter None
                         (Some session_id)) (attendance_records st)
                    = records).
  { subst records. unfold select_all. apply filter_ext. intros r.
    unfold AttendanceController.statistics_filter,
      AttendanceController.truthy_int.
    apply Z.eqb_neq in Hne. rewrite Hne. reflexivity. }
  rewrite Hfilter in Hstat.
  eexists. split; [exact Hstat|].
  destruct (Z.of_nat (List.length records) =? 0) eqn:Hz.
  - apply Z.eqb_eq in Hz.
    pose proof (count_status_nonneg PRESENT records) as Hp.
    pose proof (count_status_nonneg ABSENT records) as Ha.
    pose proof (count_status_nonneg EXCLUDED records) as He.
    assert (H1 : count_status PRESENT records = 0) by lia.
    assert (H2 : count_status ABSENT records = 0) by lia.
    assert (H3 : count_status EXCLUDED records = 0) by lia.
    rewrite Hz, H1, H2, H3.
    cbn [AttendanceController.total_records AttendanceController.present
         AttendanceController.absent AttendanceController.excluded
         AttendanceController.attendance_rate].
    repeat split.
  - apply Z.eqb_neq in Hz.
    cbn [AttendanceController.total_records AttendanceController.present
         AttendanceController.absent AttendanceController.excluded
         AttendanceController.attendance_rate].
    split; [reflexivity|]. split; [reflexivity|]. split; [reflexivity|].
    split; [reflexivity|].
    assert (Hpos : (Z.of_nat (List.length records) >? 0) = true)
      by (apply Z.gtb_lt; lia).
    unfold dict_lookup. cbn [find fst snd String.eqb Ascii.eqb Bool.eqb option_map].
    now rewrite Hpos.
Qed.

(** X8, at session 1 of the concrete store. *)
Lemma session_close_session_statistics_witness :
  exists resp st' stats,
    SessionController.close_session 1 1 scenario_store = (Ok resp, st')
    /\ SessionController.cs_statistics resp
       = [ ("total_students", PyInt 5); ("present", PyInt 2);
           ("absent", PyInt 3);
           ("attendance_rate", PyFloat (float_of_int 40)) ]
    /\ AttendanceController.get_attendance_statistics None (Some 1) st'
       = (Ok stats, st')
    /\ dict_lookup "attendance_rate" (SessionController.cs_statistics resp)
       = Some (AttendanceController.attendance_rate stats)
    /\ dict_lookup "present" (SessionController.cs_statistics resp)
       = Some (PyInt (AttendanceController.present stats)).
Proof.
  destruct (SessionController.close_session 1 1 scenario_store)
    as [[resp|e] st'] eqn:Hrun; [|vm_compute in Hrun; discriminate].
  destruct (session_close_session_statistics scenario_store st' 1 1 resp Hrun)
    as (_ & _ & _ & _ & Hagree).
  destruct (Hagree ltac:(discriminate))
    as (stats & Hstat & _ & Hpres & _ & _ & Hrate).
  exists resp, st', stats. split; [reflexivity|].
  split; [vm_compute in Hrun; inversion Hrun; reflexivity|].
  split; [exact Hstat|]. split; [exact Hrate | exact Hpres].
Defined.

(** ** Deciding and restoring justifications *)

Lemma verify_teacher_owns_session_owns (st : Store) (s : ClassSession.t)
    (teacher_id : Z) :
  TeacherController._verify_teacher_owns_session s teacher_id st
  = (Ok (owns_session st s teacher_id), st).
Proof.
  unfold TeacherController._verify_teacher_owns_session, owns_session. run.
  destruct (session_get (teacher_modules st) _) as [tm|]; [|reflexivity].
  now destruct (TeacherModules.teacher_id tm =? teacher_id).
Qed.

(** X9. [validate_justification] refuses, without writing anything: a
    decision other than "approve"/"reject" (400, before any lookup), an
    unknown justification (404), a justification that is not PENDING (400
    naming its status), and a teacher who does not own the session of the
    justified record (403). *)
Theorem validate_justification_refusals (st : Store)
    (justification_id teacher_id : Z) (decision : string)
    (teacher_notes : option string) :
  let call :=
    TeacherController.validate_justification justification_id teacher_id
      decision teacher_notes st in
  (str_in (lower decision) ["approve"; "reject"] = false ->
   call = (Raise (HTTPException HTTP_400_BAD_REQUEST
                    "Decision must be 'approve' or 'reject'"), st))
  /\ (str_in (lower decision) ["approve"; "reject"] = true ->
      (session_get (justifications st) justification_id = None ->
       call = (Raise (HTTPException HTTP_404_NOT_FOUND
                        ("Justification with ID "
                         +++ str_of_int justification_id +++ " not found")), st))
      /\ (forall j,
            session_get (justifications st) justification_id = Some j ->
            (Justification.status j <> PENDING ->
             call = (Raise (HTTPException HTTP_400_BAD_REQUEST
                              ("Justification has already been "
                               +++ JustificationStatus_value
                                     (Justification.status j))), st))
            /\ (forall a s,
                  Justification.status j = PENDING ->
                  session_get (attendance_records st)
                    (Justification.attendance_record_id j) = Some a ->
                  session_get (sessions st) (AttendanceRecord.session_id a)
                  = Some s ->
                  owns_session st s teacher_id = false ->
                  call = (Raise (HTTPException HTTP_403_FORBIDDEN
                                   "You do not have permission to validate this justification"),
                          st)))).
Proof.
  intros call. subst call.
  unfold TeacherController.validate_justification. cbv zeta.
  split.
  - intros Hdec. now rewrite Hdec.
  - intros Hdec. rewrite Hdec. cbn [negb]. split.
    + intros Hj. unfold bind at 1 2. unfold query at 1. now rewrite Hj.
    + intros j Hj. split.
      * intros Hst. unfold bind at 1 2. unfold query at 1. rewrite Hj.
        unfold or_raise at 1, ret at 1.
        destruct (Justification.status j); try congruence; reflexivity.
      * intros a s Hst Ha Hs Hown.
        unfold bind at 1 2. unfold query at 1. rewrite Hj.
        unfold or_raise at 1, ret at 1. rewrite Hst.
        cbn [JustificationStatus_eqb negb].
        unfold bind at 1 2. unfold query at 1. rewrite Ha.
        unfold or_raise at 1, ret at 1.
        unfold bind at 1 2. unfold query at 1. rewrite Hs.
        unfold or_raise at 1, ret at 1.
        unfold bind at 1. rewrite verify_teacher_owns_session_owns, Hown.
        reflexivity.
Qed.

(** X9, on the concrete store after student 1 submitted a justification:
    teacher 2 owns nothing and is refused; "maybe" is no decision. *)
Lemma validate_justification_refusals_witness :
  let st := snd (StudentController.justify_absence 1 1 "medical certificate"
                   None scenario_store) in
  TeacherController.validate_justification 1 2 "approve" None st
  = (Raise (HTTPException HTTP_403_FORBIDDEN
              "You do not have permission to validate this justification"), st)
  /\ TeacherController.validate_justification 1 1 "maybe" None st
     = (Raise (HTTPException HTTP_400_BAD_REQUEST
                 "Decision must be 'approve' or 'reject'"), st).
Proof.
  intros st. split.
  - destruct (validate_justification_refusals st 1 2 "approve" None)
      as (_ & Hvalid).
    destruct (Hvalid eq_refl) as (_ & Hj).
    destruct (Hj (Justification.mk 1 1 (Some "medical certificate") None PENDING)
                eq_refl) as (_ & Hown).
    exact (Hown (AttendanceRecord.mk 1 ABSENT 1 1 1 (Some 1))
             (ClassSession.mk 1 "ABC123" (Some "A1") 90 true 1)
             eq_refl eq_refl eq_refl eq_refl).
  - exact (proj1 (validate_justification_refusals st 1 1 "maybe" None) eq_refl).
Defined.

(** Run [validate_justification] through its four checks when they pass. *)
Ltac pass_validate_checks Hdec Hj Hpending Ha Hs Hown :=
  unfold TeacherController.validate_justification; cbv zeta;
  rewrite Hdec;
  match goal with
  | |- context [str_in ?d ?l] => change (str_in d l) with true
  end;
  cbn [negb];
  unfold bind at 1 2; unfold query at 1; rewrite Hj;
  unfold or_raise at 1, ret at 1;
  rewrite Hpending; cbn [JustificationStatus_eqb negb];
  unfold bind at 1 2; unfold query at 1; rewrite Ha;
  unfold or_raise at 1, ret at 1;
  unfold bind at 1 2; unfold query at 1; rewrite Hs;
  unfold or_raise at 1, ret at 1;
  unfold bind at 1;
  rewrite verify_teacher_owns_session_owns, Hown;
  cbn [negb].

Section DecideShape.
Variables (st : Store) (justification_id teacher_id : Z).
Variables (decision : string) (teacher_notes : option string).
Variables (j : Justification.t) (a : AttendanceRecord.t) (s : ClassSession.t).
Hypothesis Hj : session_get (justifications st) justification_id = Some j.
Hypothesis Hpending : Justification.status j = PENDING.
Hypothesis Ha :
  session_get (attendance_records st) (Justification.attendance_record_id j)
  = Some a.
Hypothesis Hs :
  session_get (sessions st) (AttendanceRecord.session_id a) = Some s.
Hypothesis Hown : owns_session st s teacher_id = true.
Hypothesis Hfk : students_have_users st.

Lemma validate_approve_shape :
  lower decision = "approve" ->
  exists resp added,
    TeacherController.validate_justification justification_id teacher_id
      decision teacher_notes st
    = (Ok resp,
       set_attendance_records
         (sql_update (AttendanceRecord.id a)
            (AttendanceRecord.with_status PRESENT))
         (set_notifications (fun tbl => tbl ++ added)
            (set_justifications
               (sql_update justification_id
                  (Justification.with_status APPROVED)) st))).
Proof.
  intros Hdec. pass_validate_checks Hdec Hj Hpending Ha Hs Hown.
  change ("approve" =? "approve")%string with true. cbv iota.
  destruct (approve_run st justification_id j Hj Hpending Hfk)
    as (added & Happ).
  unfold bind at 1 2. rewrite Happ.
  unfold bind at 1. unfold persist at 1. unfold ret.
  eexists. exists added. reflexivity.
Qed.

Lemma validate_reject_shape :
  lower decision = "reject" ->
  exists resp added,
    TeacherController.validate_justification justification_id teacher_id
      decision teacher_notes st
    = (Ok resp,
       set_notifications (fun tbl => tbl ++ added)
         (set_justifications
            (sql_update justification_id
               (Justification.with_status REJECTED)) st)).
Proof.
  intros Hdec. pass_validate_checks Hdec Hj Hpending Ha Hs Hown.
  change ("reject" =? "approve")%string with false. cbv iota.
  destruct (reject_run st justification_id j Hj Hpending Hfk)
    as (added & Hrej).
  unfold bind at 1 2. rewrite Hrej. unfold ret.
  eexists. exists added. reflexivity.
Qed.

End DecideShape.

Lemma restore_justification_run (st : Store) (justification_id teacher_id : Z)
    (t : Teacher.t) (j : Justification.t) (a : AttendanceRecord.t)
    (s : ClassSession.t) :
  session_get (teachers st) teacher_id = Some t ->
  session_get (justifications st) justification_id = Some j ->
  Justification.status j = REJECTED ->
  session_get (attendance_records st) (Justification.attendance_record_id j)
  = Some a ->
  session_get (sessions st) (AttendanceRecord.session_id a) = Some s ->
  owns_session st s teacher_id = true ->
  TeacherController.restore_justification justification_id teacher_id st
  = (Ok (TeacherController.mkRestoreResult "Justification restored to pending"
           justification_id "pending" (AttendanceRecord.id a)),
     let st1 :=
       set_justifications
         (sql_update justification_id (Justification.with_status PENDING)) st in
     if AttendanceStatus_eqb (AttendanceRecord.status a) ABSENT then st1
     else set_attendance_records
            (sql_update (AttendanceRecord.id a)
               (AttendanceRecord.with_status ABSENT)) st1).
Proof.
  intros Ht Hj Hst Ha Hs Hown.
  unfold TeacherController.restore_justification.
  unfold bind at 1 2. unfold query at 1. rewrite Ht.
  unfold or_raise at 1, ret at 1.
  unfold bind at 1 2. unfold query at 1. rewrite Hj.
  unfold or_raise at 1, ret at 1.
  rewrite Hst. cbn [JustificationStatus_eqb negb].
  unfold bind at 1 2. unfold query at 1. rewrite Ha.
  unfold or_raise at 1, ret at 1.
  unfold bind at 1 2. unfold query at 1. rewrite Hs.
  unfold or_raise at 1, ret at 1.
  unfold bind at 1. rewrite verify_teacher_owns_session_owns, Hown.
  cbn [negb].
  pose proof (session_get_pk _ _ _ Hj) as Hpk. simpl in Hpk. rewrite Hpk.
  unfold bind at 1. unfold persist at 1.
  destruct (AttendanceStatus_eqb (AttendanceRecord.status a) ABSENT);
    cbn [negb]; reflexivity.
Qed.

(** X10. [restore_justification] by the teacher who owns the session puts
    a REJECTED justification back to PENDING and leaves the justified
    attendance record in ABSENT: a record that had drifted to another
    status is set to ABSENT, one that is ABSENT is not written at all.  A
    justification that is not REJECTED (PENDING or APPROVED) is refused
    with 400 and nothing changes. *)
Theorem restore_justification_effect (st : Store)
    (justification_id teacher_id : Z) (t : Teacher.t) (j : Justification.t) :
  session_get (teachers st) teacher_id = Some t ->
  session_get (justifications st) justification_id = Some j ->
  (Justification.status j <> REJECTED ->
   TeacherController.restore_justification justification_id teacher_id st
   = (Raise (HTTPException HTTP_400_BAD_REQUEST
               "Only rejected justifications can be restored"), st))
  /\ (forall a s,
        Justification.status j = REJECTED ->
        session_get (attendance_records st)
          (Justification.attendance_record_id j) = Some a ->
        session_get (sessions st) (AttendanceRecord.session_id a) = Some s ->
        owns_session st s teacher_id = true ->
        exists resp st',
          TeacherController.restore_justification justification_id teacher_id st
          = (Ok resp, st')
          /\ session_get (justifications st') justification_id
             = Some (Justification.with_status PENDING j)
          /\ session_get (attendance_records st') (AttendanceRecord.id a)
             = Some (AttendanceRecord.with_status ABSENT a)
          /\ (AttendanceRecord.status a = ABSENT ->
              attendance_records st' = attendance_records st)
          /\ enrollments st' = enrollments st).
Proof.
  intros Ht Hj. split.
  - intros Hst. unfold TeacherController.restore_justification.
    unfold bind at 1 2. unfold query at 1. rewrite Ht.
    unfold or_raise at 1, ret at 1.
    unfold bind at 1 2. unfold query at 1. rewrite Hj.
    unfold or_raise at 1, ret at 1.
    destruct (Justification.status j); try congruence; reflexivity.
  - intros a s Hst Ha Hs Hown.
    eexists. eexists. split.
    { apply (restore_justification_run st justification_id teacher_id t j a s);
        assumption. }
    pose proof (session_get_pk _ _ _ Ha) as Hpk. simpl in Hpk.
    cbv zeta.
    destruct (AttendanceStatus_eqb (AttendanceRecord.status a) ABSENT) eqn:Habs;
      cbn [justifications attendance_records enrollments
           set_attendance_records set_justifications].
    + apply AttendanceStatus_eqb_eq in Habs.
      split; [rewrite session_get_sql_update_same by reflexivity;
              now rewrite Hj|].
      split.
      { rewrite Hpk, Ha. f_equal. destruct a; simpl in *. now subst. }
      split; reflexivity.
    + split; [rewrite session_get_sql_update_same by reflexivity;
              now rewrite Hj|].
      split.
      { rewrite session_get_sql_update_same by reflexivity.
        rewrite Hpk, Ha. reflexivity. }
      split; [|reflexivity].
      intros Heq. rewrite Heq in Habs. discriminate.
Qed.

Lemma validate_justification_not_pending (st : Store)
    (justification_id teacher_id : Z) (decision : string)
    (teacher_notes : option string) (j : Justification.t) :
  str_in (lower decision) ["approve"; "reject"] = true ->
  session_get (justifications st) justification_id = Some j ->
  Justification.status j <> PENDING ->
  TeacherController.validate_justification justification_id teacher_id
    decision teacher_notes st
  = (Raise (HTTPException HTTP_400_BAD_REQUEST
              ("Justification has already been "
               +++ JustificationStatus_value (Justification.status j))), st).
Proof.
  intros Hdec Hj Hst.
  unfold TeacherController.validate_justification. cbv zeta.
  rewrite Hdec. cbn [negb].
  unfold bind at 1 2. unfold query at 1. rewrite Hj.
  unfold or_raise at 1, ret at 1.
  destruct (Justification.status j); try congruence; reflexivity.
Qed.

Lemma restore_justification_not_rejected (st : Store)
    (justification_id teacher_id : Z) (t : Teacher.t) (j : Justification.t) :
  session_get (teachers st) teacher_id = Some t ->
  session_get (justifications st) justification_id = Some j ->
  Justification.status j <> REJECTED ->
  TeacherController.restore_justification justification_id teacher_id st
  = (Raise (HTTPException HTTP_400_BAD_REQUEST
              "Only rejected justifications can be restored"), st).
Proof.
  intros Ht Hj Hst. unfold TeacherController.restore_justification.
  unfold bind at 1 2. unfold query at 1. rewrite Ht.
  unfold or_raise at 1, ret at 1.
  unfold bind at 1 2. unfold query at 1. rewrite Hj.
  unfold or_raise at 1, ret at 1.
  destruct (Justification.status j); try congruence; reflexivity.
Qed.

(** X11. A decision is final for [validate_justification]: once a PENDING
    justification has been approved or rejected, every further
    [validate_justification] on it, by whichever teacher and with either
    decision, fails with 400 "Justification has already been
    approved/rejected" and changes nothing; an approved justification
    cannot be restored either. *)
Theorem decided_justification_is_final (st : Store)
    (justification_id teacher_id : Z) (teacher_notes : option string)
    (j : Justification.t) (a : AttendanceRecord.t) (s : ClassSession.t) :
  session_get (justifications st) justification_id = Some j ->
  Justification.status j = PENDING ->
  session_get (attendance_records st) (Justification.attendance_record_id j)
  = Some a ->
  session_get (sessions st) (AttendanceRecord.session_id a) = Some s ->
  owns_session st s teacher_id = true ->
  students_have_users st ->
  (forall decision, lower decision = "approve" ->
   exists resp st',
     TeacherController.validate_justification justification_id teacher_id
       decision teacher_notes st = (Ok resp, st')
     /\ (forall teacher_id' decision' notes',
           str_in (lower decision') ["approve"; "reject"] = true ->
           TeacherController.validate_justification justification_id
             teacher_id' decision' notes' st'
           = (Raise (HTTPException HTTP_400_BAD_REQUEST
                       "Justification has already been approved"), st'))
     /\ (forall teacher_id', session_get (teachers st) teacher_id' <> None ->
           TeacherController.restore_justification justification_id
             teacher_id' st'
           = (Raise (HTTPException HTTP_400_BAD_REQUEST
                       "Only rejected justifications can be restored"), st')))
  /\ (forall decision, lower decision = "reject" ->
      exists resp st',
        TeacherController.validate_justification justification_id teacher_id
          decision teacher_notes st = (Ok resp, st')
        /\ (forall teacher_id' decision' notes',
              str_in (lower decision') ["approve"; "reject"] = true ->
              TeacherController.validate_justification justification_id
                teacher_id' decision' notes' st'
              = (Raise (HTTPException HTTP_400_BAD_REQUEST
                          "Justification has already been rejected"), st'))).
Proof.
  intros Hj Hpending Ha Hs Hown Hfk. split.
  - intros decision Hdec.
    destruct (validate_approve_shape st justification_id teacher_id decision
                teacher_notes j a s Hj Hpending Ha Hs Hown Hfk Hdec)
      as (resp & added & Hrun).
    eexists. eexists. split; [exact Hrun|].
    assert (Hj' : session_get
                    (justifications
                       (set_attendance_records
                          (sql_update (AttendanceRecord.id a)
                             (AttendanceRecord.with_status PRESENT))
                          (set_notifications (fun tbl => tbl ++ added)
                             (set_justifications
                                (sql_update justification_id
                                   (Justification.with_status APPROVED)) st))))
                    justification_id
                  = Some (Justification.with_status APPROVED j)).
    { cbn [justifications set_attendance_records set_notifications
           set_justifications].
      rewrite session_get_sql_update_same by reflexivity. now rewrite Hj. }
    split.
    + intros teacher_id' decision' notes' Hdec'.
      rewrite (validate_justification_not_pending _ _ _ _ _ _ Hdec' Hj');
        [reflexivity | discriminate].
    + intros teacher_id' Ht.
      destruct (session_get (teachers st) teacher_id') as [t|] eqn:Hteach;
        [|contradiction].
      eapply restore_justification_not_rejected;
        [exact Hteach | exact Hj' | discriminate].
  - intros decision Hdec.
    destruct (validate_reject_shape st justification_id teacher_id decision
                teacher_notes j a s Hj Hpending Ha Hs Hown Hfk Hdec)
      as (resp & added & Hrun).
    eexists. eexists. split; [exact Hrun|].
    intros teacher_id' decision' notes' Hdec'.
    rewrite (validate_justification_not_pending _ _ _ _ _
               (Justification.with_status REJECTED j) Hdec');
      [reflexivity | | discriminate].
    cbn [justifications set_notifications set_justifications].
    rewrite session_get_sql_update_same by reflexivity. now rewrite Hj.
Qed.

(** X12. Scenario D: a PENDING justification that its teacher rejects,
    then restores, then approves ends APPROVED with the justified
    attendance record PRESENT; each of the three calls succeeds. *)
Theorem reject_restore_approve (st : Store) (justification_id teacher_id : Z)
    (notes1 notes3 : option string) (t : Teacher.t) (j : Justification.t)
    (a : AttendanceRecord.t) (s : ClassSession.t) :
  session_get (teachers st) teacher_id = Some t ->
  session_get (justifications st) justification_id = Some j ->
  Justification.status j = PENDING ->
  session_get (attendance_records st) (Justification.attendance_record_id j)
  = Some a ->
  session_get (sessions st) (AttendanceRecord.session_id a) = Some s ->
  owns_session st s teacher_id = true ->
  students_have_users st ->
  exists r1 st1 r2 st2 r3 st3,
    TeacherController.validate_justification justification_id teacher_id
      "reject" notes1 st = (Ok r1, st1)
    /\ TeacherController.restore_justification justification_id teacher_id st1
       = (Ok r2, st2)
    /\ TeacherController.validate_justification justification_id teacher_id
         "approve" notes3 st2 = (Ok r3, st3)
    /\ option_map Justification.status
         (session_get (justifications st1) justification_id) = Some REJECTED
    /\ option_map Justification.status
         (session_get (justifications st2) justification_id) = Some PENDING
    /\ option_map Justification.status
         (session_get (justifications st3) justification_id) = Some APPROVED
    /\ option_map AttendanceRecord.status
         (session_get (attendance_records st3) (AttendanceRecord.id a))
       = Some PRESENT.
Proof.
  intros Ht Hj Hpending Ha Hs Hown Hfk.
  pose proof (session_get_pk _ _ _ Ha) as Hpk. simpl in Hpk.
  destruct (validate_reject_shape st justification_id teacher_id "reject"
              notes1 j a s Hj Hpending Ha Hs Hown Hfk eq_refl)
    as (r1 & added1 & Hrun1).
  set (st1 := set_notifications (fun tbl => tbl ++ added1)
                (set_justifications
                   (sql_update justification_id
                      (Justification.with_status REJECTED)) st)) in *.
  assert (Hj1 : session_get (justifications st1) justification_id
                = Some (Justification.with_status REJECTED j)).
  { subst st1. cbn [justifications set_notifications set_justifications].
    rewrite session_get_sql_update_same by reflexivity. now rewrite Hj. }
  pose proof (restore_justification_run st1 justification_id teacher_id t
                (Justification.with_status REJECTED j) a s
                Ht Hj1 eq_refl Ha Hs Hown) as Hrun2.
  cbv zeta in Hrun2.
  set (st1j := set_justifications
                 (sql_update justification_id
                    (Justification.with_status PENDING)) st1) in *.
  set (st2 := if AttendanceStatus_eqb (AttendanceRecord.status a) ABSENT
              then st1j
              else set_attendance_records
                     (sql_update (AttendanceRecord.id a)
                        (AttendanceRecord.with_status ABSENT)) st1j) in *.
  set (j2 := Justification.with_status PENDING
               (Justification.with_status REJECTED j)).
  assert (Hj2 : session_get (justifications st2) justification_id = Some j2).
  { subst st2 st1j.
    destruct (AttendanceStatus_eqb (AttendanceRecord.status a) ABSENT);
      cbn [justifications set_attendance_records set_justifications];
      rewrite session_get_sql_update_same by reflexivity;
      now rewrite Hj1. }
  assert (Ha2 : session_get (attendance_records st2)
                  (Justification.attendance_record_id j2)
                = Some (AttendanceRecord.with_status ABSENT a)).
  { subst st2 st1j st1 j2.
    cbn [Justification.attendance_record_id Justification.with_status].
    destruct (AttendanceStatus_eqb (AttendanceRecord.status a) ABSENT) eqn:Habs;
      cbn [attendance_records set_attendance_records set_justifications
           set_notifications].
    - apply AttendanceStatus_eqb_eq in Habs. rewrite Ha. f_equal.
      destruct a; simpl in *. now subst.
    - rewrite Hpk.
      rewrite session_get_sql_update_same by reflexivity.
      rewrite Ha. reflexivity. }
  assert (Hs2 : session_get (sessions st2)
                  (AttendanceRecord.session_id
                     (AttendanceRecord.with_status ABSENT a)) = Some s).
  { subst st2 st1j st1.
    destruct (AttendanceStatus_eqb (AttendanceRecord.status a) ABSENT);
      exact Hs. }
  assert (Hown2 : owns_session st2 s teacher_id = true).
  { subst st2 st1j st1.
    destruct (AttendanceStatus_eqb (AttendanceRecord.status a) ABSENT);
      exact Hown. }
  assert (Hfk2 : students_have_users st2).
  { subst st2 st1j st1.
    destruct (AttendanceStatus_eqb (AttendanceRecord.status a) ABSENT);
      exact Hfk. }
  destruct (validate_approve_shape st2 justification_id teacher_id "approve"
              notes3 j2 (AttendanceRecord.with_status ABSENT a) s
              Hj2 eq_refl Ha2 Hs2 Hown2 Hfk2 eq_refl)
    as (r3 & added3 & Hrun3).
  eexists. eexists. eexists. eexists. eexists. eexists.
  split; [exact Hrun1|]. split; [exact Hrun2|]. split; [exact Hrun3|].
  split; [now rewrite Hj1|]. split; [now rewrite Hj2|].
  cbn [justifications attendance_records set_attendance_records
       set_notifications set_justifications AttendanceRecord.id
       AttendanceRecord.with_status].
  split.
  - rewrite session_get_sql_update_same by reflexivity. now rewrite Hj2.
  - subst j2. cbn [Justification.attendance_record_id Justification.with_status]
      in Ha2.
    rewrite Hpk.
    rewrite session_get_sql_update_same by reflexivity.
    rewrite Ha2. reflexivity.
Qed.

(** X10, on the concrete store after the rejection of justification 1. *)
Lemma restore_justification_effect_witness :
  exists resp st',
    TeacherController.restore_justification 1 1 rejected_store = (Ok resp, st')
    /\ session_get (justifications st') 1
       = Some (Justification.mk 1 1 (Some "medical certificate") None PENDING)
    /\ session_get (attendance_records st') 1
       = Some (AttendanceRecord.mk 1 ABSENT 1 1 1 (Some 1))
    /\ attendance_records st' = attendance_records rejected_store.
Proof.
  destruct (restore_justification_effect rejected_store 1 1 (Teacher.mk 1 10)
              (Justification.mk 1 1 (Some "medical certificate") None REJECTED)
              eq_refl eq_refl) as (_ & Hok).
  destruct (Hok (AttendanceRecord.mk 1 ABSENT 1 1 1 (Some 1))
              (ClassSession.mk 1 "ABC123" (Some "A1") 90 true 1)
              eq_refl eq_refl eq_refl eq_refl)
    as (resp & st' & Hrun & Hj & Ha & Hsame & _).
  exists resp, st'. split; [exact Hrun|]. split; [exact Hj|].
  split; [exact Ha | exact (Hsame eq_refl)].
Defined.

(** X11, on the concrete store after student 1 submitted a justification. *)
Lemma decided_justification_is_final_witness :
  exists resp st',
    TeacherController.validate_justification 1 1 "Approve" None submitted_store
    = (Ok resp, st')
    /\ TeacherController.validate_justification 1 2 "reject" None st'
       = (Raise (HTTPException HTTP_400_BAD_REQUEST
                   "Justification has already been approved"), st')
    /\ TeacherController.restore_justification 1 1 st'
       = (Raise (HTTPException HTTP_400_BAD_REQUEST
                   "Only rejected justifications can be restored"), st').
Proof.
  destruct (decided_justification_is_final submitted_store 1 1 None
              (Justification.mk 1 1 (Some "medical certificate") None PENDING)
              (AttendanceRecord.mk 1 ABSENT 1 1 1 (Some 1))
              (ClassSession.mk 1 "ABC123" (Some "A1") 90 true 1)
              eq_refl eq_refl eq_refl eq_refl eq_refl
              scenario_students_have_users) as (Happ & _).
  destruct (Happ "Approve" eq_refl) as (resp & st' & Hrun & Hagain & Hrestore).
  exists resp, st'. split; [exact Hrun|]. split.
  - exact (Hagain 2 "reject" None eq_refl).
  - apply (Hrestore 1). discriminate.
Defined.

(** X12, Scenario D on the concrete store after student 1 submitted a
    justification for record 1. *)
Lemma reject_restore_approve_witness :
  exists r1 st1 r2 st2 r3 st3,
    TeacherController.validate_justification 1 1 "reject" None submitted_store
    = (Ok r1, st1)
    /\ TeacherController.restore_justification 1 1 st1 = (Ok r2, st2)
    /\ TeacherController.validate_justification 1 1 "approve" None st2
       = (Ok r3, st3)
    /\ option_map Justification.status (session_get (justifications st3) 1)
       = Some APPROVED
    /\ option_map AttendanceRecord.status
         (session_get (attendance_records st3) 1) = Some PRESENT.
Proof.
  destruct (reject_restore_approve submitted_store 1 1 None None
              (Teacher.mk 1 10)
              (Justification.mk 1 1 (Some "medical certificate") None PENDING)
              (AttendanceRecord.mk 1 ABSENT 1 1 1 (Some 1))
              (ClassSession.mk 1 "ABC123" (Some "A1") 90 true 1)
              eq_refl eq_refl eq_refl eq_refl eq_refl eq_refl
              scenario_students_have_users)
    as (r1 & st1 & r2 & st2 & r3 & st3 & H1 & H2 & H3 & _ & _ & Hj & Ha).
  exists r1, st1, r2, st2, r3, st3. auto.
Defined.

(** ** Marking attendance through the student controller *)

Lemma student_mark_attendance_run (st : Store) (student_id : Z)
    (session_code : string) :
  StudentController.mark_attendance student_id session_code st
  = match session_get (students st) student_id with
    | None =>
        (Raise (HTTPException HTTP_404_NOT_FOUND
                  ("Student with ID " +++ str_of_int student_id +++ " not found")),
         st)
    | Some _ =>
        match hd_error (StudentController.session_module_rows session_code st)
        with
        | None =>
            (Raise (HTTPException HTTP_404_NOT_FOUND "Invalid session code"), st)
        | Some (s, module_id, module_name) =>
            if negb (ClassSession.is_active s) then
              (Raise (HTTPException HTTP_400_BAD_REQUEST
                        "Session is closed. Cannot mark attendance."), st)
            else if module_id =? 0 then
              (Raise (HTTPException HTTP_404_NOT_FOUND
                        "Module not found for this session"), st)
            else
              match enrollment_of student_id module_id st with
              | None =>
                  (Raise (HTTPException HTTP_403_FORBIDDEN
                            "You are not enrolled in this module"), st)
              | Some e =>
                  if Enrollment.is_excluded e then
                    (Raise (HTTPException HTTP_403_FORBIDDEN
                              "You are excluded from this module"), st)
                  else
                    match select_first
                            (fun r => (AttendanceRecord.session_id r
                                       =? ClassSession.id s)
                                      && (AttendanceRecord.enrollement_id r
                                          =? Enrollment.id e))%bool
                            (attendance_records st) with
                    | None =>
                        (Raise (HTTPException HTTP_404_NOT_FOUND
                                  "No attendance record found for this session"),
                         st)
                    | Some a =>
                        if AttendanceStatus_eqb (AttendanceRecord.status a) PRESENT
                        then
                          (Raise (HTTPException HTTP_400_BAD_REQUEST
                                    "Attendance already marked as present"), st)
                        else
                          (Ok (StudentController.mkMarkAttendanceResult
                                 (AttendanceRecord.id a) "present" module_id
                                 (if String.eqb module_name ""
                                  then "Unknown" else module_name)
                                 (ClassSession.id s)
                                 (ClassSession.session_code s)
                                 (Enrollment.id e)
                                 (Enrollment.number_of_absences e)
                                 (Enrollment.number_of_absences_justified e)),
                           set_attendance_records
                             (sql_update (AttendanceRecord.id a)
                                (AttendanceRecord.with_status PRESENT)) st)
                    end
              end
        end
    end.
Proof.
  unfold StudentController.mark_attendance,
    StudentController.get_student_by_id, enrollment_of.
  unfold bind at 1 2. unfold query at 1.
  destruct (session_get (students st) student_id); [|reflexivity].
  unfold or_raise at 1, ret at 1.
  unfold bind at 1. unfold query at 1.
  destruct (hd_error (StudentController.session_module_rows session_code st))
    as [[[s module_id] module_name]|]; [|reflexivity].
  destruct (ClassSession.is_active s); cbn [negb]; [|reflexivity].
  destruct (module_id =? 0); [reflexivity|].
  unfold bind at 1 2. unfold query at 1.
  destruct (select_first _ (enrollments st)) as [e|]; [|reflexivity].
  unfold or_raise at 1, ret at 1.
  destruct (Enrollment.is_excluded e); [reflexivity|].
  unfold bind at 1 2. unfold query at 1.
  destruct (select_first _ (attendance_records st)) as [a|]; [|reflexivity].
  unfold or_raise at 1, ret at 1.
  now destruct (AttendanceStatus_eqb (AttendanceRecord.status a) PRESENT).
Qed.

(** X13. [StudentController.mark_attendance], for an existing student and a
    code that resolves to the session [s] of module [module_id]: a closed
    session is refused with 400, a student without enrollment in the module
    and an excluded student with 403, a record already PRESENT with 400,
    nothing being written.  Otherwise the student's record for the session
    is stored as PRESENT and nothing else changes; a second call with the
    same code is then refused with 400. *)
Theorem student_mark_attendance_outcomes (st : Store) (student_id : Z)
    (session_code : string) (student : Student.t) (s : ClassSession.t)
    (module_id : Z) (module_name : string) :
  session_get (students st) student_id = Some student ->
  hd_error (StudentController.session_module_rows session_code st)
  = Some (s, module_id, module_name) ->
  let call := StudentController.mark_attendance student_id session_code st in
  (ClassSession.is_active s = false ->
   call = (Raise (HTTPException HTTP_400_BAD_REQUEST
                    "Session is closed. Cannot mark attendance."), st))
  /\ (ClassSession.is_active s = true -> module_id <> 0 ->
      (enrollment_of student_id module_id st = None ->
       call = (Raise (HTTPException HTTP_403_FORBIDDEN
                        "You are not enrolled in this module"), st))
      /\ (forall e,
            enrollment_of student_id module_id st = Some e ->
            (Enrollment.is_excluded e = true ->
             call = (Raise (HTTPException HTTP_403_FORBIDDEN
                              "You are excluded from this module"), st))
            /\ (forall a,
                  Enrollment.is_excluded e = false ->
                  select_first
                    (fun r => (AttendanceRecord.session_id r =? ClassSession.id s)
                              && (AttendanceRecord.enrollement_id r
                                  =? Enrollment.id e))%bool
                    (attendance_records st) = Some a ->
                  (AttendanceRecord.status a = PRESENT ->
                   call = (Raise (HTTPException HTTP_400_BAD_REQUEST
                                    "Attendance already marked as present"), st))
                  /\ (AttendanceRecord.status a <> PRESENT ->
                      exists resp st',
                        call = (Ok resp, st')
                        /\ st' = set_attendance_records
                                   (sql_update (AttendanceRecord.id a)
                                      (AttendanceRecord.with_status PRESENT)) st
                        /\ session_get (attendance_records st')
                             (AttendanceRecord.id a)
                           = option_map (AttendanceRecord.with_status PRESENT)
                               (session_get (attendance_records st)
                                  (AttendanceRecord.id a))
                        /\ StudentController.mark_attendance student_id
                             session_code st'
                           = (Raise (HTTPException HTTP_400_BAD_REQUEST
                                       "Attendance already marked as present"),
                              st'))))).
Proof.
  intros Hstu Hrow call. subst call.
  rewrite student_mark_attendance_run, Hstu, Hrow.
  split.
  - intros Hact. now rewrite Hact.
  - intros Hact Hmod. rewrite Hact. cbn [negb].
    apply Z.eqb_neq in Hmod. rewrite Hmod. split.
    + intros He. now rewrite He.
    + intros e He. rewrite He. split.
      * intros Hex. now rewrite Hex.
      * intros a Hex Ha. rewrite Hex, Ha. split.
        -- intros Hst. now rewrite Hst.
        -- intros Hst.
           assert (Hnp : AttendanceStatus_eqb (AttendanceRecord.status a) PRESENT
                         = false).
           { destruct (AttendanceRecord.status a); try reflexivity. congruence. }
           rewrite Hnp. eexists. eexists. split; [reflexivity|].
           split; [reflexivity|]. split.
           ++ cbn [attendance_records set_attendance_records].
              now rewrite session_get_sql_update_same by reflexivity.
           ++ rewrite student_mark_attendance_run.
              cbn [students set_attendance_records].
              rewrite Hstu.
              change (StudentController.session_module_rows session_code
                        (set_attendance_records
                           (sql_update (AttendanceRecord.id a)
                              (AttendanceRecord.with_status PRESENT)) st))
                with (StudentController.session_module_rows session_code st).
              rewrite Hrow, Hact. cbn [negb]. rewrite Hmod.
              change (enrollment_of student_id module_id
                        (set_attendance_records
                           (sql_update (AttendanceRecord.id a)
                              (AttendanceRecord.with_status PRESENT)) st))
                with (enrollment_of student_id module_id st).
              rewrite He, Hex.
              cbn [attendance_records set_attendance_records].
              rewrite select_first_sql_update by reflexivity.
              rewrite Ha. cbn [option_map].
              change (pk a) with (AttendanceRecord.id a).
              now rewrite Z.eqb_refl.
Qed.

(** X13, for student 1 and the code of the open session 1 of the concrete
    store. *)
Lemma student_mark_attendance_outcomes_witness :
  exists resp st',
    StudentController.mark_attendance 1 "ABC123" scenario_store = (Ok resp, st')
    /\ session_get (attendance_records st') 1
       = Some (AttendanceRecord.mk 1 PRESENT 1 1 1 None)
    /\ StudentController.mark_attendance 1 "ABC123" st'
       = (Raise (HTTPException HTTP_400_BAD_REQUEST
                   "Attendance already marked as present"), st').
Proof.
  destruct (student_mark_attendance_outcomes scenario_store 1 "ABC123"
              (Student.mk 1 11 1)
              (ClassSession.mk 1 "ABC123" (Some "A1") 90 true 1) 1 "Algorithms"
              eq_refl eq_refl) as (_ & Hopen).
  destruct (Hopen eq_refl ltac:(discriminate)) as (_ & Hen).
  destruct (Hen (Enrollment.mk 1 1 1 0 0 false) eq_refl) as (_ & Hrec).
  destruct (Hrec (AttendanceRecord.mk 1 ABSENT 1 1 1 None) eq_refl eq_refl)
    as (_ & Hok).
  destruct (Hok ltac:(discriminate)) as (resp & st' & Hrun & Hst' & Hget & Htwice).
  exists resp, st'. split; [exact Hrun|]. split; [exact Hget | exact Htwice].
Defined.

(** ** Closing and excluding gate the marking *)

Lemma map_flat_map {A B C : Type} (g : B -> C) (h : A -> list B) (l : list A) :
  map g (flat_map h l) = flat_map (fun a => map g (h a)) l.
Proof.
  induction l as [|a l IH]; simpl; [reflexivity|].
  now rewrite map_app, IH.
Qed.

Lemma session_module_rows_map (g : ClassSession.t -> ClassSession.t)
    (session_code : string) (tms : list TeacherModules.t)
    (mods : list Module_.t) (l : list ClassSession.t) :
  (forall s, ClassSession.session_code (g s) = ClassSession.session_code s) ->
  (forall s, ClassSession.teacher_module_id (g s)
             = ClassSession.teacher_module_id s) ->
  flat_map (fun s =>
    flat_map (fun tm =>
      map (fun m => (s, TeacherModules.module_id tm, Module_.name m))
        (filter (fun m => Module_.id m =? TeacherModules.module_id tm) mods))
      (filter (fun tm => TeacherModules.id tm =? ClassSession.teacher_module_id s)
         tms))
    (filter (fun s => String.eqb (ClassSession.session_code s) session_code)
       (map g l))
  = map (fun row => (g (fst (fst row)), snd (fst row), snd row))
      (flat_map (fun s =>
         flat_map (fun tm =>
           map (fun m => (s, TeacherModules.module_id tm, Module_.name m))
             (filter (fun m => Module_.id m =? TeacherModules.module_id tm) mods))
           (filter (fun tm => TeacherModules.id tm
                              =? ClassSession.teacher_module_id s) tms))
         (filter (fun s => String.eqb (ClassSession.session_code s) session_code)
            l)).
Proof.
  intros Hcode Htmid.
  induction l as [|x l IH]; [reflexivity|].
  cbn [map filter]. rewrite Hcode.
  destruct (String.eqb (ClassSession.session_code x) session_code);
    [|exact IH].
  cbn [flat_map]. rewrite map_app, IH. f_equal.
  rewrite Htmid, map_flat_map. apply flat_map_ext. intros tm.
  rewrite map_map. reflexivity.
Qed.

Lemma session_module_rows_closed (st st' : Store) (session_id : Z)
    (session_code : string) :
  sessions st' = sql_update session_id (ClassSession.with_is_active false)
                   (sessions st) ->
  teacher_modules st' = teacher_modules st ->
  modules st' = modules st ->
  StudentController.session_module_rows session_code st'
  = map (fun row => (closed_row session_id (fst (fst row)),
                     snd (fst row), snd row))
      (StudentController.session_module_rows session_code st).
Proof.
  intros Hs Htm Hm. unfold StudentController.session_module_rows.
  rewrite Hs, Htm, Hm. unfold sql_update.
  apply (session_module_rows_map (closed_row session_id));
    intros x; unfold closed_row; now destruct (ClassSession.id x =? session_id).
Qed.

Lemma session_mark_attendance_closed (st : Store) (share_code : string)
    (student_id : Z) (s : ClassSession.t) :
  select_first (fun s => String.eqb (ClassSession.session_code s) share_code)
    (sessions st) = Some s ->
  ClassSession.is_active s = false ->
  SessionController.mark_attendance share_code student_id st
  = (Raise (HTTPException HTTP_400_BAD_REQUEST
              "Session is closed. Cannot mark attendance."), st).
Proof.
  intros Hs Hact. now rewrite session_mark_attendance_run, Hs, Hact.
Qed.

(** X14. Closing a session closes it for marking.  When the share code
    resolves to the session, after a successful
    [TeacherController.close_session] or [SessionController.close_session]
    every [SessionController.mark_attendance] with that code, and every
    [StudentController.mark_attendance] of an existing student, fails with
    400 "Session is closed. Cannot mark attendance." and writes nothing. *)
Theorem closed_session_refuses_marking (st st' : Store)
    (session_id teacher_id : Z) (code : string) :
  (exists resp,
     TeacherController.close_session session_id teacher_id st = (Ok resp, st'))
  \/ (exists resp,
        SessionController.close_session session_id teacher_id st = (Ok resp, st')) ->
  (forall s student_id,
     select_first (fun s => String.eqb (ClassSession.session_code s) code)
       (sessions st) = Some s ->
     ClassSession.id s = session_id ->
     SessionController.mark_attendance code student_id st'
     = (Raise (HTTPException HTTP_400_BAD_REQUEST
                 "Session is closed. Cannot mark attendance."), st'))
  /\ (forall s module_id module_name student_id,
        hd_error (StudentController.session_module_rows code st)
        = Some (s, module_id, module_name) ->
        ClassSession.id s = session_id ->
        session_get (students st) student_id <> None ->
        StudentController.mark_attendance student_id code st'
        = (Raise (HTTPException HTTP_400_BAD_REQUEST
                    "Session is closed. Cannot mark attendance."), st')).
Proof.
  intros Hclose.
  assert (Hshape : sessions st'
                   = sql_update session_id (ClassSession.with_is_active false)
                       (sessions st)
                   /\ teacher_modules st' = teacher_modules st
                   /\ modules st' = modules st
                   /\ students st' = students st).
  { destruct Hclose as [(resp & Hrun)|(resp & Hrun)].
    - rewrite teacher_close_session_run in Hrun.
      destruct (session_get (sessions st) session_id) as [s|]; [|discriminate].
      destruct (session_get (teacher_modules st) _) as [tm|]; [|discriminate].
      destruct (TeacherModules.teacher_id tm =? teacher_id); [|discriminate].
      destruct (ClassSession.is_active s); [|discriminate].
      inversion Hrun; subst. repeat split.
    - destruct (session_close_session_frame _ _ _ _ _ Hrun) as (f & ->).
      repeat split. }
  destruct Hshape as (Hs' & Htm' & Hm' & Hstu').
  split.
  - intros s student_id Hs Hid.
    apply (session_mark_attendance_closed st' code student_id
             (ClassSession.with_is_active false s)); [|reflexivity].
    rewrite Hs'. rewrite select_first_sql_update by reflexivity.
    rewrite Hs. cbn [option_map]. change (pk s) with (ClassSession.id s).
    apply Z.eqb_eq in Hid. now rewrite Hid.
  - intros s module_id module_name student_id Hrow Hid Hstu.
    rewrite student_mark_attendance_run, Hstu'.
    destruct (session_get (students st) student_id); [|contradiction].
    rewrite (session_module_rows_closed st st' session_id code Hs' Htm' Hm').
    destruct (StudentController.session_module_rows code st) as [|row rows];
      [discriminate|].
    cbn [hd_error] in Hrow. inversion Hrow; subst row.
    cbn [map hd_error fst snd]. unfold closed_row.
    apply Z.eqb_eq in Hid. rewrite Hid. reflexivity.
Qed.

(** X14, on the concrete store: session 1 is closed by teacher 1 through
    the teacher controller, then students 1 and 7 try its code. *)
Lemma closed_session_refuses_marking_witness :
  let st' := snd (TeacherController.close_session 1 1 scenario_store) in
  SessionController.mark_attendance "ABC123" 7 st'
  = (Raise (HTTPException HTTP_400_BAD_REQUEST
              "Session is closed. Cannot mark attendance."), st')
  /\ StudentController.mark_attendance 1 "ABC123" st'
     = (Raise (HTTPException HTTP_400_BAD_REQUEST
                 "Session is closed. Cannot mark attendance."), st').
Proof.
  intros st'.
  assert (Hclose :
    (exists resp,
       TeacherController.close_session 1 1 scenario_store = (Ok resp, st'))
    \/ (exists resp,
          SessionController.close_session 1 1 scenario_store = (Ok resp, st'))).
  { left. eexists. reflexivity. }
  destruct (closed_session_refuses_marking scenario_store st' 1 1 "ABC123"
              Hclose) as [Hsession Hstudent].
  split.
  - apply (Hsession (ClassSession.mk 1 "ABC123" (Some "A1") 90 true 1) 7);
      reflexivity.
  - apply (Hstudent (ClassSession.mk 1 "ABC123" (Some "A1") 90 true 1) 1
             "Algorithms" 1); try reflexivity. discriminate.
Defined.

Lemma make_excluded_from_module_frame (st st' : Store) (enrollment_id : Z)
    (e' : Enrollment.t) :
  EnrollmentController.make_excluded_from_module enrollment_id st = (Ok e', st') ->
  exists f,
    st' = set_attendance_records f
            (set_enrollments
               (sql_update enrollment_id (Enrollment.with_is_excluded true)) st).
Proof.
  unfold EnrollmentController.make_excluded_from_module,
    EnrollmentController.get_enrollment_by_id.
  unfold bind at 1 2. unfold query at 1.
  destruct (session_get (enrollments st) enrollment_id) as [e|] eqn:He;
    [|discriminate].
  unfold or_raise at 1, ret at 1.
  destruct (Enrollment.is_excluded e); [discriminate|].
  pose proof (session_get_pk _ _ _ He) as Hpk. simpl in Hpk. rewrite Hpk.
  unfold bind at 1. unfold persist at 1.
  unfold bind at 1. unfold query at 1.
  unfold bind at 1. rewrite for_each_set_attendance_status.
  unfold ret. intros Heq. inversion Heq; subst.
  eexists. reflexivity.
Qed.

(** X15. Exclusion closes the module for marking.  After a successful
    [make_excluded_from_module] of the enrollment under which a student
    would mark, [SessionController.mark_attendance] and
    [StudentController.mark_attendance] both refuse that student with 403
    "You are excluded from this module", on every open session of the
    module, and write nothing. *)
Theorem excluded_student_cannot_mark (st st' : Store) (enrollment_id : Z)
    (e' : Enrollment.t) (student_id : Z) (code : string) :
  EnrollmentController.make_excluded_from_module enrollment_id st = (Ok e', st') ->
  (forall s tm e,
     select_first (fun s => String.eqb (ClassSession.session_code s) code)
       (sessions st) = Some s ->
     ClassSession.is_active s = true ->
     session_get (teacher_modules st) (ClassSession.teacher_module_id s)
     = Some tm ->
     enrollment_of student_id (TeacherModules.module_id tm) st = Some e ->
     Enrollment.id e = enrollment_id ->
     SessionController.mark_attendance code student_id st'
     = (Raise (HTTPException HTTP_403_FORBIDDEN
                 "You are excluded from this module"), st'))
  /\ (forall s module_id module_name e,
        session_get (students st) student_id <> None ->
        hd_error (StudentController.session_module_rows code st)
        = Some (s, module_id, module_name) ->
        ClassSession.is_active s = true ->
        module_id <> 0 ->
        enrollment_of student_id module_id st = Some e ->
        Enrollment.id e = enrollment_id ->
        StudentController.mark_attendance student_id code st'
        = (Raise (HTTPException HTTP_403_FORBIDDEN
                    "You are excluded from this module"), st')).
Proof.
  intros Hex.
  destruct (make_excluded_from_module_frame _ _ _ _ Hex) as (f & ->).
  assert (Hen : forall module_id e,
            enrollment_of student_id module_id st = Some e ->
            Enrollment.id e = enrollment_id ->
            enrollment_of student_id module_id
              (set_attendance_records f
                 (set_enrollments
                    (sql_update enrollment_id
                       (Enrollment.with_is_excluded true)) st))
            = Some (Enrollment.with_is_excluded true e)).
  { intros module_id e He Hid. unfold enrollment_of in *.
    cbn [enrollments set_attendance_records set_enrollments].
    rewrite select_first_sql_update by reflexivity.
    rewrite He. cbn [option_map]. change (pk e) with (Enrollment.id e).
    apply Z.eqb_eq in Hid. now rewrite Hid. }
  split.
  - intros s tm e Hs Hact Htm He Hid.
    rewrite session_mark_attendance_run.
    cbn [sessions teacher_modules set_attendance_records set_enrollments].
    rewrite Hs, Hact. cbn [negb]. rewrite Htm.
    pose proof (Hen _ _ He Hid) as He'. unfold enrollment_of in He'.
    rewrite He'. reflexivity.
  - intros s module_id module_name e Hstu Hrow Hact Hmod He Hid.
    rewrite student_mark_attendance_run.
    cbn [students set_attendance_records set_enrollments].
    destruct (session_get (students st) student_id); [|contradiction].
    change (StudentController.session_module_rows code
              (set_attendance_records f
                 (set_enrollments
                    (sql_update enrollment_id
                       (Enrollment.with_is_excluded true)) st)))
      with (StudentController.session_module_rows code st).
    rewrite Hrow, Hact. cbn [negb].
    apply Z.eqb_neq in Hmod. rewrite Hmod.
    now rewrite (Hen _ _ He Hid).
Qed.

(** X15, on the concrete store: enrollment 1 is excluded, then student 1
    tries the code of the open session 1. *)
Lemma excluded_student_cannot_mark_witness :
  let st' := snd (EnrollmentController.make_excluded_from_module 1
                    scenario_store) in
  SessionController.mark_attendance "ABC123" 1 st'
  = (Raise (HTTPException HTTP_403_FORBIDDEN
              "You are excluded from this module"), st')
  /\ StudentController.mark_attendance 1 "ABC123" st'
     = (Raise (HTTPException HTTP_403_FORBIDDEN
                 "You are excluded from this module"), st').
Proof.
  intros st'.
  destruct (excluded_student_cannot_mark scenario_store st' 1
              (Enrollment.mk 1 1 1 0 0 true) 1 "ABC123" eq_refl)
    as [Hsession Hstudent].
  split.
  - apply (Hsession (ClassSession.mk 1 "ABC123" (Some "A1") 90 true 1)
             (TeacherModules.mk 1 1 1) (Enrollment.mk 1 1 1 0 0 false));
      reflexivity.
  - apply (Hstudent (ClassSession.mk 1 "ABC123" (Some "A1") 90 true 1) 1
             "Algorithms" (Enrollment.mk 1 1 1 0 0 false));
      try reflexivity; discriminate.
Defined.

(** ** Opening a session, then marking *)

Lemma new_attendance_rows_find (n sid mid : Z) (selected : list Enrollment.t)
    (e : Enrollment.t) :
  In e selected ->
  exists a,
    select_first
      (fun r => (AttendanceRecord.session_id r =? sid)
                && (AttendanceRecord.enrollement_id r =? Enrollment.id e))%bool
      (new_attendance_rows n sid mid selected) = Some a
    /\ AttendanceRecord.status a = ABSENT.
Proof.
  revert n. induction selected as [|x rest IH]; intros n Hin; [contradiction|].
  unfold select_first. cbn [new_attendance_rows find AttendanceRecord.session_id
                            AttendanceRecord.enrollement_id].
  rewrite Z.eqb_refl. cbn [andb].
  destruct (Enrollment.id x =? Enrollment.id e) eqn:Hx.
  - eexists. split; reflexivity.
  - destruct Hin as [->|Hin]; [rewrite Z.eqb_refl in Hx; discriminate|].
    exact (IH (n + 1) Hin).
Qed.

(** X16. A session opened by [create_session] under a share code that no
    stored session uses can be joined at once: a student whose enrollment
    in the module is not excluded marks attendance with that code
    successfully, and afterwards holds a PRESENT record in the new
    session.  (Teacher-module keys are unique and stored records refer to
    stored sessions.) *)
Theorem open_session_then_mark (st : Store) (share_code : string)
    (teacher_id module_id duration_minutes student_id : Z)
    (room : option string) (t : Teacher.t) (m : Module_.t)
    (tm : TeacherModules.t) (e : Enrollment.t) :
  session_get (teachers st) teacher_id = Some t ->
  session_get (modules st) module_id = Some m ->
  select_first
    (fun tm => (TeacherModules.teacher_id tm =? teacher_id)
               && (TeacherModules.module_id tm =? module_id))%bool
    (teacher_modules st) = Some tm ->
  pk_unique (teacher_modules st) ->
  select_first (fun s => String.eqb (ClassSession.session_code s) share_code)
    (sessions st) = None ->
  (forall r, In r (attendance_records st) ->
     exists s, In s (sessions st)
               /\ ClassSession.id s = AttendanceRecord.session_id r) ->
  enrollment_of student_id module_id st = Some e ->
  Enrollment.is_excluded e = false ->
  exists resp st1 resp2 st2 a,
    TeacherController.create_session share_code teacher_id module_id
      duration_minutes room st = (Ok resp, st1)
    /\ SessionController.mark_attendance share_code student_id st1
       = (Ok resp2, st2)
    /\ In a (attendance_records st2)
    /\ AttendanceRecord.session_id a = TeacherController.cr_session_id resp
    /\ AttendanceRecord.enrollement_id a = Enrollment.id e
    /\ AttendanceRecord.status a = PRESENT.
Proof.
  intros Ht Hm Htm Hutm Hfresh Hfk He Hex.
  pose proof (create_session_run st share_code teacher_id module_id
                duration_minutes room t m tm Ht Hm Htm) as Hrun.
  cbv zeta in Hrun.
  set (sid := next_id (sessions st)) in *.
  set (rows := new_attendance_rows (next_id (attendance_records st)) sid
                 module_id (select_all (enrolled_in module_id) (enrollments st)))
    in *.
  set (new_session := ClassSession.mk sid share_code
                        (if truthy_str room then room else Module_.room m)
                        duration_minutes true (TeacherModules.id tm)) in *.
  destruct (enrollment_of_fields _ _ _ _ He) as (Hein & Hesid & Hemid).
  assert (Hsel : In e (select_all (enrolled_in module_id) (enrollments st))).
  { unfold select_all. apply filter_In. split; [exact Hein|].
    unfold enrolled_in. now rewrite Hemid, Z.eqb_refl, Hex. }
  destruct (new_attendance_rows_find (next_id (attendance_records st)) sid
              module_id _ e Hsel) as (a & Hfind & Hst).
  fold rows in Hfind.
  assert (Htmfields : In tm (teacher_modules st)
                      /\ TeacherModules.module_id tm = module_id).
  { unfold select_first in Htm. apply find_some in Htm.
    destruct Htm as [Hin Hp]. apply andb_true_iff in Hp.
    destruct Hp as [_ Hp]. apply Z.eqb_eq in Hp. auto. }
  destruct Htmfields as [Htmin Htmmod].
  assert (Hold : select_first
                   (fun r => (AttendanceRecord.session_id r =? sid)
                             && (AttendanceRecord.enrollement_id r
                                 =? Enrollment.id e))%bool
                   (attendance_records st) = None).
  { apply find_none_all. intros r Hr.
    destruct (Hfk r Hr) as (s0 & Hs0 & Hid).
    pose proof (next_id_fresh (sessions st) s0 Hs0) as Hlt.
    change (pk s0) with (ClassSession.id s0) in Hlt. fold sid in Hlt.
    assert (Hne : (AttendanceRecord.session_id r =? sid) = false)
      by (apply Z.eqb_neq; lia).
    now rewrite Hne. }
  assert (Hmark : SessionController.mark_attendance share_code student_id
                    (set_attendance_records (fun tbl => tbl ++ rows)
                       (set_sessions (fun tbl => tbl ++ [new_session]) st))
                  = (Ok (SessionController.mkMarkAttendanceResult
                           "Attendance marked successfully" student_id sid
                           "PRESENT"),
                     set_attendance_records
                       (sql_update (AttendanceRecord.id a)
                          (AttendanceRecord.with_status PRESENT))
                       (set_attendance_records (fun tbl => tbl ++ rows)
                          (set_sessions (fun tbl => tbl ++ [new_session]) st)))).
  { rewrite session_mark_attendance_run.
    cbn [sessions teacher_modules enrollments attendance_records
         set_attendance_records set_sessions].
    rewrite select_first_app_none by exact Hfresh.
    unfold select_first at 1. unfold new_session.
    cbn [find ClassSession.session_code].
    rewrite String.eqb_refl.
    cbn [ClassSession.is_active ClassSession.teacher_module_id
         ClassSession.id negb].
    pose proof (pk_unique_session_get _ tm Hutm Htmin) as Hgtm.
    change (pk tm) with (TeacherModules.id tm) in Hgtm. rewrite Hgtm.
    rewrite Htmmod. unfold enrollment_of in He. rewrite He, Hex.
    rewrite select_first_app_none by exact Hold.
    rewrite Hfind, Hst. reflexivity. }
  eexists. eexists. eexists. eexists.
  exists (AttendanceRecord.with_status PRESENT a).
  split; [exact Hrun|]. split; [exact Hmark|].
  unfold select_first in Hfind. apply find_some in Hfind.
  destruct Hfind as [Hain Hap]. apply andb_true_iff in Hap.
  destruct Hap as [Ha1 Ha2]. apply Z.eqb_eq in Ha1, Ha2.
  cbn [attendance_records set_attendance_records set_sessions
       TeacherController.cr_session_id AttendanceRecord.with_status
       AttendanceRecord.session_id AttendanceRecord.enrollement_id
       AttendanceRecord.status].
  split; [|auto].
  unfold sql_update. apply in_map_iff. exists a. split.
  - change (pk a) with (AttendanceRecord.id a). now rewrite Z.eqb_refl.
  - apply in_or_app. now right.
Qed.

(** X16, on the concrete store: teacher 1 opens a session for module 1
    under the unused code "D4E5F6" and student 2 marks attendance. *)
Lemma open_session_then_mark_witness :
  exists resp st1 resp2 st2 a,
    TeacherController.create_session "D4E5F6" 1 1 90 None scenario_store
    = (Ok resp, st1)
    /\ SessionController.mark_attendance "D4E5F6" 2 st1 = (Ok resp2, st2)
    /\ In a (attendance_records st2)
    /\ AttendanceRecord.session_id a = TeacherController.cr_session_id resp
    /\ AttendanceRecord.enrollement_id a = 2
    /\ AttendanceRecord.status a = PRESENT.
Proof.
  assert (Hrefs : forall r, In r (attendance_records scenario_store) ->
            exists s, In s (sessions scenario_store)
                      /\ ClassSession.id s = AttendanceRecord.session_id r).
  { intros r Hr. simpl in Hr.
    repeat (destruct Hr as [<-|Hr];
            [first [ exists (ClassSession.mk 1 "ABC123" (Some "A1") 90 true 1);
                     split; [simpl; tauto | reflexivity]
                   | exists (ClassSession.mk 2 "XYZ789" (Some "A1") 90 false 1);
                     split; [simpl; tauto | reflexivity] ]|]).
    contradiction. }
  assert (Hutm : pk_unique (teacher_modules scenario_store))
    by (apply nodupb_sound; reflexivity).
  exact (open_session_then_mark scenario_store "D4E5F6" 1 1 90 2 None
           (Teacher.mk 1 10) (Module_.mk 1 "Algorithms" (Some "A1"))
           (TeacherModules.mk 1 1 1) (Enrollment.mk 2 2 1 0 0 false)
           eq_refl eq_refl eq_refl Hutm eq_refl Hrefs eq_refl eq_refl).
Defined.

(** ** Self-marking and the teacher's transition table *)

(** X17. Self-marking is not bound by the teacher's transition table: for
    a student whose enrollment is not excluded, [mark_attendance] turns an
    EXCLUDED record of an open session into PRESENT, the very transition
    that [update_attendance_status] refuses on the same record. *)
Theorem self_marking_from_excluded (st : Store) (share_code : string)
    (student_id : Z) (s : ClassSession.t) (tm : TeacherModules.t)
    (e : Enrollment.t) (a : AttendanceRecord.t) :
  select_first (fun s => String.eqb (ClassSession.session_code s) share_code)
    (sessions st) = Some s ->
  ClassSession.is_active s = true ->
  session_get (teacher_modules st) (ClassSession.teacher_module_id s) = Some tm ->
  enrollment_of student_id (TeacherModules.module_id tm) st = Some e ->
  Enrollment.is_excluded e = false ->
  select_first
    (fun r => (AttendanceRecord.session_id r =? ClassSession.id s)
              && (AttendanceRecord.enrollement_id r =? Enrollment.id e))%bool
    (attendance_records st) = Some a ->
  session_get (attendance_records st) (AttendanceRecord.id a) = Some a ->
  AttendanceRecord.status a = EXCLUDED ->
  (exists resp st',
     SessionController.mark_attendance share_code student_id st = (Ok resp, st')
     /\ session_get (attendance_records st') (AttendanceRecord.id a)
        = Some (AttendanceRecord.with_status PRESENT a))
  /\ AttendanceController.update_attendance_status (AttendanceRecord.id a)
       PRESENT st
     = (Raise (HTTPException HTTP_400_BAD_REQUEST
                 "Cannot change status from excluded to present"), st).
Proof.
  intros Hs Hact Htm He Hex Ha Hget Hst. split.
  - rewrite session_mark_attendance_run, Hs, Hact. cbn [negb].
    unfold enrollment_of in He. rewrite Htm, He, Hex, Ha, Hst.
    cbn [AttendanceStatus_eqb].
    eexists. eexists. split; [reflexivity|].
    cbn [attendance_records set_attendance_records].
    rewrite session_get_sql_update_same by reflexivity. now rewrite Hget.
  - rewrite (update_attendance_status_run st _ a PRESENT Hget), Hst.
    reflexivity.
Qed.

(** X17, on the concrete store after enrollment 1 was excluded and
    reinstated: record 1 is EXCLUDED and student 1 marks it PRESENT. *)
Lemma self_marking_from_excluded_witness :
  let st :=
    snd (EnrollmentController.reinstate_student 1
           (snd (EnrollmentController.make_excluded_from_module 1
                   scenario_store))) in
  session_get (attendance_records st) 1
  = Some (AttendanceRecord.mk 1 EXCLUDED 1 1 1 None)
  /\ (exists resp st',
        SessionController.mark_attendance "ABC123" 1 st = (Ok resp, st')
        /\ session_get (attendance_records st') 1
           = Some (AttendanceRecord.mk 1 PRESENT 1 1 1 None))
  /\ AttendanceController.update_attendance_status 1 PRESENT st
     = (Raise (HTTPException HTTP_400_BAD_REQUEST
                 "Cannot change status from excluded to present"), st).
Proof.
  intros st. split; [reflexivity|].
  exact (self_marking_from_excluded st "ABC123" 1
           (ClassSession.mk 1 "ABC123" (Some "A1") 90 true 1)
           (TeacherModules.mk 1 1 1) (Enrollment.mk 1 1 1 0 0 false)
           (AttendanceRecord.mk 1 EXCLUDED 1 1 1 None)
           eq_refl eq_refl eq_refl eq_refl eq_refl eq_refl eq_refl eq_refl).
Defined.

(** ** Undoing a status change *)

Lemma sql_update_undo (tbl : list AttendanceRecord.t) (i : Z)
    (a : AttendanceRecord.t) (s : AttendanceStatus) :
  pk_unique tbl ->
  session_get tbl i = Some a ->
  sql_update i (AttendanceRecord.with_status (AttendanceRecord.status a))
    (sql_update i (AttendanceRecord.with_status s) tbl) = tbl.
Proof.
  intros Hu Ha. unfold sql_update. rewrite map_map.
  rewrite <- (map_id tbl) at 2. apply map_ext_in. intros x Hx.
  destruct (pk x =? i) eqn:Hid.
  - cbn [pk AttendanceRecord_model AttendanceRecord.with_status
         AttendanceRecord.id] in *.
    rewrite Hid. apply Z.eqb_eq in Hid.
    pose proof (pk_unique_session_get _ x Hu Hx) as Hgx. simpl in Hgx.
    rewrite Hid, Ha in Hgx. inversion Hgx; subst x. now destruct a.
  - now rewrite Hid.
Qed.

(** X18. A teacher's override can be undone: on an ABSENT record (keys
    being unique) setting PRESENT or EXCLUDED with
    [update_attendance_status] and then setting ABSENT again both succeed
    and give back the store exactly as it was. *)
Theorem update_attendance_status_undo (st : Store) (attendance_id : Z)
    (a : AttendanceRecord.t) (s : AttendanceStatus) :
  session_get (attendance_records st) attendance_id = Some a ->
  AttendanceRecord.status a = ABSENT ->
  pk_unique (attendance_records st) ->
  s = PRESENT \/ s = EXCLUDED ->
  exists r1 st1 r2,
    AttendanceController.update_attendance_status attendance_id s st
    = (Ok r1, st1)
    /\ AttendanceRecord.status r1 = s
    /\ AttendanceController.update_attendance_status attendance_id ABSENT st1
       = (Ok r2, st)
    /\ r2 = a.
Proof.
  intros Ha Hst Hu Hs.
  pose proof (update_attendance_status_run st attendance_id a s Ha) as Hrun1.
  assert (Hallowed : AttendanceController.status_in s
                       (AttendanceController.dict_get
                          AttendanceController.valid_transitions
                          (AttendanceRecord.status a) []) = true).
  { rewrite Hst. destruct Hs as [-> | ->]; reflexivity. }
  rewrite Hallowed in Hrun1.
  set (st1 := set_attendance_records
                (sql_update attendance_id (AttendanceRecord.with_status s)) st)
    in *.
  assert (Ha1 : session_get (attendance_records st1) attendance_id
                = Some (AttendanceRecord.with_status s a)).
  { subst st1. cbn [attendance_records set_attendance_records].
    rewrite session_get_sql_update_same by reflexivity. now rewrite Ha. }
  pose proof (update_attendance_status_run st1 attendance_id _ ABSENT Ha1)
    as Hrun2.
  assert (Hback : AttendanceController.status_in ABSENT
                    (AttendanceController.dict_get
                       AttendanceController.valid_transitions
                       (AttendanceRecord.status
                          (AttendanceRecord.with_status s a)) []) = true).
  { destruct Hs as [-> | ->]; reflexivity. }
  rewrite Hback in Hrun2.
  assert (Hsame : set_attendance_records
                    (sql_update attendance_id
                       (AttendanceRecord.with_status ABSENT)) st1 = st).
  { subst st1. unfold set_attendance_records.
    cbn [users teachers students modules teacher_modules enrollments sessions
         attendance_records justifications notifications].
    rewrite <- Hst. rewrite (sql_update_undo _ _ a s Hu Ha).
    now destruct st. }
  rewrite Hsame in Hrun2.
  eexists. eexists. eexists.
  split; [exact Hrun1|]. split; [reflexivity|]. split; [exact Hrun2|].
  clear - Hst. destruct a; cbn in *. now rewrite Hst.
Qed.

(** X18, at record 1 of the concrete store. *)
Lemma update_attendance_status_undo_witness :
  exists r1 st1 r2,
    AttendanceController.update_attendance_status 1 EXCLUDED scenario_store
    = (Ok r1, st1)
    /\ AttendanceRecord.status r1 = EXCLUDED
    /\ AttendanceController.update_attendance_status 1 ABSENT st1
       = (Ok r2, scenario_store)
    /\ r2 = AttendanceRecord.mk 1 ABSENT 1 1 1 None.
Proof.
  assert (Hu : pk_unique (attendance_records scenario_store))
    by (apply nodupb_sound; reflexivity).
  exact (update_attendance_status_undo scenario_store 1
           (AttendanceRecord.mk 1 ABSENT 1 1 1 None) EXCLUDED
           eq_refl eq_refl Hu (or_intror eq_refl)).
Defined.

(** ** Running a bulk update twice *)

Lemma bulk_update_loop_blocks (attendance_ids : list Z)
    (new_status : AttendanceStatus) :
  forall (acc updated : list AttendanceRecord.t) (st st' : Store),
    AttendanceController.bulk_update_loop attendance_ids new_status acc st
    = (Ok updated, st') ->
    (forall i, blocked i new_status st -> blocked i new_status st')
    /\ (forall i, In i attendance_ids -> blocked i new_status st').
Proof.
  induction attendance_ids as [|x rest IH]; intros acc updated st st' Hloop.
  - simpl in Hloop. unfold ret in Hloop. inversion Hloop; subst.
    split; [auto | intros i []].
  - destruct (AttendanceController.update_attendance_status x new_status st)
      as [[r|e] st1] eqn:Hrun.
    + rewrite (bulk_update_loop_step_ok _ _ _ _ _ _ _ Hrun) in Hloop.
      destruct (IH _ _ _ _ Hloop) as [Hkeep Hrest].
      split.
      * intros i Hb. apply Hkeep.
        apply (updated_then_blocked _ _ _ _ _ _ Hrun). now right.
      * intros i [<-|Hin]; [|now apply Hrest].
        apply Hkeep. apply (updated_then_blocked _ _ _ _ _ _ Hrun). now left.
    + pose proof (raised_update_blocked _ _ _ _ _ Hrun) as Hbx.
      rewrite (bulk_update_loop_step_fail _ _ _ _ _ _ _ Hrun) in Hloop.
      destruct (IH _ _ _ _ Hloop) as [Hkeep Hrest].
      split; [exact Hkeep|].
      intros i [<-|Hin]; [now apply Hkeep | now apply Hrest].
Qed.

Lemma bulk_update_loop_all_blocked (attendance_ids : list Z)
    (new_status : AttendanceStatus) (acc : list AttendanceRecord.t)
    (st : Store) :
  (forall i, In i attendance_ids -> blocked i new_status st) ->
  AttendanceController.bulk_update_loop attendance_ids new_status acc st
  = (Ok acc, st).
Proof.
  induction attendance_ids as [|x rest IH]; intros Hall; [reflexivity|].
  destruct (blocked_update_raises st x new_status (Hall x (or_introl eq_refl)))
    as (e & Hrun).
  rewrite (bulk_update_loop_step_fail _ _ _ _ _ _ _ Hrun).
  apply IH. intros i Hi. apply Hall. now right.
Qed.

(** X19. [bulk_update_status] leaves nothing for a second run: since no
    status may be changed to itself, repeating the same call right after
    the first one updates no record, returns the empty list and leaves the
    store as the first run left it. *)
Theorem bulk_update_status_second_run (attendance_ids : list Z)
    (new_status : AttendanceStatus) (st : Store) :
  exists updated st',
    AttendanceController.bulk_update_status attendance_ids new_status st
    = (Ok updated, st')
    /\ AttendanceController.bulk_update_status attendance_ids new_status st'
       = (Ok [], st').
Proof.
  unfold AttendanceController.bulk_update_status.
  destruct (bulk_update_loop_total attendance_ids new_status [] st)
    as (updated & st' & Hloop & _).
  exists updated, st'. split; [exact Hloop|].
  apply bulk_update_loop_all_blocked.
  exact (proj2 (bulk_update_loop_blocks _ _ _ _ _ _ Hloop)).
Qed.

(** ** Notifications *)

Lemma mark_as_read_run (st : Store) (notification_id user_id : Z) :
  NotificationController.mark_as_read notification_id user_id st
  = match session_get (notifications st) notification_id with
    | None =>
        (Raise (HTTPException HTTP_404_NOT_FOUND
                  ("Notification with ID " +++ str_of_int notification_id
                   +++ " not found")), st)
    | Some n =>
        if negb (Notification.user_id n =? user_id) then
          (Raise (HTTPException HTTP_403_FORBIDDEN
                    "You can only mark your own notifications as read"), st)
        else if Notification.is_read n then (Ok n, st)
        else
          (Ok (Notification.with_is_read true n),
           set_notifications
             (sql_update notification_id (Notification.with_is_read true)) st)
    end.
Proof.
  unfold NotificationController.mark_as_read,
    NotificationController.get_notification_by_id. run.
  destruct (session_get (notifications st) notification_id) as [n|] eqn:Hn;
    [|reflexivity].
  pose proof (session_get_pk _ _ _ Hn) as Hpk. simpl in Hpk.
  destruct (Notification.user_id n =? user_id); simpl; [|reflexivity].
  destruct (Notification.is_read n); [reflexivity|]. now rewrite Hpk.
Qed.

(** X20. [mark_as_read] answers 404 for an unknown notification and 403
    for a notification of another user, writing nothing.  For the owner it
    returns the notification as read; the stored notification is then read,
    the other notifications are as before, and marking it again returns the
    same notification without any further write. *)
Theorem mark_as_read_effect (st : Store) (notification_id user_id : Z) :
  (session_get (notifications st) notification_id = None ->
   NotificationController.mark_as_read notification_id user_id st
   = (Raise (HTTPException HTTP_404_NOT_FOUND
               ("Notification with ID " +++ str_of_int notification_id
                +++ " not found")), st))
  /\ (forall n,
        session_get (notifications st) notification_id = Some n ->
        (Notification.user_id n <> user_id ->
         NotificationController.mark_as_read notification_id user_id st
         = (Raise (HTTPException HTTP_403_FORBIDDEN
                     "You can only mark your own notifications as read"), st))
        /\ (Notification.user_id n = user_id ->
            exists n' st',
              NotificationController.mark_as_read notification_id user_id st
              = (Ok n', st')
              /\ Notification.is_read n' = true
              /\ session_get (notifications st') notification_id = Some n'
              /\ Notification.message n' = Notification.message n
              /\ (forall i, i <> notification_id ->
                    session_get (notifications st') i
                    = session_get (notifications st) i)
              /\ NotificationController.mark_as_read notification_id user_id st'
                 = (Ok n', st'))).
Proof.
  split.
  - intros Hn. now rewrite mark_as_read_run, Hn.
  - intros n Hn. split.
    + intros Hne. rewrite mark_as_read_run, Hn.
      apply Z.eqb_neq in Hne. now rewrite Hne.
    + intros Hown. rewrite mark_as_read_run, Hn.
      apply Z.eqb_eq in Hown. rewrite Hown. cbn [negb].
      destruct (Notification.is_read n) eqn:Hread.
      * exists n, st. repeat split; auto.
        now rewrite mark_as_read_run, Hn, Hown, Hread.
      * eexists. eexists. split; [reflexivity|].
        cbn [notifications set_notifications].
        split; [reflexivity|].
        assert (Hget : session_get
                         (sql_update notification_id
                            (Notification.with_is_read true) (notifications st))
                         notification_id
                       = Some (Notification.with_is_read true n)).
        { rewrite session_get_sql_update_same by reflexivity. now rewrite Hn. }
        split; [exact Hget|]. split; [reflexivity|]. split.
        -- intros i Hi. rewrite session_get_sql_update by reflexivity.
           apply Z.eqb_neq in Hi. rewrite Hi.
           now destruct (session_get (notifications st) i).
        -- rewrite mark_as_read_run.
           cbn [notifications set_notifications]. rewrite Hget.
           cbn [Notification.user_id Notification.with_is_read
                Notification.is_read]. now rewrite Hown.
Qed.

(** X20, on the concrete store after student 1 (user 11) submitted a
    justification and was notified. *)
Lemma mark_as_read_effect_witness :
  (exists n' st',
     NotificationController.mark_as_read 1 11 submitted_store = (Ok n', st')
     /\ Notification.is_read n' = true
     /\ NotificationController.mark_as_read 1 11 st' = (Ok n', st'))
  /\ NotificationController.mark_as_read 1 12 submitted_store
     = (Raise (HTTPException HTTP_403_FORBIDDEN
                 "You can only mark your own notifications as read"),
        submitted_store).
Proof.
  destruct (mark_as_read_effect submitted_store 1 11) as (_ & Hmine).
  destruct (mark_as_read_effect submitted_store 1 12) as (_ & Hother).
  pose (n := Notification.mk 1 "Justification Submitted"
               "Your justification for attendance record #1 has been submitted and is pending review."
               (Some JUSTIFICATION_SUBMITTED) false 11).
  split.
  - destruct (proj2 (Hmine n eq_refl) eq_refl)
      as (n' & st' & Hrun & Hread & _ & _ & _ & Hagain).
    exists n', st'. auto.
  - apply (proj1 (Hother n eq_refl)). discriminate.
Defined.

(** ** The justification controller on its own *)

(** X21. [JustificationController.approve] and [reject] write the
    justification's status and at most add notifications: on a PENDING
    justification they succeed, no attendance record and no enrollment is
    touched, and the justification is no longer among those [get_pending]
    returns.  On a justification that is not PENDING both fail with 400
    "Justification has already been ..." and write nothing. *)
Theorem approve_reject_alone (st : Store) (justification_id : Z)
    (j : Justification.t) :
  session_get (justifications st) justification_id = Some j ->
  (Justification.status j = PENDING ->
   students_have_users st ->
   (exists st',
      JustificationController.approve justification_id st
      = (Ok (Justification.with_status APPROVED j), st')
      /\ attendance_records st' = attendance_records st
      /\ enrollments st' = enrollments st
      /\ (forall l, fst (JustificationController.get_pending st') = Ok l ->
            forall j', In j' l -> Justification.id j' <> justification_id))
   /\ (exists st',
         JustificationController.reject justification_id st
         = (Ok (Justification.with_status REJECTED j), st')
         /\ attendance_records st' = attendance_records st
         /\ enrollments st' = enrollments st
         /\ (forall l, fst (JustificationController.get_pending st') = Ok l ->
               forall j', In j' l -> Justification.id j' <> justification_id)))
  /\ (Justification.status j <> PENDING ->
      JustificationController.approve justification_id st
      = (Raise (HTTPException HTTP_400_BAD_REQUEST
                  ("Justification has already been "
                   +++ lower (JustificationStatus_value
                                (Justification.status j)))), st)
      /\ JustificationController.reject justification_id st
         = (Raise (HTTPException HTTP_400_BAD_REQUEST
                     ("Justification has already been "
                      +++ lower (JustificationStatus_value
                                   (Justification.status j)))), st)).
Proof.
  intros Hj. split.
  - intros Hpending Hfk.
    assert (Hgone : forall s added l,
              s <> PENDING ->
              fst (JustificationController.get_pending
                     (set_notifications (fun tbl => tbl ++ added)
                        (set_justifications
                           (sql_update justification_id
                              (Justification.with_status s)) st))) = Ok l ->
              forall j', In j' l -> Justification.id j' <> justification_id).
    { intros s added l Hs Hl j' Hin Hid.
      unfold JustificationController.get_pending, query in Hl.
      cbn [fst justifications set_notifications set_justifications] in Hl.
      inversion Hl; subst l; clear Hl.
      unfold select_all in Hin. apply filter_In in Hin.
      destruct Hin as [Hin Hp]. apply JustificationStatus_eqb_eq in Hp.
      unfold sql_update in Hin. apply in_map_iff in Hin.
      destruct Hin as (x & Hx & _).
      destruct (pk x =? justification_id) eqn:Hpk.
      - subst j'. simpl in Hp. contradiction.
      - subst j'. apply Z.eqb_neq in Hpk. contradiction. }
    split.
    + destruct (approve_run st justification_id j Hj Hpending Hfk)
        as (added & Hrun).
      eexists. split; [exact Hrun|]. split; [reflexivity|].
      split; [reflexivity|].
      intros l Hl. apply (Hgone APPROVED added l); [discriminate | exact Hl].
    + destruct (reject_run st justification_id j Hj Hpending Hfk)
        as (added & Hrun).
      eexists. split; [exact Hrun|]. split; [reflexivity|].
      split; [reflexivity|].
      intros l Hl. apply (Hgone REJECTED added l); [discriminate | exact Hl].
  - intros Hst.
    unfold JustificationController.approve, JustificationController.reject,
      JustificationController.get_justification_by_id.
    run. rewrite Hj.
    destruct (Justification.status j); try congruence; split; reflexivity.
Qed.

(** X21, on the concrete store after student 1 submitted a justification
    and after its rejection. *)
Lemma approve_reject_alone_witness :
  (exists st',
     JustificationController.approve 1 submitted_store
     = (Ok (Justification.mk 1 1 (Some "medical certificate") None APPROVED), st')
     /\ attendance_records st' = attendance_records submitted_store)
  /\ JustificationController.approve 1 rejected_store
     = (Raise (HTTPException HTTP_400_BAD_REQUEST
                 "Justification has already been rejected"), rejected_store).
Proof.
  split.
  - destruct (approve_reject_alone submitted_store 1
                (Justification.mk 1 1 (Some "medical certificate") None PENDING)
                eq_refl) as (Hok & _).
    destruct (Hok eq_refl scenario_students_have_users)
      as ((st' & Hrun & Hrec & _) & _).
    exists st'. split; [exact Hrun | exact Hrec].
  - destruct (approve_reject_alone rejected_store 1
                (Justification.mk 1 1 (Some "medical certificate") None REJECTED)
                eq_refl) as (_ & Hno).
    exact (proj1 (Hno ltac:(discriminate))).
Defined.

(** ** The two ways of closing a session *)

Lemma closed_session_get (st : Store) (session_id : Z) (s : ClassSession.t) :
  session_get (sessions st) session_id = Some s ->
  session_get
    (sql_update session_id (ClassSession.with_is_active false) (sessions st))
    session_id
  = Some (ClassSession.with_is_active false s).
Proof.
  intros Hs. rewrite session_get_sql_update_same by reflexivity. now rewrite Hs.
Qed.

(** X22. A failing [SessionController.close_session] does not always leave
    the store alone.  An unknown session (404), an open session of another
    teacher (403) and an open session whose teacher-module assignment row
    is missing (Python's [AttributeError], the row being used without a
    check) fail before any write, and so does every failure other than
    [DataError].  But when the owner closes an open session and a counter
    to be raised would leave its INTEGER column, the call fails with
    [DataError] after the session has been committed as closed: the
    session is stored inactive, no enrollment and no attendance record is
    changed, and a second call is refused with 400 "Session is already
    closed", so that the absences of this session are never counted. *)
Theorem session_close_session_refusals (st : Store)
    (session_id teacher_id : Z) :
  (session_get (sessions st) session_id = None ->
   SessionController.close_session session_id teacher_id st
   = (Raise (HTTPException HTTP_404_NOT_FOUND
               ("Session with ID " +++ str_of_int session_id +++ " not found")),
      st))
  /\ (forall s,
        session_get (sessions st) session_id = Some s ->
        ClassSession.is_active s = true ->
        (session_get (teacher_modules st) (ClassSession.teacher_module_id s)
         = None ->
         SessionController.close_session session_id teacher_id st
         = (Raise (AttributeError
                     "'NoneType' object has no attribute 'teacher_id'"), st))
        /\ (forall tm,
              session_get (teacher_modules st)
                (ClassSession.teacher_module_id s) = Some tm ->
              TeacherModules.teacher_id tm <> teacher_id ->
              SessionController.close_session session_id teacher_id st
              = (Raise (HTTPException HTTP_403_FORBIDDEN
                          "You don't have permission to close this session"),
                 st))
        /\ (forall tm,
              session_get (teacher_modules st)
                (ClassSession.teacher_module_id s) = Some tm ->
              TeacherModules.teacher_id tm = teacher_id ->
              pk_unique (enrollments st) ->
              counters_fit
                (select_all
                   (fun r => AttendanceRecord.session_id r =? session_id)
                   (attendance_records st))
                (enrollments st) = false ->
              exists st' s',
                SessionController.close_session session_id teacher_id st
                = (Raise (DataError "integer out of range"), st')
                /\ session_get (sessions st') session_id = Some s'
                /\ ClassSession.is_active s' = false
                /\ enrollments st' = enrollments st
                /\ attendance_records st' = attendance_records st
                /\ SessionController.close_session session_id teacher_id st'
                   = (Raise (HTTPException HTTP_400_BAD_REQUEST
                               "Session is already closed"), st')))
  /\ (forall e st',
        SessionController.close_session session_id teacher_id st
        = (Raise e, st') ->
        (forall message, e <> DataError message) -> st' = st)
  /\ (forall message st',
        SessionController.close_session session_id teacher_id st
        = (Raise (DataError message), st') ->
        enrollments st' = enrollments st
        /\ attendance_records st' = attendance_records st
        /\ exists s',
             session_get (sessions st') session_id = Some s'
             /\ ClassSession.is_active s' = false).
Proof.
  pose proof (session_close_session_cases st session_id teacher_id) as Hc.
  cbv zeta in Hc.
  split; [|split; [|split]].
  - intros Hs. now rewrite Hs in Hc.
  - intros s Hs Hact. rewrite Hs, Hact in Hc. split; [|split].
    + intros Htm. now rewrite Htm in Hc.
    + intros tm Htm Hne. rewrite Htm in Hc.
      apply Z.eqb_neq in Hne. now rewrite Hne in Hc.
    + intros tm Htm Hown Hu Hfit.
      pose proof (session_close_session_run st session_id teacher_id s tm
                    Hs Hact Htm Hown Hu) as Hrun.
      cbv zeta in Hrun. rewrite Hfit in Hrun.
      eexists. exists (ClassSession.with_is_active false s).
      split; [exact Hrun|].
      cbn [sessions enrollments attendance_records set_sessions].
      split; [now apply closed_session_get|].
      split; [now destruct s|]. split; [reflexivity|]. split; [reflexivity|].
      pose proof (session_close_session_cases
                    (set_sessions
                       (sql_update session_id
                          (ClassSession.with_is_active false)) st)
                    session_id teacher_id) as Hc2.
      cbv zeta in Hc2. cbn [sessions set_sessions] in Hc2.
      rewrite (closed_session_get st session_id s Hs) in Hc2.
      replace (ClassSession.is_active (ClassSession.with_is_active false s))
        with false in Hc2 by now destruct s.
      exact Hc2.
  - intros e st' Hrun Hnot.
    destruct (session_get (sessions st) session_id) as [s|];
      [|rewrite Hc in Hrun; now inversion Hrun].
    destruct (ClassSession.is_active s);
      [|rewrite Hc in Hrun; now inversion Hrun].
    destruct (session_get (teacher_modules st) _) as [tm|];
      [|rewrite Hc in Hrun; now inversion Hrun].
    destruct (TeacherModules.teacher_id tm =? teacher_id);
      [|rewrite Hc in Hrun; now inversion Hrun].
    destruct Hc as [(f & Hc)|Hc]; rewrite Hc in Hrun; [discriminate|].
    inversion Hrun; subst e. now contradiction (Hnot "integer out of range").
  - intros message st' Hrun.
    destruct (session_get (sessions st) session_id) as [s|] eqn:Hs;
      [|rewrite Hc in Hrun; discriminate].
    destruct (ClassSession.is_active s);
      [|rewrite Hc in Hrun; discriminate].
    destruct (session_get (teacher_modules st) _) as [tm|];
      [|rewrite Hc in Hrun; discriminate].
    destruct (TeacherModules.teacher_id tm =? teacher_id);
      [|rewrite Hc in Hrun; discriminate].
    destruct Hc as [(f & Hc)|Hc]; rewrite Hc in Hrun; [discriminate|].
    inversion Hrun; subst st'.
    cbn [sessions enrollments attendance_records set_sessions].
    split; [reflexivity|]. split; [reflexivity|].
    exists (ClassSession.with_is_active false s).
    split; [now apply closed_session_get | now destruct s].
Qed.

(** X22, on the concrete stores: session 99 does not exist, the open
    session 1 belongs to teacher 1 and not to teacher 2, and with the
    absence counter of the absent student 1 at the top of its column
    teacher 1 closes session 1 without any absence being counted. *)
Lemma session_close_session_refusals_witness :
  SessionController.close_session 99 1 scenario_store
  = (Raise (HTTPException HTTP_404_NOT_FOUND "Session with ID 99 not found"),
     scenario_store)
  /\ SessionController.close_session 1 2 scenario_store
     = (Raise (HTTPException HTTP_403_FORBIDDEN
                 "You don't have permission to close this session"),
        scenario_store)
  /\ (exists st' s',
        SessionController.close_session 1 1 full_counter_store
        = (Raise (DataError "integer out of range"), st')
        /\ session_get (sessions st') 1 = Some s'
        /\ ClassSession.is_active s' = false
        /\ enrollments st' = enrollments full_counter_store
        /\ SessionController.close_session 1 1 st'
           = (Raise (HTTPException HTTP_400_BAD_REQUEST
                       "Session is already closed"), st')).
Proof.
  split; [|split].
  - exact (proj1 (session_close_session_refusals scenario_store 99 1) eq_refl).
  - destruct (session_close_session_refusals scenario_store 1 2)
      as (_ & Hopen & _).
    destruct (Hopen (ClassSession.mk 1 "ABC123" (Some "A1") 90 true 1)
                eq_refl eq_refl) as (_ & Hother & _).
    apply (Hother (TeacherModules.mk 1 1 1) eq_refl). discriminate.
  - destruct (session_close_session_refusals full_counter_store 1 1)
      as (_ & Hopen & _).
    destruct (Hopen (ClassSession.mk 1 "ABC123" (Some "A1") 90 true 1)
                eq_refl eq_refl) as (_ & _ & Hfull).
    assert (Hu : pk_unique (enrollments full_counter_store))
      by (apply nodupb_sound; reflexivity).
    destruct (Hfull (TeacherModules.mk 1 1 1) eq_refl eq_refl Hu eq_refl)
      as (st' & s' & Hrun & Hs' & Hact & Henr & _ & Hagain).
    exists st', s'. auto.
Defined.

(** X23. [SessionController.close_session] accepts no request that
    [TeacherController.close_session] refuses: when it succeeds, so does
    the teacher's method, with the same session table, in which the
    session is inactive, and the same attendance records; the two
    resulting stores differ in the enrollment table only, which the
    teacher's method does not write.  Conversely, when the teacher's
    method succeeds, [SessionController.close_session] either succeeds or
    fails with [DataError], leaving exactly the store the teacher's method
    leaves; it succeeds when enrollment keys are unique and no raised
    counter leaves its column. *)
Theorem close_session_versions (st : Store) (session_id teacher_id : Z) :
  (forall resp1 st1,
     SessionController.close_session session_id teacher_id st
     = (Ok resp1, st1) ->
     exists resp2 st2 s',
       TeacherController.close_session session_id teacher_id st
       = (Ok resp2, st2)
       /\ sessions st1 = sessions st2
       /\ session_get (sessions st1) session_id = Some s'
       /\ ClassSession.is_active s' = false
       /\ attendance_records st1 = attendance_records st2
       /\ attendance_records st2 = attendance_records st
       /\ enrollments st2 = enrollments st
       /\ (exists f, st1 = set_enrollments f st2))
  /\ (forall resp2 st2,
        TeacherController.close_session session_id teacher_id st
        = (Ok resp2, st2) ->
        ((exists resp1 st1,
            SessionController.close_session session_id teacher_id st
            = (Ok resp1, st1))
         \/ SessionController.close_session session_id teacher_id st
            = (Raise (DataError "integer out of range"), st2))
        /\ (pk_unique (enrollments st) ->
            counters_fit
              (select_all
                 (fun r => AttendanceRecord.session_id r =? session_id)
                 (attendance_records st))
              (enrollments st) = true ->
            exists resp1 st1,
              SessionController.close_session session_id teacher_id st
              = (Ok resp1, st1))).
Proof.
  pose proof (session_close_session_cases st session_id teacher_id) as Hc.
  cbv zeta in Hc.
  pose proof (teacher_close_session_run st session_id teacher_id) as Ht.
  destruct (session_get (sessions st) session_id) as [s|] eqn:Hs.
  2:{ split; intros ? ? Hrun; congruence. }
  destruct (session_get (teacher_modules st) (ClassSession.teacher_module_id s))
    as [tm|] eqn:Htm.
  2:{ split; intros ? ? Hrun; [|congruence].
      destruct (ClassSession.is_active s); congruence. }
  destruct (TeacherModules.teacher_id tm =? teacher_id) eqn:Hown.
  2:{ split; intros ? ? Hrun; [|congruence].
      destruct (ClassSession.is_active s); congruence. }
  destruct (ClassSession.is_active s) eqn:Hact.
  2:{ split; intros ? ? Hrun; congruence. }
  split.
  - intros resp1 st1 Hrun.
    destruct Hc as [(f & Hc)|Hc]; [|congruence].
    rewrite Hc in Hrun. inversion Hrun; subst resp1 st1; clear Hrun.
    eexists. eexists. exists (ClassSession.with_is_active false s).
    split; [exact Ht|].
    cbn [sessions attendance_records enrollments set_sessions set_enrollments].
    split; [reflexivity|]. split; [now apply closed_session_get|].
    split; [now destruct s|]. split; [reflexivity|]. split; [reflexivity|].
    split; [reflexivity|]. exists f. reflexivity.
  - intros resp2 st2 Hrun. rewrite Ht in Hrun.
    inversion Hrun; subst resp2 st2; clear Hrun. split.
    + destruct Hc as [(f & Hc)|Hc]; [left | right; exact Hc].
      eexists. eexists. exact Hc.
    + intros Hu Hfit. apply Z.eqb_eq in Hown.
      pose proof (session_close_session_run st session_id teacher_id s tm
                    Hs Hact Htm Hown Hu) as Hrun.
      cbv zeta in Hrun. rewrite Hfit in Hrun.
      eexists. eexists. exact Hrun.
Qed.

(** X23, on the concrete stores: teacher 1 closes the open session 1 with
    either method; with a counter at the top of its column only the
    teacher's method succeeds. *)
Lemma close_session_versions_witness :
  (exists resp1 st1 resp2 st2,
     SessionController.close_session 1 1 scenario_store = (Ok resp1, st1)
     /\ TeacherController.close_session 1 1 scenario_store = (Ok resp2, st2)
     /\ sessions st1 = sessions st2
     /\ session_get (sessions st1) 1
        = Some (ClassSession.mk 1 "ABC123" (Some "A1") 90 false 1)
     /\ enrollments st2 = enrollments scenario_store)
  /\ (exists resp2 st2,
        TeacherController.close_session 1 1 full_counter_store = (Ok resp2, st2)
        /\ SessionController.close_session 1 1 full_counter_store
           = (Raise (DataError "integer out of range"), st2)).
Proof.
  split.
  - destruct (SessionController.close_session 1 1 scenario_store)
      as [[resp1 | e] st1] eqn:Hrun; [|vm_compute in Hrun; discriminate].
    destruct (close_session_versions scenario_store 1 1) as (Hsame & _).
    destruct (Hsame resp1 st1 Hrun)
      as (resp2 & st2 & s' & Hrun2 & Hsess & _ & _ & _ & _ & Henr & _).
    exists resp1, st1, resp2, st2.
    split; [reflexivity|]. split; [exact Hrun2|]. split; [exact Hsess|].
    split; [|exact Henr].
    vm_compute in Hrun. inversion Hrun. reflexivity.
  - destruct (close_session_versions full_counter_store 1 1) as (_ & Hconv).
    eexists. eexists. split; [reflexivity|].
    destruct (Hconv _ _ eq_refl) as ([(resp1 & st1 & Hok)|Hfail] & _).
    + vm_compute in Hok. discriminate.
    + exact Hfail.
Defined.

(** ** The modules a student sees *)

Lemma modules_of_run (es : list Enrollment.t) :
  forall (acc : list Module_.t) (st : Store),
    StudentController.modules_of es acc st
    = (Ok (acc ++ flat_map (fun e =>
                     match session_get (modules st) (Enrollment.module_id e) with
                     | Some m => [m]
                     | None => []
                     end) es), st).
Proof.
  induction es as [|e es IH]; intros acc st; simpl.
  - unfold ret. now rewrite app_nil_r.
  - unfold bind at 1. unfold query at 1.
    destruct (session_get (modules st) (Enrollment.module_id e)) as [m|].
    + rewrite IH. now rewrite <- app_assoc.
    + now rewrite IH.
Qed.

Lemma get_modules_In (st : Store) (student_id : Z) (stu : Student.t) :
  session_get (students st) student_id = Some stu ->
  exists l,
    StudentController.get_modules student_id st = (Ok l, st)
    /\ (forall m,
          In m l <->
          exists e, In e (enrollments st)
                    /\ Enrollment.student_id e = student_id
                    /\ Enrollment.is_excluded e = false
                    /\ session_get (modules st) (Enrollment.module_id e)
                       = Some m).
Proof.
  intros Hstu.
  unfold StudentController.get_modules, StudentController.get_student_by_id.
  unfold bind at 1 2. unfold query at 1. rewrite Hstu.
  unfold or_raise at 1, ret at 1.
  unfold bind at 1. unfold query at 1.
  rewrite modules_of_run. eexists. split; [reflexivity|].
  intros m. cbn [app]. rewrite in_flat_map. unfold select_all. split.
  - intros (e & He & Hm). apply filter_In in He. destruct He as [He Hp].
    apply andb_true_iff in Hp. destruct Hp as [Hsid Hex].
    apply Z.eqb_eq in Hsid. apply Bool.eqb_prop in Hex.
    exists e. repeat split; auto.
    destruct (session_get (modules st) (Enrollment.module_id e)) as [m'|];
      [|contradiction].
    destruct Hm as [->|[]]. reflexivity.
  - intros (e & He & Hsid & Hex & Hm). exists e. split.
    + apply filter_In. split; [exact He|].
      apply andb_true_iff. split; [now apply Z.eqb_eq|].
      rewrite Hex. reflexivity.
    + rewrite Hm. now left.
Qed.

(** X24. [get_modules] of an existing student only reads the store and
    lists the module of an enrollment of the student that is not excluded.
    With unique keys and at most one enrollment per student and module,
    once [make_excluded_from_module] has excluded that enrollment the
    answer is the previous one without the module of the enrollment: that
    module is gone and every other module is still listed.  An unknown
    student is refused with 404. *)
Theorem get_modules_after_exclusion (st : Store) (enrollment_id : Z)
    (e : Enrollment.t) (stu : Student.t) :
  session_get (enrollments st) enrollment_id = Some e ->
  Enrollment.is_excluded e = false ->
  session_get (students st) (Enrollment.student_id e) = Some stu ->
  enrollment_pairs_unique (enrollments st) ->
  pk_unique (enrollments st) ->
  pk_unique (attendance_records st) ->
  exists before st' after,
    StudentController.get_modules (Enrollment.student_id e) st = (Ok before, st)
    /\ (forall m, session_get (modules st) (Enrollment.module_id e) = Some m ->
          In m before)
    /\ EnrollmentController.make_excluded_from_module enrollment_id st
       = (Ok (Enrollment.with_is_excluded true e), st')
    /\ StudentController.get_modules (Enrollment.student_id e) st'
       = (Ok after, st')
    /\ (forall m, In m after <->
          In m before /\ Module_.id m <> Enrollment.module_id e)
    /\ (forall i, session_get (students st) i = None ->
          StudentController.get_modules i st
          = (Raise (HTTPException HTTP_404_NOT_FOUND
                      ("Student with ID " +++ str_of_int i +++ " not found")),
             st)).
Proof.
  intros Hget Hex Hstu Hpairs Hue Hu.
  destruct (get_modules_In st _ stu Hstu) as (before & Hbefore & Hin).
  pose proof (make_excluded_from_module_run st enrollment_id e Hget Hex Hu)
    as Hrun.
  set (st' := set_attendance_records (map (exclude_absent enrollment_id))
                (set_enrollments
                   (sql_update enrollment_id (Enrollment.with_is_excluded true))
                   st)) in *.
  assert (Hstu' : session_get (students st') (Enrollment.student_id e)
                  = Some stu) by exact Hstu.
  destruct (get_modules_In st' _ stu Hstu') as (after & Hafter & Hin').
  exists before, st', after.
  pose proof (session_get_pk _ _ _ Hget) as Hpk. simpl in Hpk.
  pose proof (session_get_In _ _ _ Hget) as Hine.
  split; [exact Hbefore|]. split.
  { intros m Hm. apply Hin. exists e. auto. }
  split; [exact Hrun|]. split; [exact Hafter|]. split.
  - intros m. rewrite Hin', Hin. subst st'.
    cbn [enrollments modules set_attendance_records set_enrollments].
    unfold sql_update. split.
    + intros (e' & He' & Hsid & Hex' & Hm).
      apply in_map_iff in He'. destruct He' as (x & Hx & Hinx).
      destruct (pk x =? enrollment_id) eqn:Hx_id.
      * subst e'. simpl in Hex'. discriminate.
      * subst e'. split; [exists x; auto|].
        intros Hmod. apply session_get_pk in Hm. simpl in Hm.
        assert (Heq : x = e).
        { apply (NoDup_map_inj
                   (fun e => (Enrollment.student_id e, Enrollment.module_id e))
                   (enrollments st)); auto.
          simpl. f_equal; congruence. }
        subst x. apply Z.eqb_neq in Hx_id. apply Hx_id. exact Hpk.
    + intros ((e' & He' & Hsid & Hex' & Hm) & Hne).
      exists e'. split; [|auto].
      apply in_map_iff. exists e'. split; [|exact He'].
      destruct (pk e' =? enrollment_id) eqn:He_id; [|reflexivity].
      exfalso. apply Hne. apply Z.eqb_eq in He_id.
      assert (Heq : Some e' = Some e).
      { rewrite <- Hget, <- He_id.
        symmetry. now apply pk_unique_session_get. }
      inversion Heq; subst e'.
      apply session_get_pk in Hm. simpl in Hm. exact Hm.
  - intros i Hi.
    unfold StudentController.get_modules, StudentController.get_student_by_id.
    unfold bind at 1 2. unfold query at 1. now rewrite Hi.
Qed.

(** X24, on the concrete store: student 1 sees module 1 until enrollment 1
    is excluded. *)
Lemma get_modules_after_exclusion_witness :
  exists before st' after,
    StudentController.get_modules 1 scenario_store = (Ok before, scenario_store)
    /\ In (Module_.mk 1 "Algorithms" (Some "A1")) before
    /\ EnrollmentController.make_excluded_from_module 1 scenario_store
       = (Ok (Enrollment.mk 1 1 1 0 0 true), st')
    /\ StudentController.get_modules 1 st' = (Ok after, st')
    /\ ~ In (Module_.mk 1 "Algorithms" (Some "A1")) after.
Proof.
  assert (Hpairs : enrollment_pairs_unique (enrollments scenario_store)).
  { unfold enrollment_pairs_unique. simpl.
    repeat (constructor; [simpl; intuition congruence|]). constructor. }
  assert (Hue : pk_unique (enrollments scenario_store))
    by (apply nodupb_sound; reflexivity).
  assert (Hu : pk_unique (attendance_records scenario_store))
    by (apply nodupb_sound; reflexivity).
  destruct (get_modules_after_exclusion scenario_store 1
              (Enrollment.mk 1 1 1 0 0 false) (Student.mk 1 11 1)
              eq_refl eq_refl eq_refl Hpairs Hue Hu)
    as (before & st' & after & Hb & Hin & Hrun & Ha & Hiff & _).
  exists before, st', after.
  split; [exact Hb|]. split; [apply Hin; reflexivity|].
  split; [exact Hrun|]. split; [exact Ha|].
  intros Hm. apply Hiff in Hm. destruct Hm as [_ Hne]. now apply Hne.
Defined.
